(** * MedVidDeID artifact store, audit trail and artifact manager

    A shallow embedding of [pipeline/artifacts/{models,storage,audit,manager}.py]
    and the properties its specification states about it.

    Conventions of the embedding.
    - A Python [str] is a Rocq [string] read as a sequence of code points
      below U+0100 (one [ascii] per code point); the regular-expression class
      [\w] is the Unicode one of Python 3, restricted to that range.
    - The three directories owned by the manager are disjoint, so the file
      system is a record of finite maps: general files by path, the metadata
      directory by artifact id, the audit directory by file name, and the files
      written by the audit export by path.
    - A metadata file holds a JSON object with the keys [save_metadata]
      writes (its values are arbitrary texts and numbers) or a truncated
      document; a line of an audit log holds a complete record or text that is
      not JSON.
    - [datetime.now()] and [uuid.uuid4()] read from streams carried by the
      state; every call consumes one reading.  Datetimes are naive.
    - A Python object that a method mutates is passed in and handed back.
    - Calls run one at a time, so the two locks have nothing to exclude and
      are left out, as are the messages sent to the [logging] module. *)

From Stdlib Require Import ZArith NArith Ascii String List Lia Bool.
From Stdlib Require Import DecimalString DecimalN DecimalZ.
From stdpp Require Import base option gmap strings list sorting.

Set Warnings "-register-all,-clear-no-such-hyp".

Local Open Scope string_scope.
Local Open Scope N_scope.

(** ** Exceptions and results *)

Inductive exn_class :=
  | ValueError | TypeError | KeyError
  | FileNotFoundError | IsADirectoryError | JSONDecodeError.

(** An exception instance; [exn_str] is what [str(e)] returns. *)
Record exn := Exn { exn_kind : exn_class; exn_str : string }.

Inductive Result (A : Type) :=
  | Ok (a : A)
  | Raise (e : exn).
Arguments Ok {A} a.
Arguments Raise {A} e.

(** ** Decimal text *)

Definition digit_char (d : N) : ascii := ascii_of_N (48 + d mod 10).

Definition digit_val (c : ascii) : option N :=
  let v := N_of_ascii c in
  if (48 <=? v) && (v <=? 57) then Some (v - 48) else None.

Definition is_digit (c : ascii) : bool :=
  match digit_val c with Some _ => true | None => false end.

(** [zpad_onto k n rest] writes the [k] low decimal digits of [n] in front
    of [rest]: the text of [%0kd] for [n < 10^k]. *)
Fixpoint zpad_onto (k : nat) (n : N) (rest : string) : string :=
  match k with
  | O => rest
  | S k' => zpad_onto k' (n / 10) (String (digit_char n) rest)
  end.

Definition zpad (k : nat) (n : N) : string := zpad_onto k n "".

(** Reads exactly [k] decimal digits from the front of [s]. *)
Fixpoint take_digits (k : nat) (acc : N) (s : string) : option (N * string) :=
  match k with
  | O => Some (acc, s)
  | S k' =>
      match s with
      | String c r =>
          match digit_val c with
          | Some d => take_digits k' (acc * 10 + d) r
          | None => None
          end
      | EmptyString => None
      end
  end.

(** [str(n)] for a non-negative and for an arbitrary integer. *)
Definition decimal (n : N) : string := NilZero.string_of_uint (N.to_uint n).
Definition decimal_Z (z : Z) : string := NilZero.string_of_int (Z.to_int z).

Fixpoint all_chars (p : ascii → bool) (s : string) : bool :=
  match s with
  | EmptyString => true
  | String c r => p c && all_chars p r
  end.

Fixpoint map_chars (f : ascii → ascii) (s : string) : string :=
  match s with
  | EmptyString => EmptyString
  | String c r => String (f c) (map_chars f r)
  end.

(** [s.rfind(c)] *)
Fixpoint rfind (c : ascii) (s : string) : option nat :=
  match s with
  | EmptyString => None
  | String a r =>
      match rfind c r with
      | Some i => Some (S i)
      | None => if Ascii.eqb a c then Some O else None
      end
  end.

(** [s.startswith(p)] and [s.endswith(p)] *)
Definition startswith (p s : string) : bool := String.prefix p s.
Definition endswith (p s : string) : bool :=
  (String.length p <=? String.length s)%nat
  && String.eqb (substring (String.length s - String.length p) (String.length p) s) p.

(** ** Character classes of [re] on [str] patterns

    [\w] matches [c] when [c.isalnum()] or [c == '_'].  Below U+0100 the
    alphanumeric code points are the ASCII letters and digits, the letters
    U+00AA, U+00B5, U+00BA, U+00C0-U+00D6, U+00D8-U+00F6, U+00F8-U+00FF, and
    the numerics U+00B2, U+00B3, U+00B9, U+00BC-U+00BE. *)

Definition between (lo hi v : N) : bool := (lo <=? v) && (v <=? hi).

Definition ascii_alnum (c : ascii) : bool :=
  let v := N_of_ascii c in
  between 48 57 v || between 65 90 v || between 97 122 v.

Definition isalnum (c : ascii) : bool :=
  let v := N_of_ascii c in
  ascii_alnum c
  || (v =? 170) || (v =? 181) || (v =? 186)
  || between 192 214 v || between 216 246 v || between 248 255 v
  || (v =? 178) || (v =? 179) || (v =? 185) || between 188 190 v.

Definition re_word (c : ascii) : bool := isalnum c || Ascii.eqb c "_".

(** The negated class [[^\w\-_\.]]: what [re.sub] replaces. *)
Definition unsafe_char (c : ascii) : bool :=
  negb (re_word c || Ascii.eqb c "-" || Ascii.eqb c "_" || Ascii.eqb c ".").

(** [re.sub(r'[^\w\-_\.]', '_', name)] followed by the cut at 100. *)
Definition re_sub_unsafe (name : string) : string :=
  map_chars (fun c => if unsafe_char c then "_"%char else c) name.

Definition safe_filename (name : string) : string :=
  let safe := re_sub_unsafe name in
  if (100 <? String.length safe)%nat then substring 0 100 safe else safe.

(** The class the specification names: [A-Za-z0-9_.-]. *)
Definition spec_safe_char (c : ascii) : bool :=
  ascii_alnum c || Ascii.eqb c "_" || Ascii.eqb c "." || Ascii.eqb c "-".

(** ** Naive [datetime] values *)

Record datetime := mk_datetime {
  year : N; month : N; day : N;
  hour : N; minute : N; second : N; microsecond : N
}.

Definition is_leap (y : N) : bool :=
  (y mod 4 =? 0) && (negb (y mod 100 =? 0) || (y mod 400 =? 0)).

Definition days_in_month (y m : N) : N :=
  if m =? 2 then (if is_leap y then 29 else 28)
  else if (m =? 4) || (m =? 6) || (m =? 9) || (m =? 11) then 30
  else 31.

(** The range checks of the [datetime] constructor. *)
Definition valid_datetime (d : datetime) : bool :=
  between 1 9999 (year d) && between 1 12 (month d)
  && between 1 (days_in_month (year d) (month d)) (day d)
  && (hour d <? 24) && (minute d <? 60) && (second d <? 60)
  && (microsecond d <? 1000000).

Definition dt_fields (d : datetime) : list N :=
  [year d; month d; day d; hour d; minute d; second d; microsecond d].

Fixpoint lex_compare (a b : list N) : comparison :=
  match a, b with
  | [], [] => Eq
  | [], _ :: _ => Lt
  | _ :: _, [] => Gt
  | x :: a', y :: b' =>
      match x ?= y with
      | Eq => lex_compare a' b'
      | c => c
      end
  end.

(** [a < b] and [a <= b] on naive datetimes. *)
Definition dt_ltb (a b : datetime) : bool :=
  match lex_compare (dt_fields a) (dt_fields b) with Lt => true | _ => false end.
Definition dt_leb (a b : datetime) : bool := negb (dt_ltb b a).

(** [d.isoformat()]: [YYYY-MM-DDTHH:MM:SS], with [.ffffff] appended when the
    microsecond field is not zero. *)
Definition isoformat (d : datetime) : string :=
  let fraction :=
    if microsecond d =? 0 then "" else String "." (zpad 6 (microsecond d)) in
  zpad_onto 4 (year d) (String "-" (
  zpad_onto 2 (month d) (String "-" (
  zpad_onto 2 (day d) (String "T" (
  zpad_onto 2 (hour d) (String ":" (
  zpad_onto 2 (minute d) (String ":" (
  zpad_onto 2 (second d) fraction)))))))))).

(** [d.strftime("%Y%m")] *)
Definition strftime_Ym (d : datetime) : string :=
  zpad_onto 4 (year d) (zpad 2 (month d)).

Definition expect (c : ascii) (s : string) : option string :=
  match s with
  | String a r => if Ascii.eqb a c then Some r else None
  | EmptyString => None
  end.

(** The time part [HH[:MM[:SS[.fff[fff]]]]]. *)
Definition parse_fraction (s : string) : option N :=
  match take_digits 3 0 s with
  | Some (ms, EmptyString) => Some (ms * 1000)
  | Some (_, _) =>
      match take_digits 6 0 s with
      | Some (us, EmptyString) => Some us
      | _ => None
      end
  | None => None
  end.

Definition parse_time (s : string) : option (N * N * N * N) :=
  '(h, s1) ← take_digits 2 0 s;
  match s1 with
  | EmptyString => Some (h, 0, 0, 0)
  | _ =>
    s2 ← expect ":" s1;
    '(mi, s3) ← take_digits 2 0 s2;
    match s3 with
    | EmptyString => Some (h, mi, 0, 0)
    | _ =>
      s4 ← expect ":" s3;
      '(sec, s5) ← take_digits 2 0 s4;
      match s5 with
      | EmptyString => Some (h, mi, sec, 0)
      | _ => s6 ← expect "." s5; us ← parse_fraction s6; Some (h, mi, sec, us)
      end
    end
  end.

(** [datetime.fromisoformat(s)] on the texts that denote a naive datetime:
    [YYYY-MM-DD], optionally followed by one separator character and a time
    part.  [None] stands for the [ValueError] of a rejected text; texts with
    a UTC offset are outside this fragment and are rejected as well. *)
Definition fromisoformat (s : string) : option datetime :=
  '(y, s1) ← take_digits 4 0 s;
  s2 ← expect "-" s1;
  '(m, s3) ← take_digits 2 0 s2;
  s4 ← expect "-" s3;
  '(d, s5) ← take_digits 2 0 s4;
  '(h, mi, sec, us) ←
     match s5 with
     | EmptyString => Some (0, 0, 0, 0)
     | String _ t => parse_time t
     end;
  let r := mk_datetime y m d h mi sec us in
  if valid_datetime r then Some r else None.

(** ** models.py: the enumerations *)

Inductive ArtifactType :=
  | VIDEO_RAW | VIDEO_KEYPOINTS | VIDEO_DEID
  | AUDIO_RAW | AUDIO_TRANSCRIPT | AUDIO_PHI_INTERVALS | AUDIO_DEID
  | TEXT_RAW | TEXT_DEID | METADATA | LOG.

Inductive ArtifactStatus :=
  | PENDING | IN_PROGRESS | COMPLETED | FAILED | ARCHIVED.

#[global] Instance ArtifactStatus_eq_dec : EqDecision ArtifactStatus.
Proof. solve_decision. Defined.
#[global] Instance ArtifactType_eq_dec : EqDecision ArtifactType.
Proof. solve_decision. Defined.

Definition all_artifact_types : list ArtifactType :=
  [VIDEO_RAW; VIDEO_KEYPOINTS; VIDEO_DEID; AUDIO_RAW; AUDIO_TRANSCRIPT;
   AUDIO_PHI_INTERVALS; AUDIO_DEID; TEXT_RAW; TEXT_DEID; METADATA; LOG].

Definition all_artifact_statuses : list ArtifactStatus :=
  [PENDING; IN_PROGRESS; COMPLETED; FAILED; ARCHIVED].

(** [t.value] *)
Definition type_value (t : ArtifactType) : string :=
  match t with
  | VIDEO_RAW => "video_raw"
  | VIDEO_KEYPOINTS => "video_keypoints"
  | VIDEO_DEID => "video_deid"
  | AUDIO_RAW => "audio_raw"
  | AUDIO_TRANSCRIPT => "audio_transcript"
  | AUDIO_PHI_INTERVALS => "audio_phi_intervals"
  | AUDIO_DEID => "audio_deid"
  | TEXT_RAW => "text_raw"
  | TEXT_DEID => "text_deid"
  | METADATA => "metadata"
  | LOG => "log"
  end.

Definition status_value (s : ArtifactStatus) : string :=
  match s with
  | PENDING => "pending"
  | IN_PROGRESS => "in_progress"
  | COMPLETED => "completed"
  | FAILED => "failed"
  | ARCHIVED => "archived"
  end.

(** [ArtifactType(s)] and [ArtifactStatus(s)]: lookup of a member by value. *)
Definition ArtifactType_of (s : string) : Result ArtifactType :=
  match find (fun t => String.eqb (type_value t) s) all_artifact_types with
  | Some t => Ok t
  | None => Raise (Exn ValueError ("'" +:+ s +:+ "' is not a valid ArtifactType"))
  end.

Definition ArtifactStatus_of (s : string) : Result ArtifactStatus :=
  match find (fun t => String.eqb (status_value t) s) all_artifact_statuses with
  | Some t => Ok t
  | None => Raise (Exn ValueError ("'" +:+ s +:+ "' is not a valid ArtifactStatus"))
  end.

(** ** JSON documents and the Python values [json] converts *)

Inductive JVal :=
  | JNull
  | JBool (b : bool)
  | JInt (z : Z)
  | JStr (s : string)
  | JArr (items : list JVal)
  | JObj (members : list (string * JVal)).

Inductive PyKey :=
  | KStr (s : string)
  | KInt (z : Z)
  | KBool (b : bool)
  | KNone
  | KOther (tyname : string).

(** Values a caller may put in a metadata bag.  [POther] is any object the
    encoder has no rule for (a set, bytes, a [Path], a [datetime], ...);
    floating-point values are not represented. *)
Inductive PyVal :=
  | PNone
  | PBool (b : bool)
  | PInt (z : Z)
  | PStr (s : string)
  | PList (items : list PyVal)
  | PTuple (items : list PyVal)
  | PDict (items : list (PyKey * PyVal))
  | POther (tyname : string).

Definition mapM_result {A B : Type} (f : A → Result B) : list A → Result (list B) :=
  fix go (l : list A) : Result (list B) :=
    match l with
    | [] => Ok []
    | x :: r =>
        match f x with
        | Raise e => Raise e
        | Ok y => match go r with Raise e => Raise e | Ok ys => Ok (y :: ys) end
        end
    end.

(** The key coercion of [json.dump] (with [skipkeys=False]). *)
Definition dump_key (k : PyKey) : Result string :=
  match k with
  | KStr s => Ok s
  | KInt z => Ok (decimal_Z z)
  | KBool true => Ok "true"
  | KBool false => Ok "false"
  | KNone => Ok "null"
  | KOther ty =>
      Raise (Exn TypeError
        ("keys must be str, int, float, bool or None, not " +:+ ty))
  end.

(** [json.dump]: the document written for [v], or the [TypeError]. *)
Fixpoint py_to_json (v : PyVal) : Result JVal :=
  match v with
  | PNone => Ok JNull
  | PBool b => Ok (JBool b)
  | PInt z => Ok (JInt z)
  | PStr s => Ok (JStr s)
  | PList l =>
      match mapM_result py_to_json l with Ok js => Ok (JArr js) | Raise e => Raise e end
  | PTuple l =>
      match mapM_result py_to_json l with Ok js => Ok (JArr js) | Raise e => Raise e end
  | PDict kvs =>
      match mapM_result
              (fun kv => match kv with
                         | (k, x) =>
                             match dump_key k with
                             | Raise e => Raise e
                             | Ok ks =>
                                 match py_to_json x with
                                 | Raise e => Raise e
                                 | Ok j => Ok (ks, j)
                                 end
                             end
                         end) kvs with
      | Ok ms => Ok (JObj ms)
      | Raise e => Raise e
      end
  | POther ty =>
      Raise (Exn TypeError ("Object of type " +:+ ty +:+ " is not JSON serializable"))
  end.

(** [d[k] = x] on a string-keyed dict kept in insertion order. *)
Fixpoint dict_setitem (k : string) (x : PyVal) (d : list (PyKey * PyVal))
  : list (PyKey * PyVal) :=
  match d with
  | [] => [(KStr k, x)]
  | (k', y) :: r =>
      match k' with
      | KStr s => if String.eqb s k then (k', x) :: r else (k', y) :: dict_setitem k x r
      | _ => (k', y) :: dict_setitem k x r
      end
  end.

(** [json.load]: arrays become lists, objects become dicts whose later
    members override earlier ones of the same name. *)
Fixpoint json_to_py (j : JVal) : PyVal :=
  match j with
  | JNull => PNone
  | JBool b => PBool b
  | JInt z => PInt z
  | JStr s => PStr s
  | JArr l => PList (map json_to_py l)
  | JObj ms =>
      PDict (fold_left (fun d kv => dict_setitem (fst kv) (snd kv) d)
                       (map (fun kv => match kv with (k, x) => (k, json_to_py x) end) ms)
                       [])
  end.

(** [bool(v)] *)
Definition py_truthy (v : PyVal) : bool :=
  match v with
  | PNone => false
  | PBool b => b
  | PInt z => negb (z =? 0)%Z
  | PStr s => negb (String.eqb s "")
  | PList l | PTuple l => match l with [] => false | _ => true end
  | PDict d => match d with [] => false | _ => true end
  | POther _ => true
  end.

Definition str_truthy (s : string) : bool := negb (String.eqb s "").

(** Values that [json.dump] followed by [json.load] gives back unchanged:
    [None], booleans, integers, strings, lists of such, and dicts of such
    whose keys are pairwise distinct strings. *)
Definition key_str (k : PyKey) : option string :=
  match k with KStr s => Some s | _ => None end.

Fixpoint distinct (l : list string) : bool :=
  match l with
  | [] => true
  | x :: r => negb (existsb (String.eqb x) r) && distinct r
  end.

Fixpoint json_native (v : PyVal) : bool :=
  match v with
  | PNone | PBool _ | PInt _ | PStr _ => true
  | PList l => forallb json_native l
  | PTuple _ | POther _ => false
  | PDict kvs =>
      forallb (fun kv => match fst kv with KStr _ => true | _ => false end) kvs
      && distinct (omap (fun kv => key_str (fst kv)) kvs)
      && forallb (fun kv => json_native (snd kv)) kvs
  end.

(** ** Paths

    A [Path] always has a non-empty string form ([Path("")] is [Path(".")]);
    the record keeps the first character apart so that this holds by
    construction.  Normalisation of separators is not modelled. *)

Record Path := mkPath { path_head : ascii; path_tail : string }.

(** [str(p)], [Path(s)], [p / name] and [p.name] *)
Definition path_str (p : Path) : string := String (path_head p) (path_tail p).

Definition Path_of (s : string) : Path :=
  match s with
  | EmptyString => mkPath "." ""
  | String c r => mkPath c r
  end.

Definition path_join (p : Path) (name : string) : Path :=
  Path_of (path_str p +:+ "/" +:+ name).

Definition basename (s : string) : string :=
  match rfind "/" s with
  | Some i => substring (S i) (String.length s - S i) s
  | None => s
  end.

Definition path_name (p : Path) : string := basename (path_str p).

(** [PurePath.stem] of a file name: the name without its last suffix. *)
Definition stem (name : string) : string :=
  match rfind "." name with
  | Some i =>
      if (0 <? i)%nat && (i <? String.length name - 1)%nat
      then substring 0 i name else name
  | None => name
  end.

(** ** models.py: the data classes *)

Record ArtifactMetadata := mk_artifact {
  artifact_id : string;
  artifact_type : ArtifactType;
  status : ArtifactStatus;
  created_at : datetime;
  updated_at : datetime;
  source_artifacts : list string;
  processing_module : option string;
  processing_version : option string;
  file_path : option Path;
  file_size : option Z;
  checksum : option string;
  metadata : PyVal;
  error_message : option string
}.

Module AuditEntry.
Record t := mk {
    entry_id : string;
    timestamp : datetime;
    operation : string;
    artifact_id : option string;
    user : option string;
    module : option string;
    action : string;
    details : JVal;
    success : bool;
    error_message : option string
  }.
End AuditEntry.

(** The dict of [AuditEntry.to_dict], which is also what [json.loads] gives
    back for a line of the audit log: [k_x e] is [e["x"]]. *)
Record AuditDict := mk_audit_dict {
  k_entry_id : string;
  k_timestamp : string;
  k_operation : string;
  k_artifact_id : option string;
  k_user : option string;
  k_module : option string;
  k_action : string;
  k_details : JVal;
  k_success : bool;
  k_error_message : option string
}.

Definition to_dict (e : AuditEntry.t) : AuditDict :=
  {| k_entry_id := AuditEntry.entry_id e;
     k_timestamp := isoformat (AuditEntry.timestamp e);
     k_operation := AuditEntry.operation e;
     k_artifact_id := AuditEntry.artifact_id e;
     k_user := AuditEntry.user e;
     k_module := AuditEntry.module e;
     k_action := AuditEntry.action e;
     k_details := AuditEntry.details e;
     k_success := AuditEntry.success e;
     k_error_message := AuditEntry.error_message e |}.

(** [d.keys()] of such a dict, in insertion order. *)
Definition audit_keys : list string :=
  ["entry_id"; "timestamp"; "operation"; "artifact_id"; "user"; "module";
   "action"; "details"; "success"; "error_message"].

Module ProcessingRun.
Record t := mk {
    run_id : string;
    started_at : datetime;
    completed_at : option datetime;
    status : ArtifactStatus;
    input_artifacts : list string;
    output_artifacts : list string;
    configuration : PyVal;
    error_messages : list string
  }.
End ProcessingRun.

(** The JSON object [save_metadata] writes and [load_metadata] reads:
    [d_x d] is [data["x"]]. *)
Record MetadataDict := mk_metadata_dict {
  d_artifact_id : string;
  d_artifact_type : string;
  d_status : string;
  d_created_at : string;
  d_updated_at : string;
  d_source_artifacts : list string;
  d_processing_module : option string;
  d_processing_version : option string;
  d_file_path : option string;
  d_file_size : option Z;
  d_checksum : option string;
  d_metadata : JVal;
  d_error_message : option string
}.

(** ** The world: file system, clock, identifier source, object fields *)

Inductive node :=
  | RegularFile (data : string)
  | Directory
  | Symlink (target : string).

(** A metadata file holds a complete document, or the prefix of one that
    an interrupted [json.dump] left behind (not valid JSON). *)
Inductive MetaFile :=
  | MetaDoc (d : MetadataDict)
  | MetaTruncated.

(** A line of an audit log: a complete record, or text that is not JSON. *)
Inductive log_line :=
  | Entry (d : AuditDict)
  | Garbage (raw : string).

(** A file written by the audit export. *)
Inductive export_doc :=
  | JsonArray (entries : list AuditDict)
  | CsvTable (fieldnames : list string) (rows : list AuditDict).

Record State := mk_state {
  fs_nodes : gmap string node;          (* files, directories, links by path *)
  fs_resolve : Path → Path;             (* Path.resolve() *)
  fs_meta : gmap string MetaFile;       (* storage/metadata/<id>.json, by id *)
  fs_logs : gmap string (list log_line);  (* audit/<name>, by name *)
  fs_exports : gmap string export_doc;  (* audit exports, by path *)
  clock : nat → datetime;               (* readings of datetime.now() *)
  clock_ix : nat;
  uuids : nat → string;                 (* values of str(uuid.uuid4()) *)
  uuid_ix : nat;
  current_log : string;                 (* AuditTrail.current_log (its name) *)
  current_run : option ProcessingRun.t  (* ArtifactManager.current_run *)
}.

Definition set_fs_nodes (v : gmap string node) (st : State) : State :=
  mk_state v (fs_resolve st) (fs_meta st) (fs_logs st) (fs_exports st)
           (clock st) (clock_ix st) (uuids st) (uuid_ix st)
           (current_log st) (current_run st).
Definition set_fs_meta (v : gmap string MetaFile) (st : State) : State :=
  mk_state (fs_nodes st) (fs_resolve st) v (fs_logs st) (fs_exports st)
           (clock st) (clock_ix st) (uuids st) (uuid_ix st)
           (current_log st) (current_run st).
Definition set_fs_logs (v : gmap string (list log_line)) (st : State) : State :=
  mk_state (fs_nodes st) (fs_resolve st) (fs_meta st) v (fs_exports st)
           (clock st) (clock_ix st) (uuids st) (uuid_ix st)
           (current_log st) (current_run st).
Definition set_fs_exports (v : gmap string export_doc) (st : State) : State :=
  mk_state (fs_nodes st) (fs_resolve st) (fs_meta st) (fs_logs st) v
           (clock st) (clock_ix st) (uuids st) (uuid_ix st)
           (current_log st) (current_run st).
Definition set_clock_ix (v : nat) (st : State) : State :=
  mk_state (fs_nodes st) (fs_resolve st) (fs_meta st) (fs_logs st) (fs_exports st)
           (clock st) v (uuids st) (uuid_ix st)
           (current_log st) (current_run st).
Definition set_uuid_ix (v : nat) (st : State) : State :=
  mk_state (fs_nodes st) (fs_resolve st) (fs_meta st) (fs_logs st) (fs_exports st)
           (clock st) (clock_ix st) (uuids st) v
           (current_log st) (current_run st).
Definition set_current_log (v : string) (st : State) : State :=
  mk_state (fs_nodes st) (fs_resolve st) (fs_meta st) (fs_logs st) (fs_exports st)
           (clock st) (clock_ix st) (uuids st) (uuid_ix st)
           v (current_run st).
Definition set_current_run (v : option ProcessingRun.t) (st : State) : State :=
  mk_state (fs_nodes st) (fs_resolve st) (fs_meta st) (fs_logs st) (fs_exports st)
           (clock st) (clock_ix st) (uuids st) (uuid_ix st)
           (current_log st) v.

(** The fields of an [ArtifactManager] and of the [AuditTrail] it owns that
    are set by the constructors and never assigned again. *)
Record Manager := mk_manager {
  base_path : Path;
  enable_audit : bool;
  auto_cleanup : bool;
  rotation_size_mb : Z
}.

(** [AuditTrail(audit_path)] is given no size, so a manager's trail rotates
    at the default of 100 megabytes. *)
Definition default_rotation_size_mb : Z := 100.

Definition ArtifactManager (base_path : Path) (enable_audit auto_cleanup : bool) : Manager :=
  mk_manager base_path enable_audit auto_cleanup default_rotation_size_mb.

(** ** Computations that change the world and may raise *)

Definition M (A : Type) : Type := State → Result A * State.

Definition ret {A} (a : A) : M A := fun st => (Ok a, st).
Definition raise {A} (e : exn) : M A := fun st => (Raise e, st).
Definition bind {A B} (c : M A) (k : A → M B) : M B :=
  fun st =>
    match c st with
    | (Ok a, st') => k a st'
    | (Raise e, st') => (Raise e, st')
    end.
(** A read of the world that may raise. *)
Definition read {A} (f : State → Result A) : M A := fun st => (f st, st).
Definition modify (f : State → State) : M unit := fun st => (Ok tt, f st).

Notation "'let!' x := c 'in' k" := (bind c (fun x => k))
  (at level 10, x name, c at level 100, k at level 200).
Notation "'do!' c 'in' k" := (bind c (fun _ => k))
  (at level 10, c at level 100, k at level 200).

(** [datetime.now()] and [str(uuid.uuid4())] *)
Definition now : M datetime :=
  fun st => (Ok (clock st (clock_ix st)), set_clock_ix (S (clock_ix st)) st).
Definition uuid4 : M string :=
  fun st => (Ok (uuids st (uuid_ix st)), set_uuid_ix (S (uuid_ix st)) st).

Definition bind_result {A B} (r : Result A) (k : A → Result B) : Result B :=
  match r with
  | Ok a => k a
  | Raise e => Raise e
  end.
Notation "'let?' x := c 'in' k" := (bind_result c (fun x => k))
  (at level 10, x name, c at level 100, k at level 200).

Section Pipeline.

(** [hashlib.sha256(data).hexdigest()], and the number of bytes a line of the
    audit log takes in its file (the [json.dumps] text and the newline). *)
Variable sha256_hex : string → string.
Variable line_bytes : log_line → N.

Set Default Proof Using "Type".

(** ** storage.py: [ArtifactStorage] *)

Definition is_symlink (st : State) (p : Path) : bool :=
  match fs_nodes st !! path_str p with
  | Some (Symlink _) => true
  | _ => false
  end.

(** The node a path leads to after following links (at most 40 of them). *)
Fixpoint follow (fuel : nat) (nodes : gmap string node) (p : string) : option node :=
  match nodes !! p with
  | Some (Symlink target) =>
      match fuel with
      | O => None
      | S fuel' => follow fuel' nodes target
      end
  | other => other
  end.

Definition path_exists (st : State) (p : Path) : bool :=
  match follow 40 (fs_nodes st) (path_str p) with
  | Some _ => true
  | None => false
  end.

Definition read_bytes (st : State) (p : Path) : option string :=
  match follow 40 (fs_nodes st) (path_str p) with
  | Some (RegularFile data) => Some data
  | _ => None
  end.

Definition no_such_file (p : Path) : exn :=
  Exn FileNotFoundError
      ("[Errno 2] No such file or directory: '" +:+ path_str p +:+ "'").

(** [shutil.copy2(src, dst)] into an existing directory. *)
Definition copy2 (src dst : Path) : M unit :=
  fun st =>
    match follow 40 (fs_nodes st) (path_str src) with
    | Some (RegularFile data) =>
        (Ok tt, set_fs_nodes (<[path_str dst := RegularFile data]> (fs_nodes st)) st)
    | Some Directory =>
        (Raise (Exn IsADirectoryError
                    ("[Errno 21] Is a directory: '" +:+ path_str src +:+ "'")), st)
    | _ => (Raise (no_such_file src), st)
    end.

(** [path.unlink()], the out-of-band deletion of a file. *)
Definition unlink (p : Path) (st : State) : State :=
  set_fs_nodes (delete (path_str p) (fs_nodes st)) st.

Definition storage_root (self : Manager) : Path := path_join (base_path self) "storage".

Definition metadata_dict (artifact : ArtifactMetadata) (bag : JVal) : MetadataDict :=
  {| d_artifact_id := artifact_id artifact;
     d_artifact_type := type_value (artifact_type artifact);
     d_status := status_value (status artifact);
     d_created_at := isoformat (created_at artifact);
     d_updated_at := isoformat (updated_at artifact);
     d_source_artifacts := source_artifacts artifact;
     d_processing_module := processing_module artifact;
     d_processing_version := processing_version artifact;
     d_file_path := path_str <$> file_path artifact;
     d_file_size := file_size artifact;
     d_checksum := checksum artifact;
     d_metadata := bag;
     d_error_message := error_message artifact |}.

(** [save_metadata]: the file is opened for writing (and so emptied) before
    [json.dump] runs; if the bag cannot be encoded the [TypeError] leaves a
    truncated document behind. *)
Definition save_metadata (artifact : ArtifactMetadata) : M unit :=
  fun st =>
    match py_to_json (metadata artifact) with
    | Ok bag =>
        (Ok tt,
         set_fs_meta (<[artifact_id artifact := MetaDoc (metadata_dict artifact bag)]>
                        (fs_meta st)) st)
    | Raise e =>
        (Raise e, set_fs_meta (<[artifact_id artifact := MetaTruncated]> (fs_meta st)) st)
    end.

Definition parse_timestamp (s : string) : Result datetime :=
  match fromisoformat s with
  | Some d => Ok d
  | None => Raise (Exn ValueError ("Invalid isoformat string: '" +:+ s +:+ "'"))
  end.

(** The constructor call of [load_metadata], its arguments evaluated in
    order. *)
Definition artifact_of_dict (data : MetadataDict) : Result ArtifactMetadata :=
  let? ty := ArtifactType_of (d_artifact_type data) in
  let? stat := ArtifactStatus_of (d_status data) in
  let? created := parse_timestamp (d_created_at data) in
  let? updated := parse_timestamp (d_updated_at data) in
  Ok {| artifact_id := d_artifact_id data;
        artifact_type := ty;
        status := stat;
        created_at := created;
        updated_at := updated;
        source_artifacts := d_source_artifacts data;
        processing_module := d_processing_module data;
        processing_version := d_processing_version data;
        file_path :=
          match d_file_path data with
          | Some s => if str_truthy s then Some (Path_of s) else None
          | None => None
          end;
        file_size := d_file_size data;
        checksum := d_checksum data;
        metadata := json_to_py (d_metadata data);
        error_message := d_error_message data |}.

Definition load_metadata (artifact_id : string) (st : State)
  : Result (option ArtifactMetadata) :=
  match fs_meta st !! artifact_id with
  | None => Ok None
  | Some MetaTruncated =>
      Raise (Exn JSONDecodeError "Expecting value: line 1 column 1 (char 0)")
  | Some (MetaDoc data) => let? artifact := artifact_of_dict data in Ok (Some artifact)
  end.

Definition _calculate_checksum (data : string) : string := sha256_hex data.

(** [store_artifact]: the artifact object is updated in place, so it is
    returned next to the result also when the call raises. *)
Definition store_artifact (self : Manager) (source_path : Path)
    (artifact : ArtifactMetadata) (st : State)
  : Result Path * ArtifactMetadata * State :=
  if is_symlink st source_path then
    (Raise (Exn ValueError "Symlinks not allowed for security"), artifact, st)
  else
    let resolved_source := fs_resolve st source_path in
    if negb (path_exists st resolved_source) then
      (Raise (Exn FileNotFoundError
                  ("Source file not found: " +:+ path_str source_path)), artifact, st)
    else
      let safe := safe_filename (path_name resolved_source) in
      let artifact_dir :=
        path_join (path_join (storage_root self) "artifacts")
                  (type_value (artifact_type artifact)) in
      let storage_path :=
        path_join artifact_dir (artifact_id artifact +:+ "_" +:+ safe) in
      match copy2 resolved_source storage_path st with
      | (Raise e, st1) => (Raise e, artifact, st1)
      | (Ok _, st1) =>
          match read_bytes st1 storage_path with
          | None => (Raise (no_such_file storage_path), artifact, st1)
          | Some data =>
              let artifact1 :=
                {| artifact_id := artifact_id artifact;
                   artifact_type := artifact_type artifact;
                   status := status artifact;
                   created_at := created_at artifact;
                   updated_at := updated_at artifact;
                   source_artifacts := source_artifacts artifact;
                   processing_module := processing_module artifact;
                   processing_version := processing_version artifact;
                   file_path := Some storage_path;
                   file_size := Some (Z.of_nat (String.length data));
                   checksum := Some (_calculate_checksum data);
                   metadata := metadata artifact;
                   error_message := error_message artifact |} in
              match save_metadata artifact1 st1 with
              | (Raise e, st2) => (Raise e, artifact1, st2)
              | (Ok _, st2) => (Ok storage_path, artifact1, st2)
              end
          end
      end.

Definition retrieve_artifact (artifact_id : string) (st : State)
  : Result (option Path) :=
  let? loaded := load_metadata artifact_id st in
  match loaded with
  | Some artifact =>
      match file_path artifact with
      | Some p => if path_exists st p then Ok (Some p) else Ok None
      | None => Ok None
      end
  | None => Ok None
  end.

(** ** audit.py: [AuditTrail] *)

Definition log_name (timestamp : string) : string :=
  "audit_" +:+ timestamp +:+ ".jsonl".

Definition _get_current_log_path : M string :=
  let! t := now in
  ret (log_name (strftime_Ym t)).

(** [AuditTrail.__init__] *)
Definition AuditTrail_init : M unit :=
  let! p := _get_current_log_path in
  modify (set_current_log p).

(** [stat().st_size] of a log file *)
Definition st_size (lines : list log_line) : N :=
  fold_right (fun l acc => line_bytes l + acc) 0 lines.

(** [_should_rotate]: [st_size / (1024 * 1024) >= rotation_size_mb], a
    comparison that is exact on the quotient. *)
Definition _should_rotate (self : Manager) (st : State) : bool :=
  match fs_logs st !! current_log st with
  | None => false
  | Some lines => (rotation_size_mb self * 1048576 <=? Z.of_N (st_size lines))%Z
  end.

Definition rotated_name (base_name : string) (rotation_num : N) : string :=
  base_name +:+ "." +:+ decimal rotation_num +:+ ".jsonl".

(** The [while True] loop of [_rotate_log]; [None] when [fuel] runs out. *)
Fixpoint next_rotation (fuel : nat) (logs : gmap string (list log_line))
    (base_name : string) (rotation_num : N) : option N :=
  match fuel with
  | O => None
  | S fuel' =>
      match logs !! rotated_name base_name rotation_num with
      | None => Some rotation_num
      | Some _ => next_rotation fuel' logs base_name (rotation_num + 1)
      end
  end.

Definition rename_log (old new : string) (st : State) : State :=
  match fs_logs st !! old with
  | Some lines => set_fs_logs (<[new := lines]> (delete old (fs_logs st))) st
  | None => st
  end.

(** [_rotate_log].  The loop is run with one more step than there are files
    in the directory, which always suffices. *)
Definition _rotate_log : M unit :=
  fun st =>
    match fs_logs st !! current_log st with
    | None => (Ok tt, st)
    | Some _ =>
        let base_name := stem (current_log st) in
        match next_rotation (S (size (fs_logs st))) (fs_logs st) base_name 1 with
        | None => (Ok tt, st)
        | Some rotation_num =>
            let rotated_path := rotated_name base_name rotation_num in
            (let! p := _get_current_log_path in modify (set_current_log p))
              (rename_log (current_log st) rotated_path st)
        end
    end.

(** [open(current_log, 'a')] followed by the write of one line. *)
Definition append_line (l : log_line) (st : State) : State :=
  set_fs_logs
    (<[current_log st := (default [] (fs_logs st !! current_log st) ++ [l])%list]>
       (fs_logs st))
    st.

Definition _write_entry (self : Manager) (entry : AuditEntry.t) : M unit :=
  do! (fun st => if _should_rotate self st then _rotate_log st else (Ok tt, st)) in
  modify (append_line (Entry (to_dict entry))).

(** [log_operation]: the entry takes its id and its time stamp from the
    default factories, in field order. *)
Definition log_operation (self : Manager) (operation action : string)
    (artifact_id user module : option string) (details : option JVal)
    (success : bool) (error_message : option string) : M AuditEntry.t :=
  let! eid := uuid4 in
  let! t := now in
  let entry :=
    {| AuditEntry.entry_id := eid;
       AuditEntry.timestamp := t;
       AuditEntry.operation := operation;
       AuditEntry.artifact_id := artifact_id;
       AuditEntry.user := user;
       AuditEntry.module := module;
       AuditEntry.action := action;
       AuditEntry.details := default (JObj []) details;
       AuditEntry.success := success;
       AuditEntry.error_message := error_message |} in
  do! _write_entry self entry in
  ret entry.

(** The file-name pattern [audit_*.jsonl]. *)
Definition glob_audit (name : string) : bool :=
  startswith "audit_" name && endswith ".jsonl" name
  && (12 <=? String.length name)%nat.

Definition name_ge (a b : string) : Prop := String.leb b a = true.
#[local] Instance name_ge_dec a b : Decision (name_ge a b).
Proof. unfold name_ge. apply _. Defined.

(** [sorted(audit_path.glob("audit_*.jsonl"), reverse=True)] *)
Definition log_files (st : State) : list string :=
  merge_sort name_ge (filter (fun n => glob_audit n = true) (map fst (map_to_list (fs_logs st)))).

(** One filter of [query_audit_trail]: [Ok false] is its [continue]. *)
Definition after_start (start_time : option datetime) (entry : AuditDict) : Result bool :=
  match start_time with
  | Some t0 => let? t := parse_timestamp (k_timestamp entry) in Ok (negb (dt_ltb t t0))
  | None => Ok true
  end.

Definition before_end (end_time : option datetime) (entry : AuditDict) : Result bool :=
  match end_time with
  | Some t1 => let? t := parse_timestamp (k_timestamp entry) in Ok (negb (dt_ltb t1 t))
  | None => Ok true
  end.

(** [if wanted and value != wanted: continue] for a text field and for a
    field that may be null. *)
Definition text_filter (wanted : option string) (value : string) : bool :=
  match wanted with
  | Some w => if str_truthy w then String.eqb value w else true
  | None => true
  end.

Definition opt_text_filter (wanted : option string) (value : option string) : bool :=
  match wanted with
  | Some w =>
      if str_truthy w
      then match value with Some v => String.eqb v w | None => false end
      else true
  | None => true
  end.

Definition success_filter (wanted : option bool) (value : bool) : bool :=
  match wanted with
  | Some w => Bool.eqb value w
  | None => true
  end.

Definition passes_filters (start_time end_time : option datetime)
    (operation action artifact_id user module : option string)
    (success : option bool) (entry : AuditDict) : Result bool :=
  let? a := after_start start_time entry in
  if negb a then Ok false else
  let? b := before_end end_time entry in
  if negb b then Ok false else
  Ok (text_filter operation (k_operation entry)
      && text_filter action (k_action entry)
      && opt_text_filter artifact_id (k_artifact_id entry)
      && opt_text_filter user (k_user entry)
      && opt_text_filter module (k_module entry)
      && success_filter success (k_success entry)).

(** [if limit and len(entries) >= limit] *)
Definition limit_reached (limit : option Z) (entries : list AuditDict) : bool :=
  match limit with
  | Some n => negb (n =? 0)%Z && (n <=? Z.of_nat (length entries))%Z
  | None => false
  end.

(** The loop over the lines of one file; the flag tells that the function
    returned from inside the loop. *)
Fixpoint scan_lines (pass : AuditDict → Result bool) (limit : option Z)
    (lines : list log_line) (entries : list AuditDict)
  : Result (list AuditDict * bool) :=
  match lines with
  | [] => Ok (entries, false)
  | Garbage _ :: rest => scan_lines pass limit rest entries
  | Entry entry :: rest =>
      let? keep := pass entry in
      if keep then
        let entries' := (entries ++ [entry])%list in
        if limit_reached limit entries' then Ok (entries', true)
        else scan_lines pass limit rest entries'
      else scan_lines pass limit rest entries
  end.

Fixpoint scan_files (pass : AuditDict → Result bool) (limit : option Z)
    (files : list (list log_line)) (entries : list AuditDict)
  : Result (list AuditDict) :=
  match files with
  | [] => Ok entries
  | lines :: rest =>
      let? r := scan_lines pass limit lines entries in
      if snd r then Ok (fst r) else scan_files pass limit rest (fst r)
  end.

Definition query_audit_trail (start_time end_time : option datetime)
    (operation action artifact_id user module : option string)
    (success : option bool) (limit : option Z) (st : State)
  : Result (list AuditDict) :=
  scan_files
    (passes_filters start_time end_time operation action artifact_id user module success)
    limit
    (map (fun name => default [] (fs_logs st !! name)) (log_files st))
    [].

Definition get_artifact_history (artifact_id : string) (st : State)
  : Result (list AuditDict) :=
  query_audit_trail None None None None (Some artifact_id) None None None None st.

(** [export_audit_trail] *)
Definition export_audit_trail (output_path : Path)
    (start_time end_time : option datetime) (format : string) : M Path :=
  let! entries :=
    read (query_audit_trail start_time end_time None None None None None None None) in
  do! (if String.eqb format "json" then
         modify (fun st =>
           set_fs_exports (<[path_str output_path := JsonArray entries]> (fs_exports st)) st)
       else if String.eqb format "csv" then
         match entries with
         | _ :: _ =>
             modify (fun st =>
               set_fs_exports
                 (<[path_str output_path := CsvTable audit_keys entries]> (fs_exports st)) st)
         | [] => ret tt
         end
       else
         raise (Exn ValueError ("Unsupported export format: " +:+ format))) in
  ret output_path.

(** ** models.py: [ArtifactMetadata] *)

(** The constructor, its three default factories called in field order. *)
Definition new_ArtifactMetadata (artifact_type : ArtifactType)
    (source_artifacts : list string) (processing_module processing_version : option string)
    (metadata : PyVal) : M ArtifactMetadata :=
  let! aid := uuid4 in
  let! created := now in
  let! updated := now in
  ret {| artifact_id := aid;
         artifact_type := artifact_type;
         status := PENDING;
         created_at := created;
         updated_at := updated;
         source_artifacts := source_artifacts;
         processing_module := processing_module;
         processing_version := processing_version;
         file_path := None;
         file_size := None;
         checksum := None;
         metadata := metadata;
         error_message := None |}.

(** [update_status]: the message is assigned only when it is truthy. *)
Definition update_status (new_status : ArtifactStatus) (message : option string)
    (self : ArtifactMetadata) (st : State) : ArtifactMetadata * State :=
  let t := clock st (clock_ix st) in
  ({| artifact_id := artifact_id self;
      artifact_type := artifact_type self;
      status := new_status;
      created_at := created_at self;
      updated_at := t;
      source_artifacts := source_artifacts self;
      processing_module := processing_module self;
      processing_version := processing_version self;
      file_path := file_path self;
      file_size := file_size self;
      checksum := checksum self;
      metadata := metadata self;
      error_message :=
        match message with
        | Some m => if str_truthy m then Some m else error_message self
        | None => error_message self
        end |},
   set_clock_ix (S (clock_ix st)) st).

(** ** manager.py: [ArtifactManager] *)

(** [ArtifactManager.__init__], which builds the [AuditTrail] when the audit
    trail is enabled and starts without a current run. *)
Definition ArtifactManager_init (self : Manager) : M unit :=
  do! (if enable_audit self then AuditTrail_init else ret tt) in
  modify (set_current_run None).

(** The [if source_path: try ... except ... else ...] block of
    [create_artifact], with the artifact object it works on. *)
Definition create_artifact_store (self : Manager) (source_path : option Path)
    (processing_module : option string) (artifact : ArtifactMetadata) (st : State)
  : Result unit * ArtifactMetadata * State :=
  match source_path with
  | Some p =>
      match store_artifact self p artifact st with
      | (Ok _, artifact1, st1) =>
          let (artifact2, st2) := update_status COMPLETED None artifact1 st1 in
          (Ok tt, artifact2, st2)
      | (Raise e, artifact1, st1) =>
          let (artifact2, st2) := update_status FAILED (Some (exn_str e)) artifact1 st1 in
          let st3 :=
            if enable_audit self then
              snd (log_operation self "artifact_storage" "store"
                     (Some (artifact_id artifact2)) None processing_module None
                     false (Some (exn_str e)) st2)
            else st2 in
          (Raise e, artifact2, st3)
      end
  | None =>
      let (artifact1, st1) := update_status COMPLETED None artifact st in
      match save_metadata artifact1 st1 with
      | (Ok _, st2) => (Ok tt, artifact1, st2)
      | (Raise e, st2) => (Raise e, artifact1, st2)
      end
  end.

Definition is_dict (v : PyVal) : bool :=
  match v with PDict _ => true | _ => false end.

Definition append_output (artifact_id : string) (st : State) : State :=
  match current_run st with
  | Some run =>
      set_current_run
        (Some {| ProcessingRun.run_id := ProcessingRun.run_id run;
                 ProcessingRun.started_at := ProcessingRun.started_at run;
                 ProcessingRun.completed_at := ProcessingRun.completed_at run;
                 ProcessingRun.status := ProcessingRun.status run;
                 ProcessingRun.input_artifacts := ProcessingRun.input_artifacts run;
                 ProcessingRun.output_artifacts :=
                   (ProcessingRun.output_artifacts run ++ [artifact_id])%list;
                 ProcessingRun.configuration := ProcessingRun.configuration run;
                 ProcessingRun.error_messages := ProcessingRun.error_messages run |})
        st
  | None => st
  end.

Definition is_some {A} (o : option A) : bool :=
  match o with Some _ => true | None => false end.

(** [create_artifact].  A [source_path] that is not a [Path] and a
    [source_artifacts] that is not a list are excluded by the types. *)
Definition create_artifact (self : Manager) (artifact_type : ArtifactType)
    (source_path : option Path) (source_artifacts : option (list string))
    (processing_module processing_version : option string)
    (metadata : option PyVal) : M ArtifactMetadata :=
  let bag := default PNone metadata in
  if py_truthy bag && negb (is_dict bag) then
    raise (Exn ValueError "metadata must be a dictionary")
  else
    let! artifact :=
      new_ArtifactMetadata artifact_type (default [] source_artifacts)
        processing_module processing_version
        (if py_truthy bag then bag else PDict []) in
    fun st =>
      match create_artifact_store self source_path processing_module artifact st with
      | (Raise e, _, st1) => (Raise e, st1)
      | (Ok _, artifact1, st1) =>
          (do! modify (append_output (artifact_id artifact1)) in
           do! (if enable_audit self then
                  do! log_operation self "artifact_creation" "create"
                        (Some (artifact_id artifact1)) None processing_module
                        (Some (JObj
                           [("type", JStr (type_value artifact_type));
                            ("source_artifacts",
                             match source_artifacts with
                             | Some l => JArr (map JStr l)
                             | None => JNull
                             end);
                            ("has_file", JBool (is_some source_path))]))
                        true None in
                  ret tt
                else ret tt) in
           ret artifact1) st1
      end.

Definition update_artifact_status (self : Manager) (artifact_id : string)
    (status : ArtifactStatus) (message : option string) : M unit :=
  let! loaded := read (load_metadata artifact_id) in
  match loaded with
  | None => ret tt
  | Some artifact =>
      let! artifact1 :=
        (fun st => let (a, st') := update_status status message artifact st in (Ok a, st')) in
      do! save_metadata artifact1 in
      if enable_audit self then
        do! log_operation self "artifact_update" "update_status"
              (Some artifact_id) None None
              (Some (JObj
                 [("new_status", JStr (status_value status));
                  ("error_message",
                   match message with Some m => JStr m | None => JNull end)]))
              (negb (bool_decide (status = FAILED))) None in
        ret tt
      else ret tt
  end.

Definition get_artifact (self : Manager) (artifact_id : string)
  : M (option ArtifactMetadata) :=
  let! artifact := read (load_metadata artifact_id) in
  do! (if enable_audit self then
         do! log_operation self "artifact_access" "get_metadata"
               (Some artifact_id) None None None (is_some artifact) None in
         ret tt
       else ret tt) in
  ret artifact.

Definition get_artifact_file (self : Manager) (artifact_id : string)
  : M (option Path) :=
  let! path := read (retrieve_artifact artifact_id) in
  do! (if enable_audit self then
         do! log_operation self "artifact_access" "get_file"
               (Some artifact_id) None None None (is_some path) None in
         ret tt
       else ret tt) in
  ret path.

(** The dicts [build_lineage] returns. *)
Inductive Lineage :=
  | circular_reference (artifact_id : string)
  | not_found (artifact_id : string)
  | lineage (artifact_id type status created_at : string)
            (processing_module : option string) (sources : list Lineage).

(** The result of a traversal step: the dict or the exception, the shared
    [visited] set as the step left it, and the world. *)
Definition Visit (A : Type) : Type := Result A * gset string * State.

(** The [for source_id in artifact.source_artifacts] loop. *)
Fixpoint for_sources (build : string → gset string → State → option (Visit Lineage))
    (ids : list string) (sources : list Lineage) (visited : gset string) (st : State)
  : option (Visit (list Lineage)) :=
  match ids with
  | [] => Some (Ok sources, visited, st)
  | source_id :: rest =>
      match build source_id visited st with
      | None => None
      | Some (Raise e, visited', st') => Some (Raise e, visited', st')
      | Some (Ok child, visited', st') =>
          for_sources build rest (sources ++ [child])%list visited' st'
      end
  end.

(** [build_lineage]; [None] when the recursion is deeper than [fuel]. *)
Fixpoint build_lineage (fuel : nat) (self : Manager) (aid : string)
    (visited : gset string) (st : State) : option (Visit Lineage) :=
  match fuel with
  | O => None
  | S fuel' =>
      if decide (aid ∈ visited) then Some (Ok (circular_reference aid), visited, st)
      else
        let visited1 := {[aid]} ∪ visited in
        match get_artifact self aid st with
        | (Raise e, st1) => Some (Raise e, visited1, st1)
        | (Ok None, st1) => Some (Ok (not_found aid), visited1, st1)
        | (Ok (Some artifact), st1) =>
            match for_sources (build_lineage fuel' self)
                              (source_artifacts artifact) [] visited1 st1 with
            | None => None
            | Some (Raise e, visited', st') => Some (Raise e, visited', st')
            | Some (Ok sources, visited', st') =>
                Some (Ok (lineage aid
                            (type_value (artifact_type artifact))
                            (status_value (status artifact))
                            (isoformat (created_at artifact))
                            (processing_module artifact)
                            sources),
                      visited', st')
            end
        end
  end.

(** [get_artifact_lineage]: the traversal starts from an empty set; no chain
    of distinct stored artifacts is longer than the number of records. *)
Definition get_artifact_lineage (self : Manager) (artifact_id : string) (st : State)
  : option (Result Lineage * State) :=
  match build_lineage (S (size (fs_meta st))) self artifact_id ∅ st with
  | Some (r, _, st') => Some (r, st')
  | None => None
  end.

(** ** storage.py: listing the stored artifacts *)

(** The names [metadata_dir.glob("*.json")] yields: the files directly in
    the metadata directory.  An id with a separator names a file further
    down, which the pattern does not reach.  The order in which a directory
    is read is not specified; the model reads in the order of the map. *)
Definition glob_json (st : State) : list string :=
  map (fun id => id +:+ ".json")
      (filter (fun id => rfind "/" id = None) (map fst (map_to_list (fs_meta st)))).

(** [if wanted and value != wanted: continue]; a member of an enumeration
    is always truthy. *)
Definition type_filter (wanted : option ArtifactType) (artifact : ArtifactMetadata) : bool :=
  match wanted with
  | Some t => bool_decide (artifact_type artifact = t)
  | None => true
  end.

Definition status_filter (wanted : option ArtifactStatus) (artifact : ArtifactMetadata) : bool :=
  match wanted with
  | Some s => bool_decide (status artifact = s)
  | None => true
  end.

(** The loop of [ArtifactStorage.list_artifacts] over the files found. *)
Fixpoint list_files (artifact_type : option ArtifactType) (status : option ArtifactStatus)
    (files : list string) (artifacts : list ArtifactMetadata) (st : State)
  : Result (list ArtifactMetadata) :=
  match files with
  | [] => Ok artifacts
  | metadata_file :: rest =>
      let? loaded := load_metadata (stem metadata_file) st in
      match loaded with
      | Some artifact =>
          if type_filter artifact_type artifact && status_filter status artifact
          then list_files artifact_type status rest (artifacts ++ [artifact])%list st
          else list_files artifact_type status rest artifacts st
      | None => list_files artifact_type status rest artifacts st
      end
  end.

Definition ArtifactStorage_list_artifacts (artifact_type : option ArtifactType)
    (status : option ArtifactStatus) (st : State) : Result (list ArtifactMetadata) :=
  list_files artifact_type status (glob_json st) [] st.

(** ** audit.py: the summary of errors *)

(** The dict [get_error_summary] returns.  A record always has the three
    keys the loop reads, so the defaults of its [get] calls are never used:
    a failure without a module is counted under the key [None]. *)
Record ErrorSummary := mk_error_summary {
  total_errors : Z;
  errors_by_operation : gmap string Z;
  errors_by_module : gmap (option string) Z;
  unique_error_messages : list string;
  time_range : option string * option string
}.

(** [d[k] = d.get(k, 0) + 1] *)
Definition count_up `{Countable K} (k : K) (d : gmap K Z) : gmap K Z :=
  <[k := (default 0 (d !! k) + 1)%Z]> d.

(** [if msg: error_messages.append(msg)] *)
Definition truthy_message (error : AuditDict) : option string :=
  match k_error_message error with
  | Some msg => if str_truthy msg then Some msg else None
  | None => None
  end.

(** [get_error_summary]; [list(set(...))] lists the messages in the order
    of the set. *)
Definition get_error_summary (start_time end_time : option datetime) (st : State)
  : Result ErrorSummary :=
  let? errors :=
    query_audit_trail start_time end_time None None None None None (Some false) None st in
  Ok {| total_errors := Z.of_nat (length errors);
        errors_by_operation :=
          fold_left (fun d error => count_up (k_operation error) d) errors ∅;
        errors_by_module :=
          fold_left (fun d error => count_up (k_module error) d) errors ∅;
        unique_error_messages :=
          elements (list_to_set (omap truthy_message errors) : gset string);
        time_range := (isoformat <$> start_time, isoformat <$> end_time) |}.

(** ** [timedelta]: differences of naive datetimes *)

(** A normalised [timedelta]: [0 <= seconds < 86400] and
    [0 <= microseconds < 1000000]. *)
Record timedelta := mk_timedelta { days : Z; seconds : Z; microseconds : Z }.

Definition days_before_year (y : N) : Z :=
  let p := (Z.of_N y - 1)%Z in (p * 365 + p / 4 - p / 100 + p / 400)%Z.

Definition days_before_month (y m : N) : Z :=
  Z.of_N (fold_right (fun k acc => days_in_month y (N.of_nat k) + acc) 0
                     (seq 1 (N.to_nat m - 1))).

(** [d.toordinal()]: 1 for 0001-01-01. *)
Definition toordinal (d : datetime) : Z :=
  (days_before_year (year d) + days_before_month (year d) (month d) + Z.of_N (day d))%Z.

Definition MAXORDINAL : Z := 3652059.

(** The microseconds from 0001-01-01T00:00:00 to [d]. *)
Definition microseconds_of (d : datetime) : Z :=
  ((((toordinal d - 1) * 24 + Z.of_N (hour d)) * 60 + Z.of_N (minute d)) * 60
   + Z.of_N (second d)) * 1000000 + Z.of_N (microsecond d).

(** [a - b] on naive datetimes. *)
Definition datetime_sub (a b : datetime) : timedelta :=
  let us := (microseconds_of a - microseconds_of b)%Z in
  {| days := us / 86400000000;
     seconds := (us mod 86400000000) / 1000000;
     microseconds := us mod 1000000 |}%Z.

(** [str(delta)]: [[D day[s], ]H:MM:SS[.ffffff]]. *)
Definition timedelta_str (delta : timedelta) : string :=
  let hh := (seconds delta / 3600)%Z in
  let mm := (seconds delta / 60 mod 60)%Z in
  let ss := (seconds delta mod 60)%Z in
  let s := decimal_Z hh +:+ ":" +:+ zpad 2 (Z.to_N mm) +:+ ":" +:+ zpad 2 (Z.to_N ss) in
  let s :=
    if (days delta =? 0)%Z then s
    else decimal_Z (days delta)
         +:+ " day" +:+ (if (Z.abs (days delta) =? 1)%Z then "" else "s") +:+ ", " +:+ s in
  if (microseconds delta =? 0)%Z then s
  else s +:+ "." +:+ zpad 6 (Z.to_N (microseconds delta)).

(** ** Exceptions of further classes

    The code below also raises exceptions of classes the code above does
    not meet.  Its outcomes name an exception by its class and its text. *)

Definition class_name (c : exn_class) : string :=
  match c with
  | ValueError => "ValueError"
  | TypeError => "TypeError"
  | KeyError => "KeyError"
  | FileNotFoundError => "FileNotFoundError"
  | IsADirectoryError => "IsADirectoryError"
  | JSONDecodeError => "JSONDecodeError"
  end.

Inductive Outcome (A : Type) :=
  | Returns (a : A)
  | Raises (class message : string).
Arguments Returns {A} a.
Arguments Raises {A} class message.

Definition passed_on {A} (r : Result A) : Outcome A :=
  match r with
  | Ok a => Returns a
  | Raise e => Raises (class_name (exn_kind e)) (exn_str e)
  end.

(** [type(v).__name__] *)
Definition type_name (v : PyVal) : string :=
  match v with
  | PNone => "NoneType"
  | PBool _ => "bool"
  | PInt _ => "int"
  | PStr _ => "str"
  | PList _ => "list"
  | PTuple _ => "tuple"
  | PDict _ => "dict"
  | POther tyname => tyname
  end.

(** [d.get(k)] on a dict: the value, or [None]. *)
Definition dict_get (k : string) (d : list (PyKey * PyVal)) : PyVal :=
  match find (fun kv => match fst kv with KStr s => String.eqb s k | _ => false end) d with
  | Some kv => snd kv
  | None => PNone
  end.

(** [v == s] for a text [s]: only a text is equal to a text. *)
Definition eq_str (v : PyVal) (s : string) : bool :=
  match v with
  | PStr x => String.eqb x s
  | _ => false
  end.

(** [a.metadata.get("run_id") == run_id].  Of the values [json.load]
    returns only a dict has a [get]; an object of another type is taken to
    have none either. *)
Definition in_run (run_id : string) (a : ArtifactMetadata) : Outcome bool :=
  match metadata a with
  | PDict d => Returns (eq_str (dict_get "run_id" d) run_id)
  | other =>
      Raises "AttributeError"
             ("'" +:+ type_name other +:+ "' object has no attribute 'get'")
  end.

(** The list comprehension of [ArtifactManager.list_artifacts]. *)
Fixpoint select_run (run_id : string) (artifacts : list ArtifactMetadata)
  : Outcome (list ArtifactMetadata) :=
  match artifacts with
  | [] => Returns []
  | a :: rest =>
      match in_run run_id a with
      | Raises c m => Raises c m
      | Returns keep =>
          match select_run run_id rest with
          | Raises c m => Raises c m
          | Returns kept => Returns (if keep then a :: kept else kept)
          end
      end
  end.

(** ** manager.py: listing, linking, runs and clean-up *)

Definition list_artifacts (artifact_type : option ArtifactType)
    (status : option ArtifactStatus) (run_id : option string) (st : State)
  : Outcome (list ArtifactMetadata) :=
  match ArtifactStorage_list_artifacts artifact_type status st with
  | Raise e => passed_on (Raise e)
  | Ok artifacts =>
      match run_id with
      | Some r => if str_truthy r then select_run r artifacts else Returns artifacts
      | None => Returns artifacts
      end
  end.

(** [v[k] = x] for a text key.  Of the values [json.load] returns only a
    dict takes it; an object of another type is taken to refuse it like
    them. *)
Definition setitem (k : string) (x : PyVal) (v : PyVal) : Result PyVal :=
  match v with
  | PDict d => Ok (PDict (dict_setitem k x d))
  | PList _ => Raise (Exn TypeError "list indices must be integers or slices, not str")
  | other =>
      Raise (Exn TypeError
               ("'" +:+ type_name other +:+ "' object does not support item assignment"))
  end.

(** [link_artifacts] *)
Definition link_artifacts (self : Manager) (source_artifact_ids : list string)
    (output_artifact_id : string) (relationship : string) : M unit :=
  let! output_artifact := get_artifact self output_artifact_id in
  match output_artifact with
  | None => ret tt
  | Some artifact =>
      match setitem (relationship +:+ "_artifacts")
                    (PList (map PStr source_artifact_ids)) (metadata artifact) with
      | Raise e => raise e
      | Ok bag =>
          do! save_metadata
                {| artifact_id := artifact_id artifact;
                   artifact_type := artifact_type artifact;
                   status := status artifact;
                   created_at := created_at artifact;
                   updated_at := updated_at artifact;
                   source_artifacts :=
                     (source_artifacts artifact ++ source_artifact_ids)%list;
                   processing_module := processing_module artifact;
                   processing_version := processing_version artifact;
                   file_path := file_path artifact;
                   file_size := file_size artifact;
                   checksum := checksum artifact;
                   metadata := bag;
                   error_message := error_message artifact |} in
          if enable_audit self then
            do! log_operation self "artifact_link" "create_relationship"
                  (Some output_artifact_id) None None
                  (Some (JObj
                     [("source_artifacts", JArr (map JStr source_artifact_ids));
                      ("relationship", JStr relationship)]))
                  true None in
            ret tt
          else ret tt
      end
  end.

(** The constructor of [ProcessingRun] as [start_processing_run] calls it,
    its two default factories in field order. *)
Definition new_ProcessingRun (configuration : PyVal) : M ProcessingRun.t :=
  let! rid := uuid4 in
  let! started := now in
  ret {| ProcessingRun.run_id := rid;
         ProcessingRun.started_at := started;
         ProcessingRun.completed_at := None;
         ProcessingRun.status := IN_PROGRESS;
         ProcessingRun.input_artifacts := [];
         ProcessingRun.output_artifacts := [];
         ProcessingRun.configuration := configuration;
         ProcessingRun.error_messages := [] |}.

(** [ProcessingRun.complete] *)
Definition complete (status : ArtifactStatus) (self : ProcessingRun.t) : M ProcessingRun.t :=
  let! t := now in
  ret {| ProcessingRun.run_id := ProcessingRun.run_id self;
         ProcessingRun.started_at := ProcessingRun.started_at self;
         ProcessingRun.completed_at := Some t;
         ProcessingRun.status := status;
         ProcessingRun.input_artifacts := ProcessingRun.input_artifacts self;
         ProcessingRun.output_artifacts := ProcessingRun.output_artifacts self;
         ProcessingRun.configuration := ProcessingRun.configuration self;
         ProcessingRun.error_messages := ProcessingRun.error_messages self |}.

(** [start_processing_run]; [USER] is the value of [os.getenv("USER")].
    The run is assigned before the audit record is written.  The result is
    [None] when the audit trail is enabled and the configuration cannot be
    written as JSON: the write of the record then stops in the middle of a
    line, which the view of a log file as a list of lines does not
    represent. *)
Definition start_processing_run (self : Manager) (configuration : option PyVal)
    (USER : option string) (st : State) : option (Result ProcessingRun.t * State) :=
  let given := default PNone configuration in
  match new_ProcessingRun (if py_truthy given then given else PDict []) st with
  | (Raise e, st1) => Some (Raise e, st1)
  | (Ok run, st1) =>
      let st2 := set_current_run (Some run) st1 in
      if enable_audit self then
        match py_to_json (ProcessingRun.configuration run) with
        | Raise _ => None
        | Ok conf =>
            Some ((do! log_operation self "processing_run" "start" None USER None
                         (Some (JObj [("run_id", JStr (ProcessingRun.run_id run));
                                      ("configuration", conf)]))
                         true None in
                   ret run) st2)
        end
      else Some (Ok run, st2)
  end.

(** Whether [p] lies below the directory [dir]. *)
Definition below (dir : Path) (p : string) : bool :=
  startswith (path_str dir +:+ "/") p.

Definition temp_dir (self : Manager) : Path := path_join (storage_root self) "temp".

(** [ArtifactStorage.cleanup_temp]: [shutil.rmtree] of the directory, which
    refuses a symbolic link and anything that is not a directory, then
    [mkdir]. *)
Definition cleanup_temp (self : Manager) (st : State) : Outcome unit * State :=
  if path_exists st (temp_dir self) then
    match fs_nodes st !! path_str (temp_dir self) with
    | Some (Symlink _) => (Raises "OSError" "Cannot call rmtree on a symbolic link", st)
    | Some (RegularFile _) =>
        (Raises "NotADirectoryError"
                ("[Errno 20] Not a directory: '" +:+ path_str (temp_dir self) +:+ "'"), st)
    | _ =>
        (Returns tt,
         set_fs_nodes
           (<[path_str (temp_dir self) := Directory]>
              (filter (fun kv => below (temp_dir self) (fst kv) = false) (fs_nodes st)))
           st)
    end
  else (Returns tt, st).

(** [end_processing_run]; [USER] is the value of [os.getenv("USER")]. *)
Definition end_processing_run (self : Manager) (status : ArtifactStatus)
    (USER : option string) (st : State) : Outcome unit * State :=
  match current_run st with
  | None => (Returns tt, st)
  | Some run =>
      match complete status run st with
      | (Raise e, st1) => (passed_on (Raise e), st1)
      | (Ok run1, st1) =>
          let st2 := set_current_run (Some run1) st1 in
          let duration :=
            match ProcessingRun.completed_at run1 with
            | Some t => timedelta_str (datetime_sub t (ProcessingRun.started_at run1))
            | None => ""
            end in
          let logged :=
            (if enable_audit self then
               do! log_operation self "processing_run" "end" None USER None
                     (Some (JObj
                        [("run_id", JStr (ProcessingRun.run_id run1));
                         ("status", JStr (status_value status));
                         ("duration", JStr duration);
                         ("input_artifacts",
                          JArr (map JStr (ProcessingRun.input_artifacts run1)));
                         ("output_artifacts",
                          JArr (map JStr (ProcessingRun.output_artifacts run1)))]))
                     (bool_decide (status = COMPLETED)) None in
               ret tt
             else ret tt) st2 in
          match logged with
          | (Raise e, st3) => (passed_on (Raise e), st3)
          | (Ok _, st3) =>
              match (if auto_cleanup self then cleanup_temp self st3 else (Returns tt, st3)) with
              | (Raises c m, st4) => (Raises c m, st4)
              | (Returns _, st4) => (Returns tt, set_current_run None st4)
              end
          end
      end
  end.

(** [timedelta(days=days_old)]: the number of days must fit a C [int] and
    must not exceed 999999999 in magnitude. *)
Definition timedelta_days (days_old : Z) : Outcome Z :=
  if negb ((-2147483648 <=? days_old)%Z && (days_old <=? 2147483647)%Z) then
    Raises "OverflowError" "Python int too large to convert to C int"
  else if (999999999 <? Z.abs days_old)%Z then
    Raises "OverflowError"
           ("days=" +:+ decimal_Z days_old +:+ "; must have magnitude <= 999999999")
  else Returns days_old.

(** [date.fromordinal(n)] as year, month and day, for [1 <= n <= MAXORDINAL]. *)
Definition fromordinal (ordinal : Z) : N * N * N :=
  let n := (ordinal - 1)%Z in
  let n400 := (n / 146097)%Z in
  let n := (n mod 146097)%Z in
  let n100 := (n / 36524)%Z in
  let n := (n mod 36524)%Z in
  let n4 := (n / 1461)%Z in
  let n := (n mod 1461)%Z in
  let n1 := (n / 365)%Z in
  let n := (n mod 365)%Z in
  let y := (n400 * 400 + 1 + n100 * 100 + n4 * 4 + n1)%Z in
  if (n1 =? 4)%Z || (n100 =? 4)%Z then (Z.to_N (y - 1), 12, 31)
  else
    let leapyear := (n1 =? 3)%Z && (negb (n4 =? 24)%Z || (n100 =? 3)%Z) in
    let before m :=
      (days_before_month 1 (Z.to_N m) + (if (2 <? m)%Z && leapyear then 1 else 0))%Z in
    let m := Z.shiftr (n + 50) 5 in
    let m := if (n <? before m)%Z then (m - 1)%Z else m in
    (Z.to_N y, Z.to_N m, Z.to_N (n - before m + 1)).

(** [t - timedelta(days=d)]: the same time of day, [d] days earlier. *)
Definition minus_days (t : datetime) (d : Z) : Outcome datetime :=
  let ordinal := (toordinal t - d)%Z in
  if (1 <=? ordinal)%Z && (ordinal <=? MAXORDINAL)%Z then
    match fromordinal ordinal with
    | (y, m, dd) => Returns (mk_datetime y m dd (hour t) (minute t) (second t) (microsecond t))
    end
  else Raises "OverflowError" "date value out of range".

(** [path.unlink()] as the clean-up calls it, on a path that exists: a
    directory is refused (with the error of Linux). *)
Definition Path_unlink (p : Path) (st : State) : Result unit * State :=
  match fs_nodes st !! path_str p with
  | Some Directory =>
      (Raise (Exn IsADirectoryError
                  ("[Errno 21] Is a directory: '" +:+ path_str p +:+ "'")), st)
  | Some _ => (Ok tt, unlink p st)
  | None => (Raise (no_such_file p), st)
  end.

(** The loop of [cleanup_old_artifacts]. *)
Fixpoint remove_old (self : Manager) (cutoff_date : datetime)
    (artifacts : list ArtifactMetadata) (removed_count : Z) (st : State)
  : Result Z * State :=
  match artifacts with
  | [] => (Ok removed_count, st)
  | artifact :: rest =>
      if dt_ltb (created_at artifact) cutoff_date then
        match file_path artifact with
        | Some p =>
            if path_exists st p then
              match Path_unlink p st with
              | (Raise e, st1) => (Raise e, st1)
              | (Ok _, st1) =>
                  match
                    (if enable_audit self then
                       let! t := now in
                       do! log_operation self "artifact_cleanup" "remove_old"
                             (Some (artifact_id artifact)) None None
                             (Some (JObj
                                [("age_days",
                                  JInt (days (datetime_sub t (created_at artifact))))]))
                             true None in
                       ret tt
                     else ret tt) st1
                  with
                  | (Raise e, st2) => (Raise e, st2)
                  | (Ok _, st2) => remove_old self cutoff_date rest (removed_count + 1)%Z st2
                  end
              end
            else remove_old self cutoff_date rest removed_count st
        | None => remove_old self cutoff_date rest removed_count st
        end
      else remove_old self cutoff_date rest removed_count st
  end.

(** [cleanup_old_artifacts]: the clock is read, the cut-off date computed,
    the records listed, and then the files removed. *)
Definition cleanup_old_artifacts (self : Manager) (days_old : Z) (st : State)
  : Outcome Z * State :=
  let t := clock st (clock_ix st) in
  let st1 := set_clock_ix (S (clock_ix st)) st in
  match timedelta_days days_old with
  | Raises c m => (Raises c m, st1)
  | Returns d =>
      match minus_days t d with
      | Raises c m => (Raises c m, st1)
      | Returns cutoff_date =>
          match ArtifactStorage_list_artifacts None None st1 with
          | Raise e => (passed_on (Raise e), st1)
          | Ok artifacts =>
              match remove_old self cutoff_date artifacts 0 st1 with
              | (r, st2) => (passed_on r, st2)
              end
          end
      end
  end.

(** ** Vocabulary of the statements *)

(** The parseable records among the lines of a log file. *)
Definition entries_of (lines : list log_line) : list AuditDict :=
  omap (fun l => match l with Entry d => Some d | Garbage _ => None end) lines.

(** All records of the audit log, in the order [query_audit_trail] reads
    them. *)
Definition logged_entries (st : State) : list AuditDict :=
  entries_of (concat (map (fun name => default [] (fs_logs st !! name)) (log_files st))).

(** What writing to the audit log leaves alone: the stored files, the
    metadata directory, the exports, the current run and the two streams. *)
Definition store_untouched (st st' : State) : Prop :=
  fs_nodes st' = fs_nodes st
  ∧ fs_resolve st' = fs_resolve st
  ∧ fs_meta st' = fs_meta st
  ∧ fs_exports st' = fs_exports st
  ∧ clock st' = clock st
  ∧ uuids st' = uuids st
  ∧ current_run st' = current_run st.

(** The audit record [log_operation] builds in state [st]. *)
Definition logged_entry (st : State) (operation action : string)
    (artifact_id user module : option string) (details : option JVal)
    (success : bool) (error_message : option string) : AuditEntry.t :=
  {| AuditEntry.entry_id := uuids st (uuid_ix st);
     AuditEntry.timestamp := clock st (clock_ix st);
     AuditEntry.operation := operation;
     AuditEntry.artifact_id := artifact_id;
     AuditEntry.user := user;
     AuditEntry.module := module;
     AuditEntry.action := action;
     AuditEntry.details := default (JObj []) details;
     AuditEntry.success := success;
     AuditEntry.error_message := error_message |}.

(** The id a lineage dict is about, and the ids a lineage tree expands
    (its nodes other than the circular-reference leaves), in traversal
    order. *)
Definition root_id (t : Lineage) : string :=
  match t with
  | circular_reference x | not_found x | lineage x _ _ _ _ _ => x
  end.

Fixpoint expanded (t : Lineage) : list string :=
  match t with
  | circular_reference _ => []
  | not_found x => [x]
  | lineage x _ _ _ _ sources => x :: flat_map expanded sources
  end.

Fixpoint circular_leaves (t : Lineage) : list string :=
  match t with
  | circular_reference x => [x]
  | not_found _ => []
  | lineage _ _ _ _ _ sources => flat_map circular_leaves sources
  end.

(** The traversal the specification describes, over a lookup of records:
    [Traversal load seen x t seen'] holds when [t] is the tree for [x] built
    with the ids [seen] already met anywhere before, and [seen'] are the ids
    met once [t] is complete.  The set is handed from each source to the
    next one, not copied per branch. *)
Inductive Traversal (load : string → Result (option ArtifactMetadata))
  : gset string → string → Lineage → gset string → Prop :=
  | visit_again seen x :
      x ∈ seen →
      Traversal load seen x (circular_reference x) seen
  | visit_missing seen x :
      x ∉ seen → load x = Ok None →
      Traversal load seen x (not_found x) ({[x]} ∪ seen)
  | visit_artifact seen x artifact sources seen' :
      x ∉ seen → load x = Ok (Some artifact) →
      TraversalList load ({[x]} ∪ seen) (source_artifacts artifact) sources seen' →
      Traversal load seen x
        (lineage x (type_value (artifact_type artifact))
                 (status_value (status artifact))
                 (isoformat (created_at artifact))
                 (processing_module artifact) sources)
        seen'
with TraversalList (load : string → Result (option ArtifactMetadata))
  : gset string → list string → list Lineage → gset string → Prop :=
  | visit_none seen : TraversalList load seen [] [] seen
  | visit_next seen x t seen1 ids ts seen2 :
      Traversal load seen x t seen1 →
      TraversalList load seen1 ids ts seen2 →
      TraversalList load seen (x :: ids) (t :: ts) seen2.

Scheme Traversal_mut_ind := Minimality for Traversal Sort Prop
  with TraversalList_mut_ind := Minimality for TraversalList Sort Prop.
Combined Scheme Traversal_mutual_ind from Traversal_mut_ind, TraversalList_mut_ind.

(** The appends of a sequence of records, one after the other. *)
Fixpoint write_entries (self : Manager) (entries : list AuditEntry.t) (st : State) : State :=
  match entries with
  | [] => st
  | entry :: rest => write_entries self rest (snd (_write_entry self entry st))
  end.

(** The trail is the only writer of its directory: its active log is named
    after a year and month, and no other file bears the name of a month the
    clock will show from now on (as in a directory that was empty when the
    trail was created, or that holds the logs of past months only). *)
Definition sole_writer (st : State) : Prop :=
  (∃ ym, current_log st = log_name ym ∧ all_chars is_digit ym = true)
  ∧ ∀ i, (clock_ix st <= i)%nat →
      log_name (strftime_Ym (clock st i)) = current_log st
      ∨ fs_logs st !! log_name (strftime_Ym (clock st i)) = None.


(** Induction over values and documents that reaches the items of nested
    lists and dicts. *)
Section ValueInduction.
Variable P : PyVal → Prop.
Hypothesis HNone : P PNone.
Hypothesis HBool : ∀ b, P (PBool b).
Hypothesis HInt : ∀ z, P (PInt z).
Hypothesis HStr : ∀ s, P (PStr s).
Hypothesis HList : ∀ l, Forall P l → P (PList l).
Hypothesis HTuple : ∀ l, Forall P l → P (PTuple l).
Hypothesis HDict : ∀ kvs, Forall (fun kv => P (snd kv)) kvs → P (PDict kvs).
Hypothesis HOther : ∀ ty, P (POther ty).

Fixpoint PyVal_nested_ind (v : PyVal) : P v :=
    match v with
    | PNone => HNone
    | PBool b => HBool b
    | PInt z => HInt z
    | PStr s => HStr s
    | PList l =>
        HList l ((fix go (l : list PyVal) : Forall P l :=
                    match l with
                    | [] => @List.Forall_nil _ P
                    | x :: r => @List.Forall_cons _ P x r (PyVal_nested_ind x) (go r)
                    end) l)
    | PTuple l =>
        HTuple l ((fix go (l : list PyVal) : Forall P l :=
                     match l with
                     | [] => @List.Forall_nil _ P
                     | x :: r => @List.Forall_cons _ P x r (PyVal_nested_ind x) (go r)
                     end) l)
    | PDict kvs =>
        HDict kvs ((fix go (l : list (PyKey * PyVal)) : Forall (fun kv => P (snd kv)) l :=
                      match l with
                      | [] => @List.Forall_nil _ _
                      | kv :: r =>
                          @List.Forall_cons _ (fun kv => P (snd kv)) kv r (PyVal_nested_ind (snd kv)) (go r)
                      end) kvs)
    | POther ty => HOther ty
    end.
End ValueInduction.

Section DocumentInduction.
Variable P : JVal → Prop.
Hypothesis HNull : P JNull.
Hypothesis HBool : ∀ b, P (JBool b).
Hypothesis HInt : ∀ z, P (JInt z).
Hypothesis HStr : ∀ s, P (JStr s).
Hypothesis HArr : ∀ l, Forall P l → P (JArr l).
Hypothesis HObj : ∀ ms, Forall (fun kv => P (snd kv)) ms → P (JObj ms).

Fixpoint JVal_nested_ind (j : JVal) : P j :=
    match j with
    | JNull => HNull
    | JBool b => HBool b
    | JInt z => HInt z
    | JStr s => HStr s
    | JArr l =>
        HArr l ((fix go (l : list JVal) : Forall P l :=
                   match l with
                   | [] => @List.Forall_nil _ P
                   | x :: r => @List.Forall_cons _ P x r (JVal_nested_ind x) (go r)
                   end) l)
    | JObj ms =>
        HObj ms ((fix go (l : list (string * JVal)) : Forall (fun kv => P (snd kv)) l :=
                    match l with
                    | [] => @List.Forall_nil _ _
                    | kv :: r =>
                        @List.Forall_cons _ (fun kv => P (snd kv)) kv r (JVal_nested_ind (snd kv)) (go r)
                    end) ms)
    end.
End DocumentInduction.

(** A string-keyed dict, as the list of its items. *)
Definition wrap_items (l : list (string * PyVal)) : list (PyKey * PyVal) :=
  map (fun p => (KStr (fst p), snd p)) l.

(** The string keys of the items of a dict. *)
Definition item_keys (d : list (PyKey * PyVal)) : list string :=
  omap (fun kv => key_str (fst kv)) d.

(** What one call of the traversal guarantees, whatever its outcome. *)
Definition step_sound (st0 : State)
    (build : string → gset string → State → option (Visit Lineage)) : Prop :=
  ∀ aid seen st r seen' st',
    fs_meta st = fs_meta st0 →
    build aid seen st = Some (r, seen', st') →
    fs_meta st' = fs_meta st0
    ∧ seen ⊆ seen'
    ∧ ∀ t, r = Ok t → Traversal (fun x => load_metadata x st0) seen aid t seen'.

(** ** Sample worlds for the examples *)

Definition sample_clock (n : nat) : datetime :=
  mk_datetime 2024 11 4 12 (N.of_nat n / 60) (N.of_nat n mod 60) 0.

Definition sample_uuids (n : nat) : string := "id-" +:+ decimal (N.of_nat n).

Definition sample_sha256 (data : string) : string := "sha256:" +:+ data.

Definition sample_line_bytes (l : log_line) : N := 200.

Definition sample_doc (id status : string) (sources : list string)
    (path message : option string) : MetadataDict :=
  {| d_artifact_id := id;
     d_artifact_type := "video_raw";
     d_status := status;
     d_created_at := "2024-11-01T09:30:00";
     d_updated_at := "2024-11-01T09:30:05";
     d_source_artifacts := sources;
     d_processing_module := Some "ingest";
     d_processing_version := None;
     d_file_path := path;
     d_file_size := None;
     d_checksum := None;
     d_metadata := JObj [];
     d_error_message := message |}.

Definition sample_record (id op : string) (aid : option string) : AuditDict :=
  {| k_entry_id := id;
     k_timestamp := "2024-11-02T08:00:00";
     k_operation := op;
     k_artifact_id := aid;
     k_user := None;
     k_module := None;
     k_action := "create";
     k_details := JObj [];
     k_success := true;
     k_error_message := None |}.

(** A store with a two-artifact cycle (a, b), a diamond (d over b1 and c1
    over r), a record whose status text was altered, a failed artifact, a
    symbolic link among the source files, and a log of three records. *)
Definition sample_state : State :=
  {| fs_nodes :=
       {[ "/in/clip 1.mp4" := RegularFile "frames";
          "/in/link" := Symlink "/gone";
          "/store/kept.mp4" := RegularFile "frames" ]};
     fs_resolve := fun p => p;
     fs_meta :=
       {[ "a" := MetaDoc (sample_doc "a" "completed" ["b"] None None);
          "b" := MetaDoc (sample_doc "b" "completed" ["a"] None None);
          "d" := MetaDoc (sample_doc "d" "completed" ["b1"; "c1"] None None);
          "b1" := MetaDoc (sample_doc "b1" "completed" ["r"] None None);
          "c1" := MetaDoc (sample_doc "c1" "completed" ["r"] None None);
          "r" := MetaDoc (sample_doc "r" "completed" [] (Some "/store/kept.mp4") None);
          "altered" := MetaDoc (sample_doc "altered" "bogus" [] (Some "/store/kept.mp4") None);
          "broken" := MetaDoc (sample_doc "broken" "failed" [] None (Some "boom")) ]};
     fs_logs :=
       {[ "audit_202411.jsonl" :=
            [Entry (sample_record "e1" "artifact_creation" (Some "a"));
             Garbage "{";
             Entry (sample_record "e2" "processing_run" None);
             Entry (sample_record "e3" "artifact_creation" (Some "b"))] ]};
     fs_exports := ∅;
     clock := sample_clock;
     clock_ix := 0;
     uuids := sample_uuids;
     uuid_ix := 0;
     current_log := "audit_202411.jsonl";
     current_run := None |}.

(** The same world with an empty audit directory. *)
Definition sample_unlogged : State := set_fs_logs ∅ sample_state.

Definition sample_manager : Manager := ArtifactManager (Path_of "/base") true false.
Definition sample_unaudited_manager : Manager := ArtifactManager (Path_of "/base") false false.
(** A trail that rotates as soon as the active log exists. *)
Definition sample_eager_manager : Manager := mk_manager (Path_of "/base") true false 0.


Definition sample_plain_artifact : ArtifactMetadata :=
  {| artifact_id := "t";
     artifact_type := VIDEO_RAW;
     status := COMPLETED;
     created_at := mk_datetime 2024 11 4 12 0 0 0;
     updated_at := mk_datetime 2024 11 4 12 0 1 500;
     source_artifacts := ["a"];
     processing_module := None;
     processing_version := None;
     file_path := Some (Path_of "/store/kept.mp4");
     file_size := Some 6%Z;
     checksum := Some "sha256:frames";
     metadata := PDict [(KStr "shape", PList [PInt 1920; PInt 1080]); (KStr "ok", PBool true)];
     error_message := None |}.

Definition sample_entry (n : nat) : AuditEntry.t :=
  {| AuditEntry.entry_id := sample_uuids n;
     AuditEntry.timestamp := sample_clock n;
     AuditEntry.operation := "artifact_access";
     AuditEntry.artifact_id := None;
     AuditEntry.user := None;
     AuditEntry.module := None;
     AuditEntry.action := "get_metadata";
     AuditEntry.details := JObj [];
     AuditEntry.success := true;
     AuditEntry.error_message := None |}.

(** ** Vocabulary of the further properties *)

(** The artifact [load_metadata] builds from the record [save_metadata]
    wrote for [a] with the encoded bag [bag]. *)
Definition reloaded (a : ArtifactMetadata) (bag : JVal) : ArtifactMetadata :=
  {| artifact_id := artifact_id a;
     artifact_type := artifact_type a;
     status := status a;
     created_at := created_at a;
     updated_at := updated_at a;
     source_artifacts := source_artifacts a;
     processing_module := processing_module a;
     processing_version := processing_version a;
     file_path := file_path a;
     file_size := file_size a;
     checksum := checksum a;
     metadata := json_to_py bag;
     error_message := error_message a |}.

(** The audit directory and the name of the active log are as before. *)
Definition audit_untouched (st st' : State) : Prop :=
  fs_logs st' = fs_logs st ∧ current_log st' = current_log st.

(** The time stamp of a record is ISO text and lies between the bounds
    given, both included. *)
Definition within (start_time end_time : option datetime) (d : AuditDict) : bool :=
  match fromisoformat (k_timestamp d) with
  | Some t =>
      match start_time with Some t0 => dt_leb t0 t | None => true end
      && match end_time with Some t1 => dt_leb t t1 | None => true end
  | None => false
  end.

(** The metadata bag of [a] is a dict whose entry [run_id] is the text [r]. *)
Definition carries_run_id (r : string) (a : ArtifactMetadata) : bool :=
  match metadata a with
  | PDict d => eq_str (dict_get "run_id" d) r
  | _ => false
  end.

(** [k] is the path of the file of a listed artifact created before the
    cut-off date. *)
Definition old_file (cutoff_date : datetime) (artifacts : list ArtifactMetadata)
    (k : string) : Prop :=
  ∃ a p, a ∈ artifacts ∧ dt_ltb (created_at a) cutoff_date = true
         ∧ file_path a = Some p ∧ path_str p = k.

(** ** Further sample worlds *)

(** An artifact whose metadata bag holds a value [json.dump] has no rule
    for. *)
Definition sample_unencodable_artifact : ArtifactMetadata :=
  {| artifact_id := "u";
     artifact_type := VIDEO_RAW;
     status := PENDING;
     created_at := mk_datetime 2024 11 4 12 0 0 0;
     updated_at := mk_datetime 2024 11 4 12 0 0 0;
     source_artifacts := [];
     processing_module := None;
     processing_version := None;
     file_path := None;
     file_size := None;
     checksum := None;
     metadata := PDict [(KStr "when", POther "datetime")];
     error_message := None |}.



(** A store of two records that decode: [r] with its file, and the failed
    [broken] without one. *)
Definition sample_old_state : State :=
  set_fs_meta
    {[ "r" := MetaDoc (sample_doc "r" "completed" [] (Some "/store/kept.mp4") None);
       "broken" := MetaDoc (sample_doc "broken" "failed" [] None (Some "boom")) ]}
    sample_state.

(** A record whose metadata bag names a run. *)
Definition sample_doc_in_run (id run : string) : MetadataDict :=
  {| d_artifact_id := id;
     d_artifact_type := "text_raw";
     d_status := "completed";
     d_created_at := "2024-11-01T09:30:00";
     d_updated_at := "2024-11-01T09:30:05";
     d_source_artifacts := [];
     d_processing_module := None;
     d_processing_version := None;
     d_file_path := None;
     d_file_size := None;
     d_checksum := None;
     d_metadata := JObj [("run_id", JStr run)];
     d_error_message := None |}.

Definition sample_run_state : State :=
  set_fs_meta
    {[ "x" := MetaDoc (sample_doc_in_run "x" "run-7");
       "y" := MetaDoc (sample_doc "y" "completed" [] None None) ]}
    sample_state.

(** A log with three failures, two of them of the same operation, one
    without a module and without a message. *)
Definition sample_failure (id op : string) (module message : option string) : AuditDict :=
  {| k_entry_id := id;
     k_timestamp := "2024-11-02T08:00:00";
     k_operation := op;
     k_artifact_id := None;
     k_user := None;
     k_module := module;
     k_action := "store";
     k_details := JObj [];
     k_success := false;
     k_error_message := message |}.

Definition sample_failures_state : State :=
  set_fs_logs
    {[ "audit_202411.jsonl" :=
         [Entry (sample_failure "f1" "artifact_storage" (Some "ingest") (Some "disk full"));
          Entry (sample_record "e1" "artifact_creation" (Some "a"));
          Entry (sample_failure "f2" "artifact_storage" None None);
          Entry (sample_failure "f3" "artifact_update" (Some "ingest") (Some "disk full"))] ]}
    sample_state.

(** * Properties *)

(** ** Texts *)

Lemma length_map_chars f s : String.length (map_chars f s) = String.length s.
Proof. induction s as [|c r IH]; simpl; congruence. Qed.

Lemma get_map_chars f s i : String.get i (map_chars f s) = f <$> String.get i s.
Proof.
  revert i; induction s as [|c r IH]; intros [|i]; simpl; auto.
Qed.

Lemma length_substring_0 n s :
  String.length (substring 0 n s) = Nat.min n (String.length s).
Proof.
  revert s; induction n as [|n IH]; intros [|c r]; simpl; auto.
Qed.

Lemma get_substring_0 n s i :
  (i < n)%nat → String.get i (substring 0 n s) = String.get i s.
Proof.
  revert s i; induction n as [|n IH]; intros s i Hi; [lia|].
  destruct s as [|c r]; simpl; [reflexivity|].
  destruct i as [|i]; [reflexivity|]. apply IH. lia.
Qed.

Lemma get_beyond s i : (String.length s <= i)%nat → String.get i s = None.
Proof.
  revert i; induction s as [|c r IH]; intros i Hi; simpl in *.
  - destruct i; reflexivity.
  - destruct i as [|i]; [lia|]. apply IH. lia.
Qed.

Lemma all_chars_get p s :
  all_chars p s = true ↔ ∀ i c, String.get i s = Some c → p c = true.
Proof.
  induction s as [|a r IH]; simpl.
  - split; [intros _ i c; destruct i; discriminate | reflexivity].
  - rewrite andb_true_iff, IH. split.
    + intros [Ha Hr] [|i] c; simpl; [intros [= <-]; exact Ha | apply Hr].
    + intros H. split; [apply (H O); reflexivity | intros i c Hc; apply (H (S i)); exact Hc].
Qed.

Lemma get_safe_filename name i :
  (i < 100)%nat →
  String.get i (safe_filename name)
  = (fun c => if unsafe_char c then "_"%char else c) <$> String.get i name.
Proof.
  intros Hi. unfold safe_filename, re_sub_unsafe.
  destruct (100 <? _)%nat.
  - rewrite get_substring_0 by exact Hi. apply get_map_chars.
  - apply get_map_chars.
Qed.

Lemma length_safe_filename name :
  String.length (safe_filename name) = Nat.min 100 (String.length name).
Proof.
  unfold safe_filename, re_sub_unsafe.
  destruct (Nat.ltb_spec 100 (String.length (map_chars (fun c => if unsafe_char c then "_"%char else c) name)))
    as [H|H]; rewrite length_map_chars in H.
  - rewrite length_substring_0, length_map_chars. reflexivity.
  - rewrite length_map_chars. lia.
Qed.

(** C2 (as amended): the stored name is the input name cut to its first 100
    characters, in which a character is replaced by an underscore exactly
    when it is outside the class of the pattern: not a word character of
    the Unicode-aware [\w] (so letters and digits beyond ASCII are kept),
    not a hyphen, not a dot. *)
Theorem safe_filename_spec (name : string) :
  String.length (safe_filename name) = Nat.min 100 (String.length name)
  ∧ (∀ i, (i < 100)%nat →
       String.get i (safe_filename name)
       = (fun c => if re_word c || Ascii.eqb c "-" || Ascii.eqb c "." then c else "_"%char)
           <$> String.get i name)
  ∧ all_chars (fun c => re_word c || Ascii.eqb c "-" || Ascii.eqb c ".")
              (safe_filename name) = true.
Proof.
  assert (Hcls : ∀ c, (if unsafe_char c then "_"%char else c)
                      = (if re_word c || Ascii.eqb c "-" || Ascii.eqb c "." then c else "_"%char)).
  { intros c. unfold unsafe_char, re_word.
    destruct (isalnum c), (Ascii.eqb c "_"), (Ascii.eqb c "-"), (Ascii.eqb c "."); reflexivity. }
  split; [apply length_safe_filename|]. split.
  - intros i Hi. rewrite get_safe_filename by exact Hi.
    destruct (String.get i name); simpl; [rewrite Hcls|]; reflexivity.
  - apply all_chars_get. intros i c Hc.
    assert (Hi : (i < 100)%nat).
    { destruct (Nat.lt_ge_cases i 100) as [|Hge]; [assumption|].
      rewrite get_beyond in Hc; [discriminate|].
      rewrite length_safe_filename. lia. }
    rewrite get_safe_filename in Hc by exact Hi.
    destruct (String.get i name) as [a|]; simpl in Hc; [|discriminate].
    injection Hc as <-. rewrite Hcls.
    destruct (re_word a || Ascii.eqb a "-" || Ascii.eqb a ".") eqn:E; [exact E|reflexivity].
Qed.

(** ** Decimal fields and ISO-8601 texts *)

Ltac Zify.zify_post_hook ::= Z.to_euclidean_division_equations.

Lemma digit_val_char n : digit_val (digit_char n) = Some (n mod 10).
Proof.
  unfold digit_val, digit_char.
  assert (H : n mod 10 < 10) by (apply N.mod_lt; discriminate).
  rewrite N_ascii_embedding by lia.
  replace (48 <=? 48 + n mod 10) with true by (symmetry; apply N.leb_le; lia).
  replace (48 + n mod 10 <=? 57) with true by (symmetry; apply N.leb_le; lia).
  simpl. f_equal. lia.
Qed.

Lemma take_digits_zpad_onto k : ∀ j n acc rest,
  n < 10 ^ N.of_nat k →
  take_digits (k + j) acc (zpad_onto k n rest)
  = take_digits j (acc * 10 ^ N.of_nat k + n) rest.
Proof.
  clear sha256_hex line_bytes.
  induction k as [|k IH]; intros j n acc rest Hn.
  - simpl in *. f_equal. lia.
  - cbn [zpad_onto]. replace (S k + j)%nat with (k + S j)%nat by lia.
    assert (Hpow : 10 ^ N.of_nat (S k) = 10 * 10 ^ N.of_nat k).
    { rewrite Nat2N.inj_succ, N.pow_succ_r'. reflexivity. }
    rewrite IH.
    + cbn [take_digits]. rewrite digit_val_char. f_equal.
      rewrite Hpow. pose proof (N.div_mod n 10). lia.
    + apply N.Div0.div_lt_upper_bound. lia.
Qed.

Lemma take_digits_zpad k n rest :
  n < 10 ^ N.of_nat k →
  take_digits k 0 (zpad_onto k n rest) = Some (n, rest).
Proof.
  intros Hn. pose proof (take_digits_zpad_onto k 0 n 0 rest Hn) as H.
  rewrite Nat.add_0_r in H. rewrite H. reflexivity.
Qed.

Lemma days_in_month_le y m : days_in_month y m <= 31.
Proof.
  unfold days_in_month.
  destruct (m =? 2); [destruct (is_leap y); lia|].
  destruct ((m =? 4) || (m =? 6) || (m =? 9) || (m =? 11)); lia.
Qed.

Lemma fromisoformat_isoformat d :
  valid_datetime d = true → fromisoformat (isoformat d) = Some d.
Proof.
  clear sha256_hex line_bytes. intros Hv. pose proof Hv as Hv'.
  unfold valid_datetime, between in Hv'.
  repeat match goal with
         | H : _ && _ = true |- _ => apply andb_true_iff in H as [? ?]
         | H : (_ <=? _) = true |- _ => apply N.leb_le in H
         | H : (_ <? _) = true |- _ => apply N.ltb_lt in H
         end.
  destruct d as [y m dd h mi s us]; cbn [year month day hour minute second microsecond] in *.
  pose proof (days_in_month_le y m).
  unfold fromisoformat, isoformat.
  cbn [year month day hour minute second microsecond].
  rewrite take_digits_zpad by (simpl; lia). cbn [mbind option_bind expect Ascii.eqb Bool.eqb].
  rewrite take_digits_zpad by (simpl; lia). cbn [mbind option_bind expect Ascii.eqb Bool.eqb].
  rewrite take_digits_zpad by (simpl; lia). cbn [mbind option_bind expect Ascii.eqb Bool.eqb].
  unfold parse_time.
  rewrite take_digits_zpad by (simpl; lia). cbn [mbind option_bind expect Ascii.eqb Bool.eqb].
  rewrite take_digits_zpad by (simpl; lia). cbn [mbind option_bind expect Ascii.eqb Bool.eqb].
  rewrite take_digits_zpad by (simpl; lia).
  destruct (N.eqb_spec us 0) as [->|Hus].
  - cbn [mbind option_bind]. rewrite Hv. reflexivity.
  - cbn [mbind option_bind expect Ascii.eqb Bool.eqb].
    assert (Hfrac : parse_fraction (zpad 6 us) = Some us).
    { unfold parse_fraction, zpad. rewrite take_digits_zpad by (simpl; lia).
      cbn [zpad_onto take_digits]. rewrite !digit_val_char. reflexivity. }
    rewrite Hfrac. cbn [mbind option_bind]. rewrite Hv. reflexivity.
Qed.

(** ** JSON documents and Python values *)



Lemma existsb_eqb_elem (x : string) l : existsb (String.eqb x) l = true ↔ x ∈ l.
Proof.
  induction l as [|y r IH]; simpl.
  - split; [discriminate | intros H; inversion H].
  - rewrite orb_true_iff, IH, elem_of_cons, String.eqb_eq. reflexivity.
Qed.

Lemma distinct_NoDup l : distinct l = true ↔ NoDup l.
Proof.
  induction l as [|x r IH]; simpl.
  - split; [constructor | reflexivity].
  - rewrite andb_true_iff, negb_true_iff, NoDup_cons, IH.
    rewrite <- not_true_iff_false, existsb_eqb_elem. reflexivity.
Qed.

Lemma dict_setitem_fresh k x l :
  k ∉ map fst l → dict_setitem k x (wrap_items l) = wrap_items (l ++ [(k, x)]).
Proof.
  induction l as [|[k' y] r IH]; simpl; intros Hk.
  - reflexivity.
  - rewrite not_elem_of_cons in Hk. destruct Hk as [Hne Hr].
    destruct (String.eqb_spec k' k) as [->|_]; [congruence|].
    f_equal. apply IH, Hr.
Qed.

Lemma fold_setitem_distinct l : ∀ acc,
  NoDup (map fst (acc ++ l)) →
  fold_left (fun d kv => dict_setitem (fst kv) (snd kv) d) l (wrap_items acc)
  = wrap_items (acc ++ l).
Proof.
  induction l as [|[k x] r IH]; intros acc Hnd; simpl.
  - rewrite app_nil_r. reflexivity.
  - rewrite dict_setitem_fresh.
    + rewrite IH; rewrite <- app_assoc; [reflexivity | exact Hnd].
    + rewrite map_app in Hnd. apply NoDup_app in Hnd as (_ & Hdisj & _).
      intros Hin. apply (Hdisj k Hin). simpl. left.
Qed.

(** On the values JSON has a form of its own for, [json.dump] succeeds and
    [json.load] gives the value back. *)
Lemma json_native_roundtrip v :
  json_native v = true → ∃ j, py_to_json v = Ok j ∧ json_to_py j = v.
Proof.
  induction v as [| b | z | s | l IH | l IH | kvs IH | ty] using PyVal_nested_ind;
    intros Hn; try discriminate; try (eexists; split; reflexivity).
  - (* list *)
    assert (H : ∃ js, mapM_result py_to_json l = Ok js ∧ map json_to_py js = l).
    { cbn [json_native] in Hn. clear -IH Hn.
      induction IH as [|x r Hx _ IHr]; simpl in *.
      - exists []. split; reflexivity.
      - apply andb_true_iff in Hn as [Hx' Hr'].
        destruct (Hx Hx') as (j & -> & Hj). destruct (IHr Hr') as (js & -> & Hjs).
        exists (j :: js). simpl. rewrite Hj, Hjs. split; reflexivity. }
    destruct H as (js & Hjs & Hback). exists (JArr js). cbn [py_to_json json_to_py].
    rewrite Hjs, Hback. split; reflexivity.
  - (* dict *)
    cbn [json_native] in Hn. apply andb_true_iff in Hn as [Hn Hvals].
    apply andb_true_iff in Hn as [Hkeys Hdist]. apply distinct_NoDup in Hdist.
    assert (H : ∃ ms items,
               mapM_result
                 (fun kv => match kv with
                            | (k, x) =>
                                match dump_key k with
                                | Raise e => Raise e
                                | Ok ks =>
                                    match py_to_json x with
                                    | Raise e => Raise e
                                    | Ok j => Ok (ks, j)
                                    end
                                end
                            end) kvs = Ok ms
               ∧ map (fun kv => match kv with (k, x) => (k, json_to_py x) end) ms = items
               ∧ wrap_items items = kvs
               ∧ map fst items = omap (fun kv => key_str (fst kv)) kvs).
    { clear Hdist. induction IH as [|[k x] r Hx _ IHr]; simpl in *.
      - exists [], []. repeat split; reflexivity.
      - apply andb_true_iff in Hkeys as [Hk Hkeys]. apply andb_true_iff in Hvals as [Hx' Hvals].
        destruct k as [s| | | |]; try discriminate. simpl.
        destruct (Hx Hx') as (j & -> & Hj).
        destruct (IHr Hkeys Hvals) as (ms & items & -> & Hitems & Hwrap & Hfst).
        exists ((s, j) :: ms), ((s, x) :: items). simpl.
        rewrite Hj, Hitems, Hwrap, Hfst. repeat split; reflexivity. }
    destruct H as (ms & items & Hms & Hitems & Hwrap & Hfst).
    exists (JObj ms). cbn [py_to_json json_to_py]. rewrite Hms, Hitems. split; [reflexivity|].
    f_equal. rewrite <- Hwrap. apply (fold_setitem_distinct items []).
    simpl. rewrite Hfst. exact Hdist.
Qed.

(** ** Metadata files *)

Lemma ArtifactType_of_value t : ArtifactType_of (type_value t) = Ok t.
Proof. destruct t; reflexivity. Qed.

Lemma ArtifactStatus_of_value s : ArtifactStatus_of (status_value s) = Ok s.
Proof. destruct s; reflexivity. Qed.

Lemma parse_timestamp_isoformat d :
  valid_datetime d = true → parse_timestamp (isoformat d) = Ok d.
Proof. intros H. unfold parse_timestamp. rewrite fromisoformat_isoformat by exact H. reflexivity. Qed.

Lemma Path_of_path_str p : Path_of (path_str p) = p.
Proof. destruct p; reflexivity. Qed.

Lemma artifact_of_metadata_dict a bag :
  valid_datetime (created_at a) = true →
  valid_datetime (updated_at a) = true →
  json_to_py bag = metadata a →
  artifact_of_dict (metadata_dict a bag) = Ok a.
Proof.
  intros Hc Hu Hbag. unfold artifact_of_dict, metadata_dict.
  cbn [d_artifact_id d_artifact_type d_status d_created_at d_updated_at
       d_source_artifacts d_processing_module d_processing_version d_file_path
       d_file_size d_checksum d_metadata d_error_message].
  rewrite ArtifactType_of_value, ArtifactStatus_of_value.
  rewrite !parse_timestamp_isoformat by assumption.
  cbn [bind_result]. rewrite Hbag.
  destruct a as [aid ty stt c u src pm pv fp fs ck md em]; simpl.
  destruct fp as [[c0 r0]|]; reflexivity.
Qed.


(** ** Retrieval *)

Lemma path_exists_unlink p st : path_exists (unlink p st) p = false.
Proof.
  unfold path_exists, unlink. cbn [fs_nodes set_fs_nodes follow].
  rewrite lookup_delete_eq. reflexivity.
Qed.

(** C3 (as amended): [retrieve_artifact] returns a path exactly when the
    metadata record of the id exists, decodes into an artifact, names a file
    path, and that path exists; it raises exactly when the record exists but
    does not decode (a truncated document, an unknown type or status, a
    malformed time stamp); and once the file of a decodable record has been
    deleted behind the store's back it returns nothing, without raising. *)
Theorem retrieve_artifact_spec (aid : string) (st : State) :
  (∀ p, retrieve_artifact aid st = Ok (Some p)
        ↔ ∃ data artifact,
            fs_meta st !! aid = Some (MetaDoc data)
            ∧ artifact_of_dict data = Ok artifact
            ∧ file_path artifact = Some p
            ∧ path_exists st p = true)
  ∧ (∀ e, retrieve_artifact aid st = Raise e
          ↔ (fs_meta st !! aid = Some MetaTruncated
             ∧ e = Exn JSONDecodeError "Expecting value: line 1 column 1 (char 0)")
            ∨ ∃ data, fs_meta st !! aid = Some (MetaDoc data)
                      ∧ artifact_of_dict data = Raise e)
  ∧ (∀ data artifact p,
        fs_meta st !! aid = Some (MetaDoc data) →
        artifact_of_dict data = Ok artifact →
        file_path artifact = Some p →
        retrieve_artifact aid (unlink p st) = Ok None).
Proof.
  unfold retrieve_artifact, load_metadata. repeat split.
  - intros H. destruct (fs_meta st !! aid) as [[data|]|] eqn:Hm; simpl in H; try discriminate.
    destruct (artifact_of_dict data) as [artifact|e] eqn:Hd; simpl in H; [|discriminate].
    destruct (file_path artifact) as [q|] eqn:Hp; [|discriminate].
    destruct (path_exists st q) eqn:Hex; [|discriminate].
    injection H as <-. exists data, artifact. auto.
  - intros (data & artifact & -> & Hd & Hp & Hex). simpl.
    rewrite Hd. simpl. rewrite Hp, Hex. reflexivity.
  - intros H. destruct (fs_meta st !! aid) as [[data|]|] eqn:Hm; simpl in H.
    + right. exists data. split; [reflexivity|].
      destruct (artifact_of_dict data) as [artifact|e'] eqn:Hd; simpl in H.
      * destruct (file_path artifact) as [q|]; [destruct (path_exists st q)|]; discriminate.
      * congruence.
    + left. split; [reflexivity|]. congruence.
    + discriminate.
  - intros [[-> ->]|(data & -> & Hd)]; simpl; [reflexivity|]. rewrite Hd. reflexivity.
  - intros data artifact p Hm Hd Hp. cbn [unlink fs_meta set_fs_meta].
    replace (fs_meta (unlink p st)) with (fs_meta st) by reflexivity.
    rewrite Hm. simpl. rewrite Hd. simpl. rewrite Hp, path_exists_unlink. reflexivity.
Qed.

(** A successful [store_artifact] returns the path under the directory of
    the artifact's type whose name is the artifact id, an underscore and the
    sanitized name of the resolved source, and leaves that path on the
    artifact object. *)
Lemma store_artifact_Ok self source_path artifact st p artifact1 st1 :
  store_artifact self source_path artifact st = (Ok p, artifact1, st1) →
  p = path_join
        (path_join (path_join (storage_root self) "artifacts")
                   (type_value (artifact_type artifact)))
        (artifact_id artifact +:+ "_"
         +:+ safe_filename (path_name (fs_resolve st source_path)))
  ∧ file_path artifact1 = Some p
  ∧ is_symlink st source_path = false.
Proof.
  unfold store_artifact.
  destruct (is_symlink st source_path); [discriminate|].
  destruct (negb (path_exists st (fs_resolve st source_path))); [discriminate|].
  destruct (copy2 _ _ st) as [[[]|e] st']; [|discriminate].
  destruct (read_bytes st' _) as [data|]; [|discriminate].
  destruct (save_metadata _ st') as [[[]|e] st'']; [|discriminate].
  intros [= <- <- <-]. auto.
Qed.

(** C7: a source path that is a symbolic link makes [store_artifact] raise
    the security error, whatever the link points to; the artifact object and
    the world are left as they were. *)
Theorem store_artifact_rejects_symlink
    (self : Manager) (source_path : Path) (target : string)
    (artifact : ArtifactMetadata) (st : State) :
  fs_nodes st !! path_str source_path = Some (Symlink target) →
  store_artifact self source_path artifact st
  = (Raise (Exn ValueError "Symlinks not allowed for security"), artifact, st).
Proof.
  intros H. unfold store_artifact, is_symlink. rewrite H. reflexivity.
Qed.

(** C10: when the time range selects no audit entry, the CSV export writes
    nothing (no file appears at the output path, the world is unchanged) and
    still returns the output path, while the JSON export writes the empty
    array to the output path. *)
Theorem export_audit_trail_no_entries
    (output_path : Path) (start_time end_time : option datetime) (st : State) :
  query_audit_trail start_time end_time None None None None None None None st = Ok [] →
  export_audit_trail output_path start_time end_time "csv" st = (Ok output_path, st)
  ∧ export_audit_trail output_path start_time end_time "json" st
    = (Ok output_path,
       set_fs_exports (<[path_str output_path := JsonArray []]> (fs_exports st)) st).
Proof.
  intros H. unfold export_audit_trail, bind, read. rewrite H. split; reflexivity.
Qed.

(** ** Queries *)

Lemma scan_lines_unlimited pass (P : AuditDict → Prop) `{∀ e, Decision (P e)} :
  (∀ e, pass e = Ok (bool_decide (P e))) →
  ∀ lines entries,
    scan_lines pass None lines entries
    = Ok ((entries ++ filter P (entries_of lines))%list, false).
Proof.
  intros Hpass. induction lines as [|[e|raw] rest IH]; intros entries.
  - simpl. rewrite app_nil_r. reflexivity.
  - cbn [scan_lines]. rewrite Hpass. cbn [bind_result limit_reached].
    unfold entries_of. cbn [omap list_omap]. fold (entries_of rest).
    case_bool_decide.
    + rewrite IH, filter_cons_True by assumption. rewrite <- app_assoc. reflexivity.
    + rewrite IH, filter_cons_False by assumption. reflexivity.
  - cbn [scan_lines]. rewrite IH. reflexivity.
Qed.

Lemma scan_files_unlimited pass (P : AuditDict → Prop) `{∀ e, Decision (P e)} :
  (∀ e, pass e = Ok (bool_decide (P e))) →
  ∀ files entries,
    scan_files pass None files entries
    = Ok (entries ++ filter P (entries_of (concat files)))%list.
Proof.
  intros Hpass. induction files as [|lines rest IH]; intros entries.
  - simpl. rewrite app_nil_r. reflexivity.
  - cbn [scan_files]. rewrite (scan_lines_unlimited pass P Hpass). cbn [bind_result snd fst].
    rewrite IH. cbn [concat]. unfold entries_of. rewrite omap_app, filter_app, app_assoc.
    reflexivity.
Qed.

Lemma elem_of_concat {A} (x : A) (ls : list (list A)) :
  x ∈ concat ls ↔ ∃ l, x ∈ l ∧ l ∈ ls.
Proof.
  induction ls as [|l r IH]; simpl.
  - split; [intros H; inversion H | intros (l & _ & H); inversion H].
  - rewrite elem_of_app, IH. split.
    + intros [H|(l' & H1 & H2)]; [exists l | exists l'];
        (split; [assumption|]); [left | right; assumption].
    + intros (l' & H1 & H2). apply elem_of_cons in H2 as [->|H2]; [left; assumption|].
      right. exists l'. auto.
Qed.

Lemma elem_of_log_files name st :
  name ∈ log_files st ↔ glob_audit name = true ∧ is_Some (fs_logs st !! name).
Proof.
  unfold log_files. rewrite merge_sort_Permutation, list_elem_of_filter, list_elem_of_fmap.
  split.
  - intros [Hg ([n lines] & -> & Hin)]. apply elem_of_map_to_list in Hin.
    split; [exact Hg | exists lines; exact Hin].
  - intros [Hg [lines Hl]]. split; [exact Hg|].
    exists (name, lines). split; [reflexivity | apply elem_of_map_to_list; exact Hl].
Qed.

Lemma elem_of_entries_of d lines : d ∈ entries_of lines ↔ Entry d ∈ lines.
Proof.
  unfold entries_of. rewrite list_elem_of_omap. split.
  - intros ([e|raw] & Hin & Heq); [injection Heq as ->; exact Hin | discriminate].
  - intros Hin. exists (Entry d). split; [exact Hin | reflexivity].
Qed.

Lemma elem_of_logged_entries d st :
  d ∈ logged_entries st
  ↔ ∃ name lines,
      glob_audit name = true ∧ fs_logs st !! name = Some lines ∧ Entry d ∈ lines.
Proof.
  unfold logged_entries. rewrite elem_of_entries_of, elem_of_concat. split.
  - intros (lines & Hd & Hl). apply list_elem_of_fmap in Hl as (name & -> & Hn).
    apply elem_of_log_files in Hn as [Hg [ls Hls]]. rewrite Hls in Hd. simpl in Hd.
    exists name, ls. auto.
  - intros (name & lines & Hg & Hl & Hd). exists lines. split; [exact Hd|].
    apply list_elem_of_fmap. exists name. rewrite Hl. split; [reflexivity|].
    apply elem_of_log_files. split; [exact Hg | exists lines; exact Hl].
Qed.

Lemma passes_artifact_filter X e :
  X ≠ "" →
  passes_filters None None None None (Some X) None None None e
  = Ok (bool_decide (k_artifact_id e = Some X)).
Proof.
  intros HX. unfold passes_filters. cbn.
  unfold str_truthy. destruct (String.eqb_spec X "") as [|_]; [contradiction|]. cbn.
  rewrite !andb_true_r. f_equal.
  destruct (k_artifact_id e) as [v|]; [|symmetry; apply bool_decide_eq_false; discriminate].
  destruct (String.eqb_spec v X) as [->|Hne].
  - symmetry. apply bool_decide_eq_true. reflexivity.
  - symmetry. apply bool_decide_eq_false. congruence.
Qed.

Lemma passes_empty_artifact_filter e :
  passes_filters None None None None (Some "") None None None e
  = Ok (bool_decide ((fun _ : AuditDict => True) e)).
Proof. reflexivity. Qed.

Lemma filter_all {A} (l : list A) : filter (fun _ : A => True) l = l.
Proof.
  induction l as [|x l IH]; [reflexivity|].
  rewrite filter_cons_True by exact I. rewrite IH. reflexivity.
Qed.

(** C8 (as amended): for every state of the audit log and every non-empty
    artifact id, the query filtered by that id returns, in reading order,
    exactly the parseable records of the log files whose [artifact_id] field
    is that id: every such record is returned and no record with another or
    a null id is.  With the empty string as id the filter is off: the query
    returns, in reading order, every parseable record of the log files,
    whatever its [artifact_id] field. *)
Theorem query_by_artifact_id (X : string) (st : State) :
  (X ≠ "" →
   ∃ entries,
     query_audit_trail None None None None (Some X) None None None None st = Ok entries
     ∧ get_artifact_history X st = Ok entries
     ∧ entries = filter (fun d => k_artifact_id d = Some X) (logged_entries st)
     ∧ (∀ d, d ∈ entries
             ↔ k_artifact_id d = Some X
               ∧ ∃ name lines,
                   glob_audit name = true
                   ∧ fs_logs st !! name = Some lines
                   ∧ Entry d ∈ lines))
  ∧ (∃ entries,
       query_audit_trail None None None None (Some "") None None None None st = Ok entries
       ∧ get_artifact_history "" st = Ok entries
       ∧ entries = logged_entries st
       ∧ (∀ d, d ∈ entries
               ↔ ∃ name lines,
                   glob_audit name = true
                   ∧ fs_logs st !! name = Some lines
                   ∧ Entry d ∈ lines)).
Proof.
  split.
  - intros HX. eexists. split; [|split; [|split; [reflexivity|]]].
    + unfold query_audit_trail.
      rewrite (scan_files_unlimited _ (fun d => k_artifact_id d = Some X));
        [reflexivity | intros e; apply passes_artifact_filter, HX].
    + unfold get_artifact_history, query_audit_trail.
      rewrite (scan_files_unlimited _ (fun d => k_artifact_id d = Some X));
        [reflexivity | intros e; apply passes_artifact_filter, HX].
    + intros d. simpl. rewrite list_elem_of_filter, elem_of_logged_entries. reflexivity.
  - assert (Hall : query_audit_trail None None None None (Some "") None None None None st
                   = Ok (logged_entries st)).
    { unfold query_audit_trail.
      rewrite (scan_files_unlimited _ (fun _ => True));
        [|intros e; apply passes_empty_artifact_filter].
      simpl. rewrite filter_all. reflexivity. }
    exists (logged_entries st). split; [exact Hall|]. split; [exact Hall|].
    split; [reflexivity|]. intros d. apply elem_of_logged_entries.
Qed.

(** ** Writing to the audit log *)

Lemma store_untouched_refl st : store_untouched st st.
Proof. repeat split. Qed.

Lemma store_untouched_trans st1 st2 st3 :
  store_untouched st1 st2 → store_untouched st2 st3 → store_untouched st1 st3.
Proof.
  unfold store_untouched. intros (?&?&?&?&?&?&?) (?&?&?&?&?&?&?).
  repeat split; congruence.
Qed.

Lemma _rotate_log_untouched st :
  ∃ st', _rotate_log st = (Ok tt, st') ∧ store_untouched st st'.
Proof.
  unfold _rotate_log.
  destruct (fs_logs st !! current_log st) as [lines|] eqn:Hl;
    [|eexists; split; [reflexivity | apply store_untouched_refl]].
  destruct (next_rotation _ _ _ _) as [n|];
    [|eexists; split; [reflexivity | apply store_untouched_refl]].
  unfold bind, _get_current_log_path, now, ret, modify, rename_log. rewrite Hl.
  eexists. split; [reflexivity|]. repeat split.
Qed.

(** [_write_entry] never raises: it ends by appending the record to the
    log that is current after the rotation check. *)
Lemma _write_entry_appends self entry st :
  ∃ st1,
    _write_entry self entry st = (Ok tt, append_line (Entry (to_dict entry)) st1)
    ∧ store_untouched st st1
    ∧ (_should_rotate self st = false → st1 = st)
    ∧ (_should_rotate self st = true → _rotate_log st = (Ok tt, st1)).
Proof.
  unfold _write_entry, bind, modify.
  destruct (_should_rotate self st) eqn:Hr.
  - destruct (_rotate_log_untouched st) as (st1 & Hrot & Hun). rewrite Hrot.
    exists st1. split; [reflexivity|]. split; [exact Hun|]. split; [discriminate|].
    intros _. reflexivity.
  - exists st. split; [reflexivity|]. split; [apply store_untouched_refl|].
    split; [reflexivity | discriminate].
Qed.

Lemma append_line_lookup l st :
  fs_logs (append_line l st) !! current_log (append_line l st)
  = Some (default [] (fs_logs st !! current_log st) ++ [l])%list.
Proof. unfold append_line. cbn [fs_logs current_log set_fs_logs]. apply lookup_insert_eq. Qed.

Lemma append_line_untouched l st : store_untouched st (append_line l st).
Proof. repeat split. Qed.

(** [log_operation] never raises; it returns the record it built and
    leaves it as the last line of the current log. *)
Lemma log_operation_appends self operation action aid user module details success err st :
  let entry := logged_entry st operation action aid user module details success err in
  ∃ st' prior,
    log_operation self operation action aid user module details success err st
    = (Ok entry, st')
    ∧ fs_logs st' !! current_log st' = Some (prior ++ [Entry (to_dict entry)])%list
    ∧ store_untouched st st'.
Proof.
  intros entry. unfold log_operation, bind, uuid4, now, ret.
  cbn [clock clock_ix set_uuid_ix set_clock_ix uuids uuid_ix].
  subst entry. unfold logged_entry.
  match goal with |- context [_write_entry self ?e ?s] =>
    destruct (_write_entry_appends self e s) as (st1 & Hw & Hun & _) end.
  rewrite Hw. eexists. eexists. split; [reflexivity|]. split.
  - apply append_line_lookup.
  - eapply store_untouched_trans; [|apply append_line_untouched].
    eapply store_untouched_trans; [|exact Hun]. repeat split.
Qed.

(** ** Status updates *)

Lemma dict_setitem_keys k x d s :
  s ∈ item_keys (dict_setitem k x d) → s ∈ item_keys d ∨ s = k.
Proof.
  unfold item_keys. induction d as [|[k' y] r IH]; simpl.
  - intros H. apply list_elem_of_singleton in H. auto.
  - destruct k' as [s'| | | |]; simpl;
      try (intros H; destruct (IH H); auto).
    destruct (String.eqb_spec s' k) as [->|Hne]; simpl; [auto|].
    rewrite !elem_of_cons. intros [->|H]; [auto|]. destruct (IH H); auto.
Qed.

Lemma dict_setitem_native k x d :
  json_native (PDict d) = true → json_native x = true →
  json_native (PDict (dict_setitem k x d)) = true.
Proof.
  cbn [json_native]. fold (item_keys d). fold (item_keys (dict_setitem k x d)).
  intros Hd Hx. apply andb_true_iff in Hd as [Hd Hvals].
  apply andb_true_iff in Hd as [Hkeys Hdist]. apply distinct_NoDup in Hdist.
  rewrite !andb_true_iff, distinct_NoDup.
  induction d as [|[k' y] r IH]; simpl in *.
  - rewrite Hx. repeat split. unfold item_keys. simpl. apply NoDup_singleton.
  - apply andb_true_iff in Hkeys as [Hk Hkeys]. apply andb_true_iff in Hvals as [Hy Hvals].
    destruct k' as [s'| | | |]; try discriminate.
    unfold item_keys in Hdist. simpl in Hdist. apply NoDup_cons in Hdist as [Hnin Hdist].
    destruct (IH Hkeys Hdist Hvals) as ((IHk & IHd) & IHv).
    destruct (String.eqb_spec s' k) as [->|Hne]; simpl.
    + rewrite Hkeys, Hx, Hvals. repeat split. unfold item_keys. simpl.
      apply NoDup_cons. auto.
    + rewrite IHk, Hy, IHv. repeat split. unfold item_keys. simpl.
      apply NoDup_cons. split; [|exact IHd].
      intros Hin. apply dict_setitem_keys in Hin as [Hin|Heq]; [exact (Hnin Hin) | congruence].
Qed.

(** Whatever [json.load] returns is again a value JSON has a form for. *)
Lemma json_to_py_native j : json_native (json_to_py j) = true.
Proof.
  induction j as [| b | z | s | l IH | ms IH] using JVal_nested_ind; try reflexivity.
  - cbn [json_to_py json_native]. induction IH as [|x r Hx _ IHr]; simpl; [reflexivity|].
    rewrite Hx, IHr. reflexivity.
  - cbn [json_to_py].
    assert (H : ∀ d, json_native (PDict d) = true →
                json_native (PDict (fold_left (fun d kv => dict_setitem (fst kv) (snd kv) d)
                   (map (fun kv => match kv with (k, x) => (k, json_to_py x) end) ms) d)) = true).
    { induction IH as [|[k x] r Hx _ IHr]; intros d Hd; simpl; [exact Hd|].
      apply IHr. apply dict_setitem_native; [exact Hd | exact Hx]. }
    apply H. reflexivity.
Qed.

Lemma fromisoformat_valid s d : fromisoformat s = Some d → valid_datetime d = true.
Proof.
  unfold fromisoformat. intros H.
  destruct (take_digits 4 0 s) as [[y s1]|]; cbn [mbind option_bind] in H; [|discriminate].
  destruct (expect "-" s1) as [s2|]; cbn [mbind option_bind] in H; [|discriminate].
  destruct (take_digits 2 0 s2) as [[m s3]|]; cbn [mbind option_bind] in H; [|discriminate].
  destruct (expect "-" s3) as [s4|]; cbn [mbind option_bind] in H; [|discriminate].
  destruct (take_digits 2 0 s4) as [[dd s5]|]; cbn [mbind option_bind] in H; [|discriminate].
  destruct (match s5 with EmptyString => _ | String _ t => _ end)
    as [[[[h mi] sec] us]|]; cbn [mbind option_bind] in H; [|discriminate].
  destruct (valid_datetime _) eqn:E; [|discriminate].
  injection H as <-. exact E.
Qed.

Lemma load_metadata_Some aid st a :
  load_metadata aid st = Ok (Some a) →
  ∃ data, fs_meta st !! aid = Some (MetaDoc data) ∧ artifact_of_dict data = Ok a.
Proof.
  unfold load_metadata. destruct (fs_meta st !! aid) as [[data|]|]; try discriminate.
  destruct (artifact_of_dict data) as [a'|] eqn:Hd; simpl; [|discriminate].
  intros [= <-]. exists data. auto.
Qed.

Lemma artifact_of_dict_Ok data a :
  artifact_of_dict data = Ok a →
  valid_datetime (created_at a) = true
  ∧ valid_datetime (updated_at a) = true
  ∧ metadata a = json_to_py (d_metadata data).
Proof.
  unfold artifact_of_dict, parse_timestamp.
  destruct (ArtifactType_of _); [|discriminate].
  destruct (ArtifactStatus_of _); [|discriminate].
  destruct (fromisoformat (d_created_at data)) as [c|] eqn:Hc; [|discriminate].
  destruct (fromisoformat (d_updated_at data)) as [u|] eqn:Hu; [|discriminate].
  cbn [bind_result]. intros [= <-]. cbn.
  eauto using fromisoformat_valid.
Qed.

(** C6 (as amended): a status update of an artifact that resolves persists
    the artifact with the new status, with [updated_at] set to the reading
    of the clock taken by the call - so not earlier than the previous value
    whenever the clock has not been set back behind it - and with
    [error_message] set to the supplied message when a non-empty one was
    supplied and left as it was before otherwise (a message from an earlier
    update stays). *)
Theorem update_artifact_status_spec
    (self : Manager) (aid : string) (new_status : ArtifactStatus)
    (message : option string) (st : State) (artifact : ArtifactMetadata) :
  load_metadata aid st = Ok (Some artifact) →
  let t := clock st (clock_ix st) in
  let artifact' := fst (update_status new_status message artifact st) in
  ∃ bag st',
    update_artifact_status self aid new_status message st = (Ok tt, st')
    ∧ fs_meta st' = <[artifact_id artifact := MetaDoc (metadata_dict artifact' bag)]> (fs_meta st)
    ∧ status artifact' = new_status
    ∧ updated_at artifact' = t
    ∧ (dt_leb (updated_at artifact) t = true →
       dt_leb (updated_at artifact) (updated_at artifact') = true)
    ∧ error_message artifact'
      = match message with
        | Some m => if String.eqb m "" then error_message artifact else Some m
        | None => error_message artifact
        end
    ∧ (valid_datetime t = true →
       load_metadata (artifact_id artifact) st' = Ok (Some artifact')).
Proof.
  intros Hload t artifact'.
  destruct (load_metadata_Some _ _ _ Hload) as (data & Hdata & Hdec).
  destruct (artifact_of_dict_Ok _ _ Hdec) as (Hcreated & _ & Hbag).
  assert (Hnative : json_native (metadata artifact') = true).
  { subst artifact'. cbn. rewrite Hbag. apply json_to_py_native. }
  destruct (json_native_roundtrip _ Hnative) as (bag & Hdump & Hback).
  assert (Hmeta : ∃ st',
            update_artifact_status self aid new_status message st = (Ok tt, st')
            ∧ fs_meta st'
              = <[artifact_id artifact := MetaDoc (metadata_dict artifact' bag)]> (fs_meta st)).
  { unfold update_artifact_status, bind, read. rewrite Hload.
    unfold update_status. fold t. unfold save_metadata.
    change (py_to_json (metadata _)) with (py_to_json (metadata artifact')). rewrite Hdump.
    destruct (enable_audit self).
    - match goal with |- context [log_operation ?a ?b ?c ?d ?e ?f ?g ?h ?i ?s] =>
        destruct (log_operation_appends a b c d e f g h i s) as (st' & prior & Hlog & _ & Hun)
      end.
      rewrite Hlog. exists st'. split; [reflexivity|].
      destruct Hun as (_ & _ & -> & _). reflexivity.
    - eexists. split; reflexivity. }
  destruct Hmeta as (st' & Hrun & Hmeta).
  exists bag, st'. split; [exact Hrun|]. split; [exact Hmeta|].
  split; [reflexivity|]. split; [reflexivity|]. split; [intros H; exact H|].
  split.
  - subst artifact'. cbn. unfold str_truthy.
    destruct message as [m|]; [destruct (String.eqb m "")|]; reflexivity.
  - intros Ht. unfold load_metadata. rewrite Hmeta.
    change (artifact_id artifact) with (artifact_id artifact') at 1.
    rewrite lookup_insert_eq.
    rewrite artifact_of_metadata_dict; [reflexivity | exact Hcreated | exact Ht | exact Hback].
Qed.

(** ** Storage failures during creation *)

Lemma mapM_result_Raise {A B} (f : A → Result B) l e :
  mapM_result f l = Raise e → ∃ x, x ∈ l ∧ f x = Raise e.
Proof.
  induction l as [|x r IH]; simpl; [discriminate|].
  destruct (f x) as [y|e'] eqn:Hx.
  - destruct (mapM_result f r) as [ys|e'']; [discriminate|].
    intros [= ->]. destruct IH as (x' & Hin & Hf); [reflexivity|].
    exists x'. split; [right; exact Hin | exact Hf].
  - intros [= ->]. exists x. split; [left | exact Hx].
Qed.

(** Every [TypeError] of the encoder carries a message. *)
Lemma py_to_json_Raise v e : py_to_json v = Raise e → str_truthy (exn_str e) = true.
Proof.
  revert e.
  induction v as [| b | z | s | l IH | l IH | kvs IH | ty] using PyVal_nested_ind;
    intros e; cbn [py_to_json]; try discriminate.
  - destruct (mapM_result py_to_json l) as [js|e'] eqn:Hm; [discriminate|].
    intros [= ->]. apply mapM_result_Raise in Hm as (x & Hin & Hx).
    rewrite Forall_forall in IH. exact (IH x Hin e Hx).
  - destruct (mapM_result py_to_json l) as [js|e'] eqn:Hm; [discriminate|].
    intros [= ->]. apply mapM_result_Raise in Hm as (x & Hin & Hx).
    rewrite Forall_forall in IH. exact (IH x Hin e Hx).
  - destruct (mapM_result _ kvs) as [ms|e'] eqn:Hm; [discriminate|].
    intros [= ->]. apply mapM_result_Raise in Hm as ([k x] & Hin & Hx).
    rewrite Forall_forall in IH. specialize (IH _ Hin). simpl in IH.
    destruct k as [s|z|[|]| |ty]; simpl in Hx;
      try (destruct (py_to_json x) as [j|e'] eqn:Hj; [discriminate|];
           injection Hx as ->; apply IH; reflexivity).
    injection Hx as <-. reflexivity.
  - intros [= <-]. reflexivity.
Qed.

(** Every exception of [store_artifact] carries a message, and the call
    leaves the id of the artifact object alone. *)
Lemma store_artifact_Raise self source_path artifact st e artifact1 st1 :
  store_artifact self source_path artifact st = (Raise e, artifact1, st1) →
  str_truthy (exn_str e) = true ∧ artifact_id artifact1 = artifact_id artifact.
Proof.
  unfold store_artifact.
  destruct (is_symlink st source_path); [intros [= <- <- <-]; split; reflexivity|].
  destruct (negb (path_exists st (fs_resolve st source_path)));
    [intros [= <- <- <-]; split; reflexivity|].
  unfold copy2.
  destruct (follow 40 (fs_nodes st) (path_str (fs_resolve st source_path))) as [[data| |target]|];
    try (intros [= <- <- <-]; split; reflexivity).
  match goal with |- context [read_bytes ?s ?p] => destruct (read_bytes s p) as [bytes|] end;
    [|intros [= <- <- <-]; split; reflexivity].
  unfold save_metadata. cbn [metadata].
  destruct (py_to_json (metadata artifact)) as [bag|e'] eqn:Hdump; [discriminate|].
  intros [= <- <- <-]. split; [exact (py_to_json_Raise _ _ Hdump) | reflexivity].
Qed.

(** C1 (as amended): when [create_artifact] is given a source path and
    [store_artifact] raises, the artifact object ends in status [FAILED] with
    the message of the exception as its [error_message], the exception is
    raised again to the caller and no artifact is returned; the failure
    record (operation [artifact_storage], action [store], not successful) is
    appended to the audit log when the manager's audit trail is enabled, and
    nothing is written to the audit log when it is disabled. *)
Theorem create_artifact_storage_failure
    (self : Manager) (artifact_type : ArtifactType) (source_path : Path)
    (source_artifacts : option (list string))
    (processing_module processing_version : option string)
    (metadata : option PyVal) (st : State)
    (artifact : ArtifactMetadata) (st0 : State)
    (e : exn) (artifact1 : ArtifactMetadata) (st1 : State) :
  let bag := default PNone metadata in
  py_truthy bag && negb (is_dict bag) = false →
  new_ArtifactMetadata artifact_type (default [] source_artifacts)
    processing_module processing_version (if py_truthy bag then bag else PDict []) st
  = (Ok artifact, st0) →
  store_artifact self source_path artifact st0 = (Raise e, artifact1, st1) →
  ∃ failed st2 st3,
    update_status FAILED (Some (exn_str e)) artifact1 st1 = (failed, st2)
    ∧ create_artifact_store self (Some source_path) processing_module artifact st0
      = (Raise e, failed, st3)
    ∧ create_artifact self artifact_type (Some source_path) source_artifacts
        processing_module processing_version metadata st
      = (Raise e, st3)
    ∧ status failed = FAILED
    ∧ error_message failed = Some (exn_str e)
    ∧ (enable_audit self = true →
       ∃ prior entry,
         fs_logs st3 !! current_log st3 = Some (prior ++ [Entry entry])%list
         ∧ k_operation entry = "artifact_storage"
         ∧ k_action entry = "store"
         ∧ k_success entry = false
         ∧ k_artifact_id entry = Some (artifact_id artifact)
         ∧ k_module entry = processing_module
         ∧ k_error_message entry = Some (exn_str e)
         ∧ store_untouched st2 st3)
    ∧ (enable_audit self = false → st3 = st2).
Proof.
  intros bag Hvalid Hnew Hstore.
  destruct (store_artifact_Raise _ _ _ _ _ _ _ Hstore) as [Hmsg Hid].
  destruct (update_status FAILED (Some (exn_str e)) artifact1 st1) as [failed st2] eqn:Hupd.
  assert (Hfailed : status failed = FAILED ∧ error_message failed = Some (exn_str e)
                    ∧ artifact_id failed = artifact_id artifact).
  { unfold update_status in Hupd. injection Hupd as <- <-. cbn. rewrite Hmsg. auto. }
  destruct Hfailed as (Hst & Herr & Hfid).
  assert (Hblock : ∃ st3,
            create_artifact_store self (Some source_path) processing_module artifact st0
            = (Raise e, failed, st3)
            ∧ (enable_audit self = true →
               ∃ prior entry,
                 fs_logs st3 !! current_log st3 = Some (prior ++ [Entry entry])%list
                 ∧ k_operation entry = "artifact_storage"
                 ∧ k_action entry = "store"
                 ∧ k_success entry = false
                 ∧ k_artifact_id entry = Some (artifact_id artifact)
                 ∧ k_module entry = processing_module
                 ∧ k_error_message entry = Some (exn_str e)
                 ∧ store_untouched st2 st3)
            ∧ (enable_audit self = false → st3 = st2)).
  { unfold create_artifact_store. rewrite Hstore, Hupd.
    destruct (enable_audit self).
    - match goal with |- context [log_operation ?a ?b ?c ?d ?e0 ?f ?g ?h ?i ?s] =>
        destruct (log_operation_appends a b c d e0 f g h i s) as (st3 & prior & Hlog & Hlast & Hun)
      end.
      rewrite Hlog. exists st3. split; [reflexivity|]. split; [|discriminate].
      intros _. exists prior. eexists. split; [exact Hlast|].
      cbn. rewrite Hfid. repeat split; apply Hun.
    - exists st2. split; [reflexivity|]. split; [discriminate | reflexivity]. }
  destruct Hblock as (st3 & Hblock & Hon & Hoff).
  exists failed, st2, st3. split; [reflexivity|]. split; [exact Hblock|].
  split; [|auto].
  unfold create_artifact. fold bag. rewrite Hvalid. unfold bind at 1. rewrite Hnew, Hblock.
  reflexivity.
Qed.

(** ** Lineage *)

Lemma load_metadata_ext aid st st' :
  fs_meta st' = fs_meta st → load_metadata aid st' = load_metadata aid st.
Proof. intros H. unfold load_metadata. rewrite H. reflexivity. Qed.

Lemma load_metadata_dom aid st a :
  load_metadata aid st = Ok (Some a) → aid ∈ dom (fs_meta st).
Proof.
  intros H. apply load_metadata_Some in H as (data & Hd & _).
  apply elem_of_dom. exists (MetaDoc data). exact Hd.
Qed.

(** [get_artifact] returns what [load_metadata] returns and writes to the
    audit log only. *)
Lemma get_artifact_spec self aid st :
  ∃ st', get_artifact self aid st = (load_metadata aid st, st') ∧ fs_meta st' = fs_meta st.
Proof.
  unfold get_artifact, bind, read.
  destruct (load_metadata aid st) as [a|e]; [|exists st; split; reflexivity].
  destruct (enable_audit self); [|exists st; split; reflexivity].
  match goal with |- context [log_operation ?a ?b ?c ?d ?e0 ?f ?g ?h ?i ?s] =>
    destruct (log_operation_appends a b c d e0 f g h i s) as (st' & prior & Hlog & _ & Hun)
  end.
  rewrite Hlog. exists st'. split; [reflexivity | apply Hun].
Qed.

Lemma for_sources_sound st0 build :
  step_sound st0 build →
  ∀ ids acc seen st r seen' st',
    fs_meta st = fs_meta st0 →
    for_sources build ids acc seen st = Some (r, seen', st') →
    fs_meta st' = fs_meta st0
    ∧ seen ⊆ seen'
    ∧ ∀ ts, r = Ok ts →
        ∃ ts', ts = (acc ++ ts')%list
               ∧ TraversalList (fun x => load_metadata x st0) seen ids ts' seen'.
Proof.
  intros Hbuild. induction ids as [|x ids IH]; intros acc seen st r seen' st' Hm H.
  - simpl in H. injection H as <- <- <-. split; [exact Hm|]. split; [reflexivity|].
    intros ts [= <-]. exists []. rewrite app_nil_r. split; [reflexivity | constructor].
  - cbn [for_sources] in H.
    destruct (build x seen st) as [[[[child|e] seen1] st1]|] eqn:Hx; [| |discriminate].
    + destruct (Hbuild _ _ _ _ _ _ Hm Hx) as (Hm1 & Hsub1 & Ht).
      destruct (IH _ _ _ _ _ _ Hm1 H) as (Hm2 & Hsub2 & Hts).
      split; [exact Hm2|]. split; [etransitivity; eassumption|].
      intros ts Hr. destruct (Hts ts Hr) as (ts' & -> & Hlist).
      exists (child :: ts'). rewrite <- app_assoc. split; [reflexivity|].
      econstructor; [apply Ht; reflexivity | exact Hlist].
    + injection H as <- <- <-.
      destruct (Hbuild _ _ _ _ _ _ Hm Hx) as (Hm1 & Hsub1 & _).
      split; [exact Hm1|]. split; [exact Hsub1|]. discriminate.
Qed.

Lemma build_lineage_sound self st0 fuel : step_sound st0 (build_lineage fuel self).
Proof.
  induction fuel as [|fuel IH]; intros aid seen st r seen' st' Hm H; [discriminate|].
  cbn [build_lineage] in H. destruct (decide (aid ∈ seen)) as [Hin|Hnin].
  - injection H as <- <- <-. split; [exact Hm|]. split; [reflexivity|].
    intros t [= <-]. constructor. exact Hin.
  - destruct (get_artifact_spec self aid st) as (st1 & Hget & Hm1). rewrite Hget in H.
    rewrite Hm in Hm1.
    destruct (load_metadata aid st) as [[artifact|]|e] eqn:Hload.
    + destruct (for_sources _ _ _ _ _) as [[[[sources|e] seen2] st2]|] eqn:Hloop;
        [| |discriminate]; injection H as <- <- <-;
        destruct (for_sources_sound st0 _ IH _ _ _ _ _ _ _ Hm1 Hloop) as (Hm2 & Hsub & Hts);
        (split; [exact Hm2|]); (split; [clear -Hsub; set_solver|]); [|discriminate].
      intros t [= <-]. destruct (Hts _ eq_refl) as (ts' & -> & Hlist). simpl.
      apply visit_artifact; [exact Hnin | | exact Hlist].
      rewrite <- Hload. symmetry. apply load_metadata_ext. exact Hm.
    + injection H as <- <- <-. split; [exact Hm1|]. split; [apply union_subseteq_r|].
      intros t [= <-]. apply visit_missing; [exact Hnin|].
      rewrite <- Hload. symmetry. apply load_metadata_ext. exact Hm.
    + injection H as <- <- <-. split; [exact Hm1|]. split; [apply union_subseteq_r|].
      discriminate.
Qed.

(** Termination: fuel beyond the number of stored records not yet seen
    is never used up. *)
Lemma for_sources_total st0 build bound :
  step_sound st0 build →
  (∀ aid seen st, fs_meta st = fs_meta st0 → bound ⊆ seen → is_Some (build aid seen st)) →
  ∀ ids acc seen st,
    fs_meta st = fs_meta st0 → bound ⊆ seen →
    is_Some (for_sources build ids acc seen st).
Proof.
  intros Hsound Htotal. induction ids as [|x ids IH]; intros acc seen st Hm Hb.
  - simpl. eexists. reflexivity.
  - cbn [for_sources]. destruct (Htotal x seen st Hm Hb) as [[[r seen1] st1] Hx].
    rewrite Hx. destruct (Hsound _ _ _ _ _ _ Hm Hx) as (Hm1 & Hsub & _).
    destruct r as [child|e]; [|eexists; reflexivity].
    apply IH; [exact Hm1 | etransitivity; eassumption].
Qed.

Lemma build_lineage_total self st0 fuel :
  ∀ aid seen st,
    fs_meta st = fs_meta st0 →
    (size (dom (fs_meta st0) ∖ seen) < fuel)%nat →
    is_Some (build_lineage fuel self aid seen st).
Proof.
  clear sha256_hex.
  induction fuel as [|fuel IH]; intros aid seen st Hm Hsize; [lia|].
  cbn [build_lineage]. destruct (decide (aid ∈ seen)) as [Hin|Hnin]; [eexists; reflexivity|].
  destruct (get_artifact_spec self aid st) as (st1 & Hget & Hm1). rewrite Hget.
  rewrite Hm in Hm1.
  destruct (load_metadata aid st) as [[artifact|]|e] eqn:Hload; try (eexists; reflexivity).
  assert (Hdom : aid ∈ dom (fs_meta st0)).
  { rewrite <- Hm. eapply load_metadata_dom. exact Hload. }
  assert (Hless : (size (dom (fs_meta st0) ∖ ({[aid]} ∪ seen)) < size (dom (fs_meta st0) ∖ seen))%nat).
  { apply subset_size. apply elem_of_subset. split.
    - clear. set_solver.
    - intros H. specialize (H aid). clear -H Hdom Hnin. set_solver. }
  destruct (for_sources_total st0 (build_lineage fuel self) ({[aid]} ∪ seen)
              (build_lineage_sound self st0 fuel)) with
    (ids := source_artifacts artifact) (acc := @nil Lineage) (seen := {[aid]} ∪ seen) (st := st1)
    as [[[r seen2] st2] Hloop]; [|exact Hm1|reflexivity|].
  - intros x seen' st' Hm' Hb. apply IH; [exact Hm'|].
    assert ((size (dom (fs_meta st0) ∖ seen') ≤ size (dom (fs_meta st0) ∖ ({[aid]} ∪ seen)))%nat)
      by (apply subseteq_size; clear -Hb; set_solver).
    lia.
  - rewrite Hloop. destruct r; eexists; reflexivity.
Qed.

(** What a traversal leaves behind: the ids it expanded are new, pairwise
    distinct, and together with the ids met before they are the ids met
    after; every circular-reference leaf names an id met by then. *)
Lemma traversal_expanded load :
  (∀ seen x t seen',
      Traversal load seen x t seen' →
      root_id t = x
      ∧ seen' = seen ∪ list_to_set (expanded t)
      ∧ NoDup (expanded t)
      ∧ (∀ y, y ∈ expanded t → y ∉ seen)
      ∧ (∀ y, y ∈ circular_leaves t → y ∈ seen'))
  ∧ (∀ seen ids ts seen',
        TraversalList load seen ids ts seen' →
        map root_id ts = ids
        ∧ seen' = seen ∪ list_to_set (flat_map expanded ts)
        ∧ NoDup (flat_map expanded ts)
        ∧ (∀ y, y ∈ flat_map expanded ts → y ∉ seen)
        ∧ (∀ y, y ∈ flat_map circular_leaves ts → y ∈ seen')).
Proof.
  clear sha256_hex.
  apply Traversal_mutual_ind.
  - intros seen x Hin. simpl. repeat split.
    + set_solver.
    + constructor.
    + intros y Hy. inversion Hy.
    + intros y Hy. apply list_elem_of_singleton in Hy as ->. exact Hin.
  - intros seen x Hnin _. simpl. repeat split.
    + set_solver.
    + apply NoDup_singleton.
    + intros y Hy. apply list_elem_of_singleton in Hy as ->. exact Hnin.
    + intros y Hy. inversion Hy.
  - intros seen x artifact sources seen' Hnin _ _ (Hids & -> & Hnd & Hnew & Hcirc).
    simpl. repeat split.
    + set_solver.
    + apply NoDup_cons. split; [|exact Hnd]. intros Hx. apply (Hnew x Hx). set_solver.
    + intros y Hy. apply elem_of_cons in Hy as [->|Hy]; [exact Hnin|].
      specialize (Hnew y Hy). set_solver.
    + exact Hcirc.
  - intros seen. simpl. repeat split.
    + set_solver.
    + constructor.
    + intros y Hy. inversion Hy.
    + intros y Hy. inversion Hy.
  - intros seen x t seen1 ids ts seen2 _ (Hroot & -> & Hnd1 & Hnew1 & Hcirc1)
      _ (Hids & -> & Hnd2 & Hnew2 & Hcirc2).
    simpl. repeat split.
    + rewrite Hroot, Hids. reflexivity.
    + rewrite list_to_set_app_L. set_solver.
    + apply NoDup_app. split; [exact Hnd1|]. split; [|exact Hnd2].
      intros y Hy1 Hy2. apply (Hnew2 y Hy2). set_solver.
    + intros y Hy. apply elem_of_app in Hy as [Hy|Hy]; [exact (Hnew1 y Hy)|].
      specialize (Hnew2 y Hy). set_solver.
    + intros y Hy. apply elem_of_app in Hy as [Hy|Hy]; [|exact (Hcirc2 y Hy)].
      specialize (Hcirc1 y Hy). set_solver.
Qed.

(** The traversal raises only what a record that does not decode raises. *)
Lemma for_sources_raise st0 build :
  step_sound st0 build →
  (∀ aid seen st e seen' st',
      fs_meta st = fs_meta st0 →
      build aid seen st = Some (Raise e, seen', st') →
      ∃ x, load_metadata x st0 = Raise e) →
  ∀ ids acc seen st e seen' st',
    fs_meta st = fs_meta st0 →
    for_sources build ids acc seen st = Some (Raise e, seen', st') →
    ∃ x, load_metadata x st0 = Raise e.
Proof.
  intros Hsound Hbuild. induction ids as [|y ids IH]; intros acc seen st e seen' st' Hm H.
  - simpl in H. discriminate.
  - cbn [for_sources] in H.
    destruct (build y seen st) as [[[[child|e1] seen1] st1]|] eqn:Hy; [| |discriminate].
    + destruct (Hsound _ _ _ _ _ _ Hm Hy) as (Hm1 & _ & _).
      exact (IH _ _ _ _ _ _ Hm1 H).
    + injection H as -> <- <-. exact (Hbuild _ _ _ _ _ _ Hm Hy).
Qed.

Lemma build_lineage_raise self st0 fuel :
  ∀ aid seen st e seen' st',
    fs_meta st = fs_meta st0 →
    build_lineage fuel self aid seen st = Some (Raise e, seen', st') →
    ∃ x, load_metadata x st0 = Raise e.
Proof.
  induction fuel as [|fuel IH]; intros aid seen st e seen' st' Hm H; [discriminate|].
  cbn [build_lineage] in H. destruct (decide (aid ∈ seen)) as [Hin|Hnin]; [discriminate|].
  destruct (get_artifact_spec self aid st) as (st1 & Hget & Hm1). rewrite Hget in H.
  rewrite Hm in Hm1.
  destruct (load_metadata aid st) as [[artifact|]|e1] eqn:Hload.
  - destruct (for_sources _ _ _ _ _) as [[[[sources|e1] seen2] st2]|] eqn:Hloop;
      [discriminate| |discriminate].
    injection H as -> <- <-.
    exact (for_sources_raise st0 _ (build_lineage_sound self st0 fuel) IH _ _ _ _ _ _ _ Hm1 Hloop).
  - discriminate.
  - injection H as -> <- <-. exists aid. rewrite <- Hload. symmetry.
    apply load_metadata_ext. exact Hm.
Qed.

(** The converse of soundness: with fuel beyond the number of stored
    records not yet seen, the walk returns the tree of the traversal
    whenever the traversal has one. *)
Lemma build_lineage_complete self st0 :
  (∀ seen x t seen',
      Traversal (fun x => load_metadata x st0) seen x t seen' →
      ∀ fuel st,
        fs_meta st = fs_meta st0 →
        (size (dom (fs_meta st0) ∖ seen) < fuel)%nat →
        ∃ st', build_lineage fuel self x seen st = Some (Ok t, seen', st'))
  ∧ (∀ seen ids ts seen',
        TraversalList (fun x => load_metadata x st0) seen ids ts seen' →
        ∀ fuel acc st,
          fs_meta st = fs_meta st0 →
          (size (dom (fs_meta st0) ∖ seen) < fuel)%nat →
          ∃ st', for_sources (build_lineage fuel self) ids acc seen st
                 = Some (Ok (acc ++ ts)%list, seen', st')).
Proof.
  clear sha256_hex.
  apply Traversal_mutual_ind.
  - intros seen x Hin fuel st Hm Hsize. destruct fuel as [|fuel]; [lia|].
    cbn [build_lineage]. destruct (decide (x ∈ seen)) as [_|Hn]; [|contradiction].
    exists st. reflexivity.
  - intros seen x Hnin Hload fuel st Hm Hsize. destruct fuel as [|fuel]; [lia|].
    cbn [build_lineage]. destruct (decide (x ∈ seen)) as [Hin|_]; [contradiction|].
    destruct (get_artifact_spec self x st) as (st1 & Hget & Hm1). rewrite Hget.
    rewrite (load_metadata_ext x st0 st Hm). simpl in Hload. rewrite Hload.
    exists st1. reflexivity.
  - intros seen x artifact sources seen' Hnin Hload _ IH fuel st Hm Hsize.
    destruct fuel as [|fuel]; [lia|].
    cbn [build_lineage]. destruct (decide (x ∈ seen)) as [Hin|_]; [contradiction|].
    destruct (get_artifact_spec self x st) as (st1 & Hget & Hm1). rewrite Hget.
    rewrite (load_metadata_ext x st0 st Hm). simpl in Hload. rewrite Hload.
    rewrite Hm in Hm1.
    assert (Hdom : x ∈ dom (fs_meta st0)) by (eapply load_metadata_dom; exact Hload).
    assert (Hless : (size (dom (fs_meta st0) ∖ ({[x]} ∪ seen)) < size (dom (fs_meta st0) ∖ seen))%nat).
    { apply subset_size. apply elem_of_subset. split.
      - clear. set_solver.
      - intros H. specialize (H x). clear -H Hdom Hnin. set_solver. }
    destruct (IH fuel [] st1 Hm1) as (st2 & Hloop); [lia|].
    rewrite Hloop. exists st2. reflexivity.
  - intros seen fuel acc st Hm Hsize. simpl. rewrite app_nil_r. exists st. reflexivity.
  - intros seen x t seen1 ids ts seen2 _ IHx _ IHids fuel acc st Hm Hsize.
    cbn [for_sources]. destruct (IHx fuel st Hm Hsize) as (st1 & Hx). rewrite Hx.
    destruct (build_lineage_sound self st0 fuel _ _ _ _ _ _ Hm Hx) as (Hm1 & Hsub & _).
    assert ((size (dom (fs_meta st0) ∖ seen1) ≤ size (dom (fs_meta st0) ∖ seen))%nat)
      by (apply subseteq_size; clear -Hsub; set_solver).
    destruct (IHids fuel (acc ++ [t])%list st1 Hm1) as (st2 & Hrest); [lia|].
    rewrite Hrest, <- app_assoc. exists st2. reflexivity.
Qed.

(** C4: [get_artifact_lineage] terminates on every store, cyclic or not,
    and what it returns is settled by the traversal with a single set of
    seen ids shared by all branches.  A returned tree is the tree of that
    traversal: an id met again anywhere is a circular-reference leaf, so no
    id is expanded twice in the whole tree and every circular-reference
    leaf repeats an id the tree expands.  Conversely the tree of the
    traversal is returned whenever there is one; the call raises only what
    a record that does not decode raises, so a tree is returned when every
    record decodes.  For the cycle of two artifacts that list each other as
    their only source, the answer is the first one's node over the second
    one's node over a circular-reference leaf for the first. *)
Theorem get_artifact_lineage_terminates_and_guards_cycles
    (self : Manager) (aid : string) (st : State) :
  ∃ r st',
    get_artifact_lineage self aid st = Some (r, st')
    ∧ fs_meta st' = fs_meta st
    ∧ (∀ t, r = Ok t →
         root_id t = aid
         ∧ (∃ seen, Traversal (fun x => load_metadata x st) ∅ aid t seen)
         ∧ NoDup (expanded t)
         ∧ (∀ x, x ∈ circular_leaves t → x ∈ expanded t))
    ∧ (∀ t seen, Traversal (fun x => load_metadata x st) ∅ aid t seen → r = Ok t)
    ∧ (∀ e, r = Raise e → ∃ x, load_metadata x st = Raise e)
    ∧ ((∀ x e, load_metadata x st ≠ Raise e) → ∃ t, r = Ok t)
    ∧ (∀ a b other,
         load_metadata aid st = Ok (Some a) → source_artifacts a = [other] →
         other ≠ aid →
         load_metadata other st = Ok (Some b) → source_artifacts b = [aid] →
         r = Ok (lineage aid (type_value (artifact_type a)) (status_value (status a))
                   (isoformat (created_at a)) (processing_module a)
                   [lineage other (type_value (artifact_type b)) (status_value (status b))
                      (isoformat (created_at b)) (processing_module b)
                      [circular_reference aid]])).
Proof.
  clear sha256_hex.
  unfold get_artifact_lineage.
  assert (Hfuel : (size (dom (fs_meta st) ∖ ∅) < S (size (fs_meta st)))%nat).
  { rewrite difference_empty_L, size_dom. lia. }
  destruct (build_lineage_total self st (S (size (fs_meta st))) aid ∅ st eq_refl Hfuel)
    as [[[r seen] st'] Hrun].
  rewrite Hrun. exists r, st'. split; [reflexivity|].
  destruct (build_lineage_sound self st _ _ _ _ _ _ _ eq_refl Hrun) as (Hm & _ & Ht).
  split; [exact Hm|].
  assert (Hcomplete : ∀ t seen0,
             Traversal (fun x => load_metadata x st) ∅ aid t seen0 → r = Ok t).
  { intros t seen0 Htrav.
    destruct (proj1 (build_lineage_complete self st) _ _ _ _ Htrav _ st eq_refl Hfuel)
      as (st2 & Hrun2).
    rewrite Hrun in Hrun2. injection Hrun2 as -> _ _. reflexivity. }
  assert (Hraise : ∀ e, r = Raise e → ∃ x, load_metadata x st = Raise e).
  { intros e ->. exact (build_lineage_raise self st _ _ _ _ _ _ _ eq_refl Hrun). }
  split; [|split; [exact Hcomplete|split; [exact Hraise|split]]].
  - intros t Hr. specialize (Ht t Hr).
    destruct (proj1 (traversal_expanded _) _ _ _ _ Ht) as (Hroot & Hseen & Hnd & _ & Hcirc).
    split; [exact Hroot|]. split; [exists seen; exact Ht|]. split; [exact Hnd|].
    intros x Hx. specialize (Hcirc x Hx). rewrite Hseen in Hcirc.
    apply elem_of_union in Hcirc as [Hc|Hc]; [inversion Hc|].
    apply elem_of_list_to_set in Hc. exact Hc.
  - intros Hdecodes. destruct r as [t|e]; [exists t; reflexivity|].
    destruct (Hraise e eq_refl) as (x & Hx). destruct (Hdecodes x e Hx).
  - intros a b other Ha Hsa Hne Hb Hsb.
    apply (Hcomplete _ ({[other]} ∪ ({[aid]} ∪ ∅))).
    apply visit_artifact; [clear; set_solver | exact Ha |]. rewrite Hsa.
    eapply visit_next; [|apply visit_none].
    apply visit_artifact; [clear -Hne; set_solver | exact Hb |]. rewrite Hsb.
    eapply visit_next; [|apply visit_none].
    apply visit_again. clear. set_solver.
Qed.

(** ** Names of log files *)

Lemma append_nil_l b : "" +:+ b = b.
Proof. reflexivity. Qed.

Lemma append_cons c r b : String c r +:+ b = String c (r +:+ b).
Proof. reflexivity. Qed.

Lemma length_append a b : String.length (a +:+ b) = (String.length a + String.length b)%nat.
Proof.
  induction a as [|c r IH]; [reflexivity|].
  rewrite append_cons. simpl. congruence.
Qed.

Lemma append_assoc a b c : (a +:+ b) +:+ c = a +:+ (b +:+ c).
Proof.
  induction a as [|x r IH]; [reflexivity|].
  rewrite !append_cons. congruence.
Qed.

Lemma append_inj_l s a b : s +:+ a = s +:+ b → a = b.
Proof.
  induction s as [|c r IH]; [auto|].
  rewrite !append_cons. intros [= H]. auto.
Qed.


Lemma all_chars_append p a b : all_chars p (a +:+ b) = all_chars p a && all_chars p b.
Proof.
  induction a as [|c r IH]; [reflexivity|].
  rewrite append_cons. simpl. rewrite IH, andb_assoc. reflexivity.
Qed.




Lemma substring_append p q : substring 0 (String.length p) (p +:+ q) = p.
Proof.
  induction p as [|c r IH]; [destruct q; reflexivity|].
  rewrite append_cons. simpl. congruence.
Qed.



Lemma all_chars_zpad_onto k : ∀ n rest,
  all_chars is_digit rest = true → all_chars is_digit (zpad_onto k n rest) = true.
Proof.
  induction k as [|k IH]; intros n rest Hr; simpl; [exact Hr|].
  apply IH. simpl. rewrite Hr. unfold is_digit. rewrite digit_val_char. reflexivity.
Qed.

Lemma strftime_Ym_digits d : all_chars is_digit (strftime_Ym d) = true.
Proof. unfold strftime_Ym, zpad. repeat apply all_chars_zpad_onto. reflexivity. Qed.


(** ** The search for the rotation number *)




(** ** Rotation *)



(** A trail created on an empty directory is its only writer. *)
Lemma sole_writer_init st0 : fs_logs st0 = ∅ → sole_writer (snd (AuditTrail_init st0)).
Proof.
  intros Hempty. unfold AuditTrail_init, _get_current_log_path, bind, now, ret, modify.
  cbn [snd]. unfold sole_writer, set_current_log, set_clock_ix.
  cbn [fs_logs current_log clock clock_ix].
  split.
  - eexists. split; [reflexivity | apply strftime_Ym_digits].
  - intros i _. right. rewrite Hempty. apply lookup_empty.
Qed.





(** * Further properties of the code *)

(** ** Enumerations and file names *)

(** X1: The values of each enumeration are pairwise distinct: looking a member
    up by value inverts [.value], and a text that is no member's value is
    rejected with a [ValueError] that quotes it. *)
Theorem enum_lookup_inverts_value :
  (∀ s t, ArtifactType_of s = Ok t ↔ type_value t = s)
  ∧ (∀ s x, ArtifactStatus_of s = Ok x ↔ status_value x = s)
  ∧ (∀ s, (∀ t, type_value t ≠ s) →
          ArtifactType_of s
          = Raise (Exn ValueError ("'" +:+ s +:+ "' is not a valid ArtifactType")))
  ∧ (∀ s, (∀ x, status_value x ≠ s) →
          ArtifactStatus_of s
          = Raise (Exn ValueError ("'" +:+ s +:+ "' is not a valid ArtifactStatus"))).
Proof.
  assert (Htype : ∀ s t, ArtifactType_of s = Ok t → type_value t = s).
  { intros s t. unfold ArtifactType_of.
    destruct (find _ all_artifact_types) as [t'|] eqn:Hfind; [|discriminate].
    intros [= <-]. apply List.find_some in Hfind as [_ Heq].
    apply String.eqb_eq, Heq. }
  assert (Hstatus : ∀ s x, ArtifactStatus_of s = Ok x → status_value x = s).
  { intros s x. unfold ArtifactStatus_of.
    destruct (find _ all_artifact_statuses) as [x'|] eqn:Hfind; [|discriminate].
    intros [= <-]. apply List.find_some in Hfind as [_ Heq].
    apply String.eqb_eq, Heq. }
  split; [|split; [|split]].
  - intros s t. split; [apply Htype | intros <-; apply ArtifactType_of_value].
  - intros s x. split; [apply Hstatus | intros <-; apply ArtifactStatus_of_value].
  - intros s Hnone. destruct (ArtifactType_of s) as [t|e] eqn:Hof.
    + exfalso. exact (Hnone t (Htype s t Hof)).
    + revert Hof. unfold ArtifactType_of.
      destruct (find _ all_artifact_types); [discriminate | intros [= <-]; reflexivity].
  - intros s Hnone. destruct (ArtifactStatus_of s) as [x|e] eqn:Hof.
    + exfalso. exact (Hnone x (Hstatus s x Hof)).
    + revert Hof. unfold ArtifactStatus_of.
      destruct (find _ all_artifact_statuses); [discriminate | intros [= <-]; reflexivity].
Qed.

Lemma all_chars_impl (p q : ascii → bool) s :
  (∀ c, p c = true → q c = true) → all_chars p s = true → all_chars q s = true.
Proof.
  intros Hpq. induction s as [|c r IH]; simpl; [reflexivity|].
  rewrite !andb_true_iff. intros [Hc Hr]. split; [apply Hpq, Hc | apply IH, Hr].
Qed.

Lemma rfind_None c s :
  rfind c s = None ↔ all_chars (fun a => negb (Ascii.eqb a c)) s = true.
Proof.
  induction s as [|a r IH]; simpl; [tauto|].
  rewrite andb_true_iff, <- IH. destruct (rfind c r) as [i|].
  - split; [discriminate | intros [_ H]; discriminate H].
  - destruct (Ascii.eqb a c); simpl; split; try discriminate; auto.
    intros [H _]. discriminate H.
Qed.

Lemma rfind_last c a b :
  rfind c b = None → rfind c (a +:+ String c b) = Some (String.length a).
Proof.
  intros Hb. induction a as [|x a IH].
  - rewrite append_nil_l. simpl. rewrite Hb, Ascii.eqb_refl. reflexivity.
  - rewrite append_cons. simpl. rewrite IH. reflexivity.
Qed.

Lemma substring_all s : substring 0 (String.length s) s = s.
Proof. induction s as [|c r IH]; simpl; [reflexivity | rewrite IH; reflexivity]. Qed.

Lemma substring_skip a b : substring (String.length a) (String.length b) (a +:+ b) = b.
Proof.
  induction a as [|x a IH].
  - rewrite append_nil_l. apply substring_all.
  - rewrite append_cons. simpl. exact IH.
Qed.

Lemma basename_join d x : rfind "/" x = None → basename (d +:+ "/" +:+ x) = x.
Proof.
  clear sha256_hex.
  intros Hx. unfold basename.
  replace ("/" +:+ x) with (String "/" x) by (rewrite append_cons, append_nil_l; reflexivity).
  rewrite rfind_last by exact Hx.
  replace (d +:+ String "/" x) with ((d +:+ "/") +:+ x)
    by (rewrite append_assoc, append_cons, append_nil_l; reflexivity).
  replace (S (String.length d)) with (String.length (d +:+ "/"))
    by (rewrite length_append; simpl; lia).
  replace (String.length ((d +:+ "/") +:+ x) - String.length (d +:+ "/"))%nat
    with (String.length x) by (rewrite (length_append (d +:+ "/")); lia).
  apply substring_skip.
Qed.

Lemma path_str_join dir x : path_str (path_join dir x) = path_str dir +:+ "/" +:+ x.
Proof.
  unfold path_join. destruct dir as [h t]. cbn [path_str path_head path_tail].
  rewrite append_cons. reflexivity.
Qed.

Lemma path_name_join dir x : rfind "/" x = None → path_name (path_join dir x) = x.
Proof.
  intros Hx. unfold path_name. rewrite path_str_join. apply basename_join, Hx.
Qed.

Lemma safe_filename_safe name :
  all_chars (fun c => negb (unsafe_char c)) (safe_filename name) = true.
Proof.
  clear sha256_hex.
  apply all_chars_get. intros i c Hc.
  assert (Hi : (i < 100)%nat).
  { destruct (Nat.lt_ge_cases i 100) as [|Hge]; [assumption|].
    rewrite get_beyond in Hc; [discriminate|].
    rewrite length_safe_filename. lia. }
  rewrite get_safe_filename in Hc by exact Hi.
  destruct (String.get i name) as [a|]; simpl in Hc; [|discriminate].
  injection Hc as <-. destruct (unsafe_char a) eqn:E; [reflexivity | rewrite E; reflexivity].
Qed.

Lemma re_sub_unsafe_fixed s :
  all_chars (fun c => negb (unsafe_char c)) s = true → re_sub_unsafe s = s.
Proof.
  unfold re_sub_unsafe. induction s as [|c r IH]; simpl; [reflexivity|].
  rewrite andb_true_iff, negb_true_iff. intros [-> Hr]. rewrite IH by exact Hr. reflexivity.
Qed.

(** X2: Sanitising a sanitised name changes nothing, and a sanitised name holds
    no path separator: whatever the source file is called, the stored file
    is [<artifact id>_<sanitised name>] directly in the directory of the
    artifact's type (for an artifact id without a separator). *)
Theorem safe_filename_idempotent_no_separator (name : string) :
  safe_filename (safe_filename name) = safe_filename name
  ∧ rfind "/" (safe_filename name) = None
  ∧ rfind "\" (safe_filename name) = None
  ∧ ∀ dir aid,
      rfind "/" aid = None →
      path_name (path_join dir (aid +:+ "_" +:+ safe_filename name))
      = aid +:+ "_" +:+ safe_filename name.
Proof.
  clear sha256_hex.
  pose proof (safe_filename_safe name) as Hsafe.
  assert (Hslash : rfind "/" (safe_filename name) = None).
  { apply rfind_None. revert Hsafe. apply all_chars_impl.
    intros c. destruct (Ascii.eqb_spec c "/") as [->|]; [discriminate | reflexivity]. }
  split; [|split; [exact Hslash|split]].
  - unfold safe_filename at 1.
    rewrite (re_sub_unsafe_fixed (safe_filename name)) by exact Hsafe.
    destruct (Nat.ltb_spec 100 (String.length (safe_filename name))) as [H|H]; [|reflexivity].
    rewrite length_safe_filename in H. lia.
  - apply rfind_None. revert Hsafe. apply all_chars_impl.
    intros c. destruct (Ascii.eqb_spec c "\") as [->|]; [discriminate | reflexivity].
  - intros dir aid Haid. apply path_name_join.
    apply rfind_None. rewrite !all_chars_append.
    apply rfind_None in Haid. apply rfind_None in Hslash.
    rewrite Haid, Hslash. reflexivity.
Qed.

(** ** Writing to the audit log when it is enabled *)

Lemma log_if_enabled self operation action aid user module details success err st :
  ∃ st',
    (if enable_audit self
     then (do! log_operation self operation action aid user module details success err in
           ret tt)
     else ret tt) st = (Ok tt, st')
    ∧ store_untouched st st'
    ∧ (enable_audit self = false → st' = st)
    ∧ (enable_audit self = true →
       ∃ prior,
         fs_logs st' !! current_log st'
         = Some (prior ++ [Entry (to_dict (logged_entry st operation action aid user module
                                             details success err))])%list).
Proof.
  destruct (enable_audit self).
  - destruct (log_operation_appends self operation action aid user module details success err st)
      as (st' & prior & Hlog & Hlast & Hunt).
    exists st'. unfold bind, ret. rewrite Hlog.
    split; [reflexivity|]. split; [exact Hunt|]. split; [discriminate|].
    intros _. exists prior. exact Hlast.
  - exists st. split; [reflexivity|]. split; [apply store_untouched_refl|].
    split; [reflexivity | discriminate].
Qed.

(** Runs the audit step the goal is at: [st'] is the state after it. *)
Ltac run_audit st' Hunt :=
  match goal with
  | |- context [log_operation ?self ?o ?a ?i ?u ?m ?d ?s ?e] =>
      match goal with
      | |- context [(if enable_audit self then _ else _) ?sx] =>
          let Hrun := fresh "Hrun" in
          destruct (log_if_enabled self o a i u m d s e sx) as (st' & Hrun & Hunt);
          unfold bind, ret in Hrun; rewrite Hrun; clear Hrun
      end
  end.

(** ** Storing and creating artifacts *)

Lemma read_bytes_insert p data st :
  read_bytes (set_fs_nodes (<[path_str p := RegularFile data]> (fs_nodes st)) st) p = Some data.
Proof.
  unfold read_bytes. cbn [fs_nodes set_fs_nodes follow].
  rewrite lookup_insert_eq. reflexivity.
Qed.

(** X3: A store that fails has either changed nothing (the source is a link, is
    missing or is a directory), or has failed while writing the metadata
    bag: then the file has already been copied into the store and stays
    there, the artifact object already names it, and the record of the
    artifact is left truncated. *)
Theorem store_artifact_failure_cases
    (self : Manager) (source_path : Path) (artifact : ArtifactMetadata) (st : State)
    (e : exn) (artifact1 : ArtifactMetadata) (st1 : State) :
  store_artifact self source_path artifact st = (Raise e, artifact1, st1) →
  (artifact1 = artifact ∧ st1 = st
   ∧ (exn_kind e = ValueError ∨ exn_kind e = FileNotFoundError
      ∨ exn_kind e = IsADirectoryError))
  ∨ (∃ data p,
       py_to_json (metadata artifact) = Raise e
       ∧ read_bytes st (fs_resolve st source_path) = Some data
       ∧ file_path artifact1 = Some p
       ∧ checksum artifact1 = Some (sha256_hex data)
       ∧ fs_nodes st1 = <[path_str p := RegularFile data]> (fs_nodes st)
       ∧ fs_meta st1 = <[artifact_id artifact := MetaTruncated]> (fs_meta st)
       ∧ load_metadata (artifact_id artifact) st1
         = Raise (Exn JSONDecodeError "Expecting value: line 1 column 1 (char 0)")).
Proof.
  unfold store_artifact.
  destruct (is_symlink st source_path).
  { intros [= <- <- <-]. left. auto. }
  destruct (path_exists st (fs_resolve st source_path)); cbn [negb].
  2:{ intros [= <- <- <-]. left. auto. }
  unfold copy2.
  destruct (follow 40 (fs_nodes st) (path_str (fs_resolve st source_path)))
    as [[data| |target]|] eqn:Hsrc.
  - rewrite read_bytes_insert. unfold save_metadata.
    cbn [metadata artifact_id fs_meta set_fs_meta set_fs_nodes fs_nodes].
    destruct (py_to_json (metadata artifact)) as [bag|e'] eqn:Hbag; [discriminate|].
    intros [= <- <- <-]. right. eexists data, _.
    split; [reflexivity|]. split; [unfold read_bytes; rewrite Hsrc; reflexivity|].
    split; [reflexivity|]. split; [reflexivity|]. split; [reflexivity|].
    split; [reflexivity|].
    unfold load_metadata. cbn [fs_meta set_fs_meta]. rewrite lookup_insert_eq. reflexivity.
  - intros [= <- <- <-]. left. auto.
  - intros [= <- <- <-]. left. unfold no_such_file. auto.
  - intros [= <- <- <-]. left. unfold no_such_file. auto.
Qed.

Lemma store_artifact_success self source_path artifact st data bag :
  is_symlink st source_path = false →
  read_bytes st (fs_resolve st source_path) = Some data →
  py_to_json (metadata artifact) = Ok bag →
  let p := path_join
             (path_join (path_join (storage_root self) "artifacts")
                        (type_value (artifact_type artifact)))
             (artifact_id artifact +:+ "_"
              +:+ safe_filename (path_name (fs_resolve st source_path))) in
  let stored :=
    {| artifact_id := artifact_id artifact;
       artifact_type := artifact_type artifact;
       status := status artifact;
       created_at := created_at artifact;
       updated_at := updated_at artifact;
       source_artifacts := source_artifacts artifact;
       processing_module := processing_module artifact;
       processing_version := processing_version artifact;
       file_path := Some p;
       file_size := Some (Z.of_nat (String.length data));
       checksum := Some (sha256_hex data);
       metadata := metadata artifact;
       error_message := error_message artifact |} in
  store_artifact self source_path artifact st
  = (Ok p, stored,
     set_fs_meta (<[artifact_id artifact := MetaDoc (metadata_dict stored bag)]> (fs_meta st))
       (set_fs_nodes (<[path_str p := RegularFile data]> (fs_nodes st)) st)).
Proof.
  intros Hlink Hdata Hbag p stored. unfold store_artifact.
  rewrite Hlink. unfold read_bytes in Hdata. unfold path_exists, copy2.
  destruct (follow 40 (fs_nodes st) (path_str (fs_resolve st source_path)))
    as [[data'| |target]|]; try discriminate.
  injection Hdata as ->. cbn [negb]. fold p.
  rewrite read_bytes_insert. unfold save_metadata, _calculate_checksum.
  cbn [metadata artifact_id]. rewrite Hbag. reflexivity.
Qed.

Lemma str_truthy_path_str p : str_truthy (path_str p) = true.
Proof. destruct p. reflexivity. Qed.

Lemma path_exists_insert p data st :
  path_exists (set_fs_nodes (<[path_str p := RegularFile data]> (fs_nodes st)) st) p = true.
Proof.
  unfold path_exists. cbn [fs_nodes set_fs_nodes follow].
  rewrite lookup_insert_eq. reflexivity.
Qed.

Lemma artifact_of_dict_reloaded a bag :
  valid_datetime (created_at a) = true →
  valid_datetime (updated_at a) = true →
  artifact_of_dict (metadata_dict a bag) = Ok (reloaded a bag).
Proof.
  intros Hc Hu.
  exact (artifact_of_metadata_dict (reloaded a bag) bag Hc Hu eq_refl).
Qed.

Ltac artifact_fields :=
  cbn [artifact_id artifact_type status created_at updated_at source_artifacts
       processing_module processing_version file_path file_size checksum metadata
       error_message
       fs_nodes fs_resolve fs_meta fs_logs fs_exports clock clock_ix uuids uuid_ix
       current_log current_run
       set_fs_nodes set_fs_meta set_fs_logs set_fs_exports set_clock_ix set_uuid_ix
       set_current_log set_current_run] in *.

(** X4: Creating an artifact from a file returns an object that is completed
    and names the stored copy, while the record written to disk - saved by
    the store before the status was set - still says pending: what
    [load_metadata] gives afterwards differs from the object returned. *)
Theorem create_artifact_with_file
    (self : Manager) (atype : ArtifactType) (source_path : Path)
    (sources : option (list string)) (module version : option string)
    (given : option PyVal) (st : State) (data : string) (bag : JVal) :
  let kept := if py_truthy (default PNone given) then default PNone given else PDict [] in
  py_truthy (default PNone given) && negb (is_dict (default PNone given)) = false →
  py_to_json kept = Ok bag →
  is_symlink st source_path = false →
  read_bytes st (fs_resolve st source_path) = Some data →
  valid_datetime (clock st (clock_ix st)) = true →
  valid_datetime (clock st (S (clock_ix st))) = true →
  let aid := uuids st (uuid_ix st) in
  let p := path_join
             (path_join (path_join (storage_root self) "artifacts") (type_value atype))
             (aid +:+ "_" +:+ safe_filename (path_name (fs_resolve st source_path))) in
  ∃ (a on_disk : ArtifactMetadata) (st' : State),
    create_artifact self atype (Some source_path) sources module version given st
    = (Ok a, st')
    ∧ artifact_id a = aid
    ∧ status a = COMPLETED
    ∧ created_at a = clock st (clock_ix st)
    ∧ updated_at a = clock st (S (S (clock_ix st)))
    ∧ file_path a = Some p
    ∧ file_size a = Some (Z.of_nat (String.length data))
    ∧ checksum a = Some (sha256_hex data)
    ∧ fs_nodes st' = <[path_str p := RegularFile data]> (fs_nodes st)
    ∧ read_bytes st' p = Some data
    ∧ load_metadata aid st' = Ok (Some on_disk)
    ∧ status on_disk = PENDING
    ∧ updated_at on_disk = clock st (S (clock_ix st))
    ∧ file_path on_disk = Some p
    ∧ checksum on_disk = Some (sha256_hex data)
    ∧ retrieve_artifact aid st' = Ok (Some p).
Proof.
  intros kept Hvalid Hbag Hlink Hdata Hcreated Hupdated aid p.
  unfold create_artifact. rewrite Hvalid. fold kept.
  unfold new_ArtifactMetadata, bind, uuid4, now, ret. artifact_fields.
  unfold create_artifact_store.
  match goal with
  | |- context [store_artifact self source_path ?a0 ?s0] =>
      pose proof (store_artifact_success self source_path a0 s0 data bag Hlink Hdata Hbag)
        as Hstore;
      cbv zeta in Hstore
  end.
  artifact_fields. fold aid in Hstore |- *. fold p in Hstore. rewrite Hstore. clear Hstore.
  unfold update_status, modify. artifact_fields.
  run_audit st' Hunt.
  destruct Hunt as ((Hnodes & _ & Hmeta & _) & _).
  unfold append_output in Hnodes, Hmeta.
  assert (Hnodes' : fs_nodes st' = <[path_str p := RegularFile data]> (fs_nodes st))
    by (rewrite Hnodes; destruct (current_run _); reflexivity).
  assert (Hmeta' : fs_meta st' !! aid
                   = Some (MetaDoc (metadata_dict
                             (mk_artifact aid atype PENDING (clock st (clock_ix st))
                                (clock st (S (clock_ix st))) (default [] sources) module version
                                (Some p) (Some (Z.of_nat (String.length data)))
                                (Some (sha256_hex data)) kept None) bag))).
  { rewrite Hmeta. destruct (current_run _); cbn [fs_meta set_current_run set_clock_ix set_fs_meta];
      apply lookup_insert_eq. }
  assert (Hload : load_metadata aid st'
                  = Ok (Some (reloaded
                          (mk_artifact aid atype PENDING (clock st (clock_ix st))
                             (clock st (S (clock_ix st))) (default [] sources) module version
                             (Some p) (Some (Z.of_nat (String.length data)))
                             (Some (sha256_hex data)) kept None) bag))).
  { unfold load_metadata. rewrite Hmeta'.
    rewrite artifact_of_dict_reloaded by assumption. reflexivity. }
  assert (Hread : read_bytes st' p = Some data).
  { unfold read_bytes. rewrite Hnodes'. cbn [follow]. rewrite lookup_insert_eq. reflexivity. }
  do 3 eexists. split; [reflexivity|].
  repeat (split; [first [reflexivity | eassumption]|]).
  unfold retrieve_artifact. rewrite Hload. cbn [bind_result reloaded file_path].
  unfold path_exists, read_bytes in *.
  destruct (follow 40 (fs_nodes st') (path_str p)); [reflexivity | discriminate].
Qed.

(** X5: Creating an artifact without a file saves its record after the status
    is set: the object returned is completed, has no file, and is exactly
    what [load_metadata] gives back afterwards. *)
Theorem create_artifact_without_file
    (self : Manager) (atype : ArtifactType)
    (sources : option (list string)) (module version : option string)
    (given : option PyVal) (st : State) :
  let kept := if py_truthy (default PNone given) then default PNone given else PDict [] in
  py_truthy (default PNone given) && negb (is_dict (default PNone given)) = false →
  json_native kept = true →
  valid_datetime (clock st (clock_ix st)) = true →
  valid_datetime (clock st (S (S (clock_ix st)))) = true →
  ∃ (a : ArtifactMetadata) (st' : State),
    create_artifact self atype None sources module version given st = (Ok a, st')
    ∧ a = mk_artifact (uuids st (uuid_ix st)) atype COMPLETED
            (clock st (clock_ix st)) (clock st (S (S (clock_ix st))))
            (default [] sources) module version None None None kept None
    ∧ fs_nodes st' = fs_nodes st
    ∧ load_metadata (artifact_id a) st' = Ok (Some a)
    ∧ retrieve_artifact (artifact_id a) st' = Ok None.
Proof.
  intros kept Hvalid Hnative Hcreated Hupdated.
  destruct (json_native_roundtrip kept Hnative) as (bag & Hbag & Hback).
  unfold create_artifact. rewrite Hvalid. fold kept.
  unfold new_ArtifactMetadata, bind, uuid4, now, ret. artifact_fields.
  unfold create_artifact_store, update_status, save_metadata. artifact_fields.
  rewrite Hbag. unfold modify.
  run_audit st' Hunt.
  destruct Hunt as ((Hnodes & _ & Hmeta & _) & _).
  unfold append_output in Hnodes, Hmeta.
  set (a := mk_artifact (uuids st (uuid_ix st)) atype COMPLETED
              (clock st (clock_ix st)) (clock st (S (S (clock_ix st))))
              (default [] sources) module version None None None kept None).
  assert (Hload : load_metadata (artifact_id a) st' = Ok (Some a)).
  { unfold load_metadata. rewrite Hmeta.
    replace (_ !! artifact_id a) with (Some (MetaDoc (metadata_dict a bag)))
      by (destruct (current_run _); artifact_fields; rewrite lookup_insert_eq; reflexivity).
    rewrite (artifact_of_metadata_dict a bag Hcreated Hupdated Hback). reflexivity. }
  exists a, st'. split; [reflexivity|]. split; [reflexivity|].
  split; [rewrite Hnodes; destruct (current_run _); reflexivity|].
  split; [exact Hload|].
  unfold retrieve_artifact. rewrite Hload. reflexivity.
Qed.

(** X6: The metadata argument of [create_artifact]: a truthy value that is not
    a dict is refused before anything is done, while a falsy value of any
    type - an empty list, an empty text, zero - is taken for an empty dict,
    as if no metadata had been given. *)
Theorem create_artifact_metadata_argument
    (self : Manager) (atype : ArtifactType) (source_path : option Path)
    (sources : option (list string)) (module version : option string) (st : State) :
  (∀ bag, py_truthy bag = true → is_dict bag = false →
      create_artifact self atype source_path sources module version (Some bag) st
      = (Raise (Exn ValueError "metadata must be a dictionary"), st))
  ∧ (∀ bag, py_truthy bag = false →
      create_artifact self atype source_path sources module version (Some bag) st
      = create_artifact self atype source_path sources module version None st).
Proof.
  split; intros bag Htruthy.
  - intros Hdict. unfold create_artifact.
    change (default PNone (Some bag)) with bag. rewrite Htruthy, Hdict. reflexivity.
  - unfold create_artifact.
    change (default PNone (Some bag)) with bag. rewrite Htruthy. reflexivity.
Qed.

(** ** What the manager's operations leave alone *)

Lemma store_artifact_frame self source_path artifact st r artifact1 st1 :
  store_artifact self source_path artifact st = (r, artifact1, st1) →
  fs_logs st1 = fs_logs st ∧ current_log st1 = current_log st
  ∧ current_run st1 = current_run st
  ∧ clock st1 = clock st ∧ clock_ix st1 = clock_ix st
  ∧ uuids st1 = uuids st ∧ uuid_ix st1 = uuid_ix st
  ∧ artifact_id artifact1 = artifact_id artifact.
Proof.
  unfold store_artifact.
  destruct (is_symlink st source_path); [intros [= <- <- <-]; auto 10|].
  destruct (path_exists st _); cbn [negb]; [|intros [= <- <- <-]; auto 10].
  unfold copy2. destruct (follow 40 _ _) as [[data| |target]|];
    try (intros [= <- <- <-]; auto 10).
  rewrite read_bytes_insert. unfold save_metadata. cbn [metadata artifact_id].
  destruct (py_to_json _); intros [= <- <- <-]; auto 10.
Qed.

Lemma create_artifact_effects self atype source_path sources module version given st :
  (enable_audit self = false →
   fs_logs (snd (create_artifact self atype source_path sources module version given st))
   = fs_logs st
   ∧ current_log (snd (create_artifact self atype source_path sources module version given st))
     = current_log st)
  ∧ match create_artifact self atype source_path sources module version given st with
    | (Ok a, st') => current_run st' = current_run (append_output (artifact_id a) st)
    | (Raise _, st') => current_run st' = current_run st
    end.
Proof.
  unfold create_artifact.
  destruct (py_truthy _ && negb _); [cbn; auto|].
  unfold new_ArtifactMetadata, bind, uuid4, now, ret. artifact_fields.
  unfold create_artifact_store.
  destruct source_path as [p|].
  - destruct (store_artifact self p _ _) as [[r a1] st1] eqn:Hstore.
    apply store_artifact_frame in Hstore
      as (Hlogs & Hcur & Hrun & _ & _ & _ & _ & Hid).
    artifact_fields.
    destruct r as [q|e]; unfold update_status; artifact_fields.
    + unfold modify. run_audit st' Hunt.
      destruct Hunt as ((_ & _ & _ & _ & _ & _ & Hrun') & Hoff & _).
      cbn [snd]. split.
      * intros Hno. rewrite (Hoff Hno). unfold append_output. artifact_fields.
        destruct (current_run st1); artifact_fields; auto.
      * rewrite Hrun'. unfold append_output. artifact_fields. rewrite Hrun, Hid.
        destruct (current_run st) eqn:E; artifact_fields; congruence.
    + destruct (enable_audit self) eqn:Haudit.
      * match goal with
        | |- context [log_operation self ?o ?a ?i ?u ?m ?d ?s ?x ?sx] =>
            destruct (log_operation_appends self o a i u m d s x sx)
              as (st' & prior & Hlog & _ & Hunt)
        end.
        cbv zeta in Hlog. rewrite Hlog. cbn [snd].
        split; [discriminate|].
        destruct Hunt as (_ & _ & _ & _ & _ & _ & Hrun'). rewrite Hrun'.
        artifact_fields. exact Hrun.
      * cbn [snd]. artifact_fields. auto.
  - unfold update_status, save_metadata. artifact_fields.
    destruct (py_to_json _) as [bag|e].
    + unfold modify. run_audit st' Hunt.
      destruct Hunt as ((_ & _ & _ & _ & _ & _ & Hrun') & Hoff & _).
      cbn [snd]. split.
      * intros Hno. rewrite (Hoff Hno). unfold append_output. artifact_fields.
        destruct (current_run st); artifact_fields; auto.
      * rewrite Hrun'. unfold append_output. artifact_fields.
        destruct (current_run st) eqn:E; artifact_fields; congruence.
    + cbn [snd]. artifact_fields. auto.
Qed.

(** X7: An artifact created while a run is active is added at the end of the
    run's [output_artifacts] exactly when the creation succeeds; a creation
    that raises leaves the run as it was, and without an active run none is
    started. *)
Theorem create_artifact_tracks_run
    (self : Manager) (atype : ArtifactType) (source_path : option Path)
    (sources : option (list string)) (module version : option string)
    (given : option PyVal) (st : State) :
  match create_artifact self atype source_path sources module version given st with
  | (Ok a, st') =>
      match current_run st with
      | Some run =>
          ∃ run',
            current_run st' = Some run'
            ∧ ProcessingRun.output_artifacts run'
              = (ProcessingRun.output_artifacts run ++ [artifact_id a])%list
            ∧ ProcessingRun.run_id run' = ProcessingRun.run_id run
            ∧ ProcessingRun.input_artifacts run' = ProcessingRun.input_artifacts run
            ∧ ProcessingRun.status run' = ProcessingRun.status run
      | None => current_run st' = None
      end
  | (Raise _, st') => current_run st' = current_run st
  end.
Proof.
  pose proof (create_artifact_effects self atype source_path sources module version given st)
    as [_ H].
  destruct (create_artifact _ _ _ _ _ _ _ _) as [[a|e] st']; [|exact H].
  rewrite H. unfold append_output. destruct (current_run st) as [run|] eqn:E; [|exact E].
  eexists. split; [reflexivity|]. auto.
Qed.

Lemma get_artifact_disabled self aid st :
  enable_audit self = false → get_artifact self aid st = (load_metadata aid st, st).
Proof.
  intros Hno. unfold get_artifact, bind, read, ret. rewrite Hno.
  destruct (load_metadata aid st); reflexivity.
Qed.

Lemma for_sources_state (build : string → gset string → State → option (Visit Lineage)) :
  (∀ aid seen st r seen' st', build aid seen st = Some (r, seen', st') → st' = st) →
  ∀ ids acc seen st r seen' st',
    for_sources build ids acc seen st = Some (r, seen', st') → st' = st.
Proof.
  intros Hbuild. induction ids as [|x ids IH]; intros acc seen st r seen' st'; simpl.
  - intros [= _ _ <-]. reflexivity.
  - destruct (build x seen st) as [[[[child|e] seen1] st1]|] eqn:Hx; [| |discriminate].
    + apply Hbuild in Hx as ->. apply IH.
    + apply Hbuild in Hx as ->. intros [= _ _ <-]. reflexivity.
Qed.

Lemma build_lineage_disabled self fuel :
  enable_audit self = false →
  ∀ aid seen st r seen' st',
    build_lineage fuel self aid seen st = Some (r, seen', st') → st' = st.
Proof.
  intros Hno. induction fuel as [|fuel IH]; intros aid seen st r seen' st'; simpl;
    [discriminate|].
  destruct (decide (aid ∈ seen)); [intros [= _ _ <-]; reflexivity|].
  rewrite (get_artifact_disabled self aid st Hno).
  destruct (load_metadata aid st) as [[artifact|]|e];
    [|intros [= _ _ <-]; reflexivity|intros [= _ _ <-]; reflexivity].
  destruct (for_sources _ _ _ _ _) as [[[[ts|e] seen1] st1]|] eqn:Hfor; [| |discriminate].
  - apply (for_sources_state _ IH) in Hfor as ->. intros [= _ _ <-]. reflexivity.
  - apply (for_sources_state _ IH) in Hfor as ->. intros [= _ _ <-]. reflexivity.
Qed.

Lemma remove_old_disabled self cutoff_date :
  enable_audit self = false →
  ∀ artifacts removed_count st,
    audit_untouched st (snd (remove_old self cutoff_date artifacts removed_count st)).
Proof.
  intros Hno. induction artifacts as [|a rest IH]; intros n st; simpl; [split; reflexivity|].
  destruct (dt_ltb _ _); [|apply IH].
  destruct (file_path a) as [p|]; [|apply IH].
  destruct (path_exists st p); [|apply IH].
  unfold Path_unlink. rewrite Hno. unfold ret.
  destruct (fs_nodes st !! path_str p) as [[data| |target]|]; cbn [snd];
    try (split; reflexivity).
  - destruct (IH (n + 1)%Z (unlink p st)) as [H1 H2]. split; [rewrite H1|rewrite H2]; reflexivity.
  - destruct (IH (n + 1)%Z (unlink p st)) as [H1 H2]. split; [rewrite H1|rewrite H2]; reflexivity.
Qed.

(** X8: A manager built with the audit trail disabled never writes to the audit
    directory: whatever the operation and its outcome, the log files and
    the name of the active log are as before, and the operations that only
    read leave the whole state as it was. *)
Theorem no_audit_writes_when_disabled (self : Manager) (st : State) :
  enable_audit self = false →
  (∀ atype source_path sources module version given,
      audit_untouched st
        (snd (create_artifact self atype source_path sources module version given st)))
  ∧ (∀ aid new_status message,
      audit_untouched st (snd (update_artifact_status self aid new_status message st)))
  ∧ (∀ aid, snd (get_artifact self aid st) = st)
  ∧ (∀ aid, snd (get_artifact_file self aid st) = st)
  ∧ (∀ aid r st', get_artifact_lineage self aid st = Some (r, st') → st' = st)
  ∧ (∀ ids aid relationship,
      audit_untouched st (snd (link_artifacts self ids aid relationship st)))
  ∧ (∀ configuration USER r st',
      start_processing_run self configuration USER st = Some (r, st') →
      audit_untouched st st')
  ∧ (∀ final USER, audit_untouched st (snd (end_processing_run self final USER st)))
  ∧ (∀ days_old, audit_untouched st (snd (cleanup_old_artifacts self days_old st))).
Proof.
  intros Hno.
  split; [intros; apply create_artifact_effects, Hno|].
  split.
  { intros aid new_status message.
    unfold update_artifact_status, bind, read, ret, update_status, save_metadata.
    rewrite Hno. destruct (load_metadata aid st) as [[a|]|e]; try (split; reflexivity).
    artifact_fields. destruct (py_to_json _); split; reflexivity. }
  split; [intros aid; rewrite get_artifact_disabled by exact Hno; reflexivity|].
  split.
  { intros aid. unfold get_artifact_file, bind, read, ret. rewrite Hno.
    destruct (retrieve_artifact aid st); reflexivity. }
  split.
  { intros aid r st'. unfold get_artifact_lineage.
    destruct (build_lineage _ _ _ _ _) as [[[r0 seen] st0]|] eqn:Hbuild; [|discriminate].
    intros [= _ <-]. exact (build_lineage_disabled self _ Hno _ _ _ _ _ _ Hbuild). }
  split.
  { intros ids aid relationship.
    unfold link_artifacts, bind. rewrite get_artifact_disabled by exact Hno.
    destruct (load_metadata aid st) as [[a|]|e]; try (split; reflexivity).
    destruct (setitem _ _ _); [|split; reflexivity].
    unfold save_metadata. artifact_fields. rewrite Hno.
    destruct (py_to_json _); split; reflexivity. }
  split.
  { intros configuration USER r st'.
    unfold start_processing_run, new_ProcessingRun, bind, uuid4, now, ret.
    rewrite Hno. intros [= _ <-]. split; reflexivity. }
  split.
  { intros final USER.
    unfold end_processing_run, complete, bind, now, ret, cleanup_temp. rewrite Hno.
    destruct (current_run st); [|split; reflexivity]. artifact_fields.
    destruct (auto_cleanup self); [|split; reflexivity].
    destruct (path_exists _ _); [|split; reflexivity].
    destruct (fs_nodes _ !! _) as [[data| |target]|]; split; reflexivity. }
  intros days_old. unfold cleanup_old_artifacts.
  destruct (timedelta_days _); [|split; reflexivity].
  destruct (minus_days _ _) as [cutoff_date|]; [|split; reflexivity].
  destruct (ArtifactStorage_list_artifacts _ _ _) as [artifacts|]; [|split; reflexivity].
  pose proof (remove_old_disabled self cutoff_date Hno artifacts 0%Z
                (set_clock_ix (S (clock_ix st)) st)) as H.
  destruct (remove_old _ _ _ _ _). exact H.
Qed.

(** ** Reading artifacts *)

Lemma get_artifact_Ok self aid st found :
  load_metadata aid st = Ok found →
  ∃ st',
    get_artifact self aid st = (Ok found, st')
    ∧ store_untouched st st'
    ∧ (enable_audit self = false → st' = st)
    ∧ (enable_audit self = true →
       ∃ prior,
         fs_logs st' !! current_log st'
         = Some (prior ++ [Entry (to_dict (logged_entry st "artifact_access" "get_metadata"
                                             (Some aid) None None None (is_some found)
                                             None))])%list).
Proof.
  intros Hload. unfold get_artifact. unfold bind at 1. unfold read. rewrite Hload.
  unfold bind at 1.
  destruct (log_if_enabled self "artifact_access" "get_metadata" (Some aid) None None None
              (is_some found) None st) as (st' & Hrun & Hrest).
  rewrite Hrun. exists st'. split; [reflexivity | exact Hrest].
Qed.

(** X9: With the audit trail enabled, reading an artifact's record or its file
    path writes one record of the access, whose [success] tells whether
    something was found: a missing artifact and a deleted file are logged
    as failed accesses.  When the record cannot be decoded the call raises
    and nothing is logged. *)
Theorem access_is_audited (self : Manager) (aid : string) (st : State) :
  enable_audit self = true →
  (∀ found, load_metadata aid st = Ok found →
     ∃ st' prior,
       get_artifact self aid st = (Ok found, st')
       ∧ fs_logs st' !! current_log st'
         = Some (prior ++ [Entry (to_dict (logged_entry st "artifact_access" "get_metadata"
                                             (Some aid) None None None (is_some found)
                                             None))])%list
       ∧ store_untouched st st')
  ∧ (∀ path, retrieve_artifact aid st = Ok path →
     ∃ st' prior,
       get_artifact_file self aid st = (Ok path, st')
       ∧ fs_logs st' !! current_log st'
         = Some (prior ++ [Entry (to_dict (logged_entry st "artifact_access" "get_file"
                                             (Some aid) None None None (is_some path)
                                             None))])%list
       ∧ store_untouched st st')
  ∧ (∀ e, load_metadata aid st = Raise e →
     get_artifact self aid st = (Raise e, st)
     ∧ get_artifact_file self aid st = (Raise e, st)).
Proof.
  intros Hon. split; [|split].
  - intros found Hload.
    destruct (get_artifact_Ok self aid st found Hload) as (st' & Hrun & Hunt & _ & Hlast).
    destruct (Hlast Hon) as (prior & Hprior). exists st', prior. auto.
  - intros path Hpath. unfold get_artifact_file. unfold bind at 1. unfold read.
    rewrite Hpath. unfold bind at 1.
    destruct (log_if_enabled self "artifact_access" "get_file" (Some aid) None None None
                (is_some path) None st) as (st' & Hrun & Hunt & _ & Hlast).
    rewrite Hrun. destruct (Hlast Hon) as (prior & Hprior). exists st', prior. auto.
  - intros e Hload. split.
    + unfold get_artifact, bind, read. rewrite Hload. reflexivity.
    + unfold get_artifact_file, bind, read, retrieve_artifact. rewrite Hload. reflexivity.
Qed.

(** X10: An id without a record: a status update does nothing at all - it
    writes no record, raises nothing, and logs nothing even when the audit
    trail is enabled -, the readers return nothing, linking writes no
    record, and the lineage is the single node [not_found]. *)
Theorem unknown_artifact_id (self : Manager) (aid : string) (st : State) :
  fs_meta st !! aid = None →
  (∀ new_status message,
      update_artifact_status self aid new_status message st = (Ok tt, st))
  ∧ fst (get_artifact self aid st) = Ok None
  ∧ fst (get_artifact_file self aid st) = Ok None
  ∧ (∀ ids relationship,
      fst (link_artifacts self ids aid relationship st) = Ok tt
      ∧ fs_meta (snd (link_artifacts self ids aid relationship st)) = fs_meta st)
  ∧ ∃ st', get_artifact_lineage self aid st = Some (Ok (not_found aid), st').
Proof.
  intros Hnone.
  assert (Hload : load_metadata aid st = Ok None)
    by (unfold load_metadata; rewrite Hnone; reflexivity).
  destruct (get_artifact_Ok self aid st None Hload) as (st' & Hget & Hunt & _).
  split; [|split; [|split; [|split]]].
  - intros new_status message. unfold update_artifact_status, bind, read.
    rewrite Hload. reflexivity.
  - rewrite Hget. reflexivity.
  - unfold get_artifact_file. unfold bind at 1. unfold read, retrieve_artifact.
    rewrite Hload. cbn [bind_result]. unfold bind at 1.
    destruct (log_if_enabled self "artifact_access" "get_file" (Some aid) None None None
                (is_some (@None Path)) None st) as (st1 & Hrun & _).
    rewrite Hrun. reflexivity.
  - intros ids relationship.
    assert (Hlink : link_artifacts self ids aid relationship st = (Ok tt, st'))
      by (unfold link_artifacts; unfold bind at 1; rewrite Hget; reflexivity).
    rewrite Hlink. split; [reflexivity | apply Hunt].
  - unfold get_artifact_lineage. cbn [build_lineage].
    destruct (decide (aid ∈ (∅ : gset string))) as [Hin|_]; [set_solver|].
    rewrite Hget. eexists. reflexivity.
Qed.

(** ** Queries of the audit trail *)

Lemma scan_lines_prefix pass limit : ∀ lines entries r flag,
  scan_lines pass limit lines entries = Ok (r, flag) → ∃ more, r = (entries ++ more)%list.
Proof.
  induction lines as [|[entry|raw] rest IH]; intros entries r flag; simpl.
  - intros [= <- _]. exists []. rewrite app_nil_r. reflexivity.
  - destruct (pass entry) as [[|]|e]; cbn [bind_result]; [| |discriminate].
    + destruct (limit_reached _ _).
      * intros [= <- _]. eexists. reflexivity.
      * intros H. apply IH in H as [more ->]. exists (entry :: more).
        rewrite <- app_assoc. reflexivity.
    + apply IH.
  - apply IH.
Qed.

Lemma scan_lines_None_flag pass : ∀ lines entries r flag,
  scan_lines pass None lines entries = Ok (r, flag) → flag = false.
Proof.
  induction lines as [|[entry|raw] rest IH]; intros entries r flag; simpl.
  - intros [= _ <-]. reflexivity.
  - destruct (pass entry) as [[|]|e]; cbn [bind_result]; [apply IH|apply IH|discriminate].
  - apply IH.
Qed.

Lemma scan_lines_zero pass : ∀ lines entries,
  scan_lines pass (Some 0%Z) lines entries = scan_lines pass None lines entries.
Proof.
  induction lines as [|[entry|raw] rest IH]; intros entries; simpl; [reflexivity| |apply IH].
  destruct (pass entry) as [[|]|e]; cbn [bind_result]; [apply IH|apply IH|reflexivity].
Qed.

Lemma scan_files_zero pass : ∀ files entries,
  scan_files pass (Some 0%Z) files entries = scan_files pass None files entries.
Proof.
  induction files as [|lines rest IH]; intros entries; simpl; [reflexivity|].
  rewrite scan_lines_zero. destruct (scan_lines pass None lines entries) as [[r flag]|e];
    cbn [bind_result]; [|reflexivity].
  destruct flag; [reflexivity | apply IH].
Qed.

Lemma limit_reached_length n (k : nat) (l : list AuditDict) :
  n ≠ 0%Z → k = Z.to_nat (Z.max 1 n) → l ≠ [] →
  limit_reached (Some n) l = bool_decide (k ≤ length l)%nat.
Proof.
  intros Hn -> Hl. unfold limit_reached.
  assert (0 < length l)%nat by (destruct l; [congruence | simpl; lia]).
  destruct (Z.eqb_spec n 0) as [|_]; [congruence|]. cbn [negb andb].
  destruct (Z.leb_spec n (Z.of_nat (length l))); symmetry;
    [apply bool_decide_eq_true | apply bool_decide_eq_false]; lia.
Qed.

Lemma scan_lines_limited pass n (k : nat) :
  n ≠ 0%Z → k = Z.to_nat (Z.max 1 n) →
  ∀ lines entries all flag,
    scan_lines pass None lines entries = Ok (all, flag) →
    (length entries < k)%nat →
    scan_lines pass (Some n) lines entries
    = Ok (take k all, bool_decide (k ≤ length all)%nat).
Proof.
  intros Hn Hk. induction lines as [|[entry|raw] rest IH]; intros entries all flag;
    cbn [scan_lines].
  - intros [= <- _] Hlen. rewrite take_ge by lia.
    rewrite bool_decide_eq_false_2 by lia. reflexivity.
  - destruct (pass entry) as [[|]|e]; cbn [bind_result]; [| |discriminate].
    + intros Hall Hlen.
      rewrite (limit_reached_length n k) by (auto; destruct entries; discriminate).
      destruct (scan_lines_prefix _ _ _ _ _ _ Hall) as [more ->].
      case_bool_decide as Hfull.
      * rewrite length_app in Hfull. simpl in Hfull.
        rewrite take_app_le by (rewrite length_app; simpl; lia).
        rewrite take_ge by (rewrite length_app; simpl; lia).
        rewrite bool_decide_eq_true_2 by (rewrite !length_app; simpl; lia). reflexivity.
      * apply (IH _ _ _ Hall). rewrite length_app in *. simpl in *. lia.
    + apply IH.
  - apply IH.
Qed.

Lemma scan_files_prefix pass limit : ∀ files entries r,
  scan_files pass limit files entries = Ok r → ∃ more, r = (entries ++ more)%list.
Proof.
  induction files as [|lines rest IH]; intros entries r; simpl.
  - intros [= <-]. exists []. rewrite app_nil_r. reflexivity.
  - destruct (scan_lines pass limit lines entries) as [[r1 flag]|e] eqn:Hl;
      cbn [bind_result fst snd]; [|discriminate].
    destruct (scan_lines_prefix _ _ _ _ _ _ Hl) as [m1 ->].
    destruct flag.
    + intros [= <-]. eexists. reflexivity.
    + intros H. apply IH in H as [m2 ->]. exists (m1 ++ m2)%list. symmetry. apply app_assoc.
Qed.

Lemma scan_files_limited pass n (k : nat) :
  n ≠ 0%Z → k = Z.to_nat (Z.max 1 n) →
  ∀ files entries all,
    scan_files pass None files entries = Ok all →
    (length entries < k)%nat →
    scan_files pass (Some n) files entries = Ok (take k all).
Proof.
  intros Hn Hk. induction files as [|lines rest IH]; intros entries all; simpl.
  - intros [= <-] Hlen. rewrite take_ge by lia. reflexivity.
  - destruct (scan_lines pass None lines entries) as [[r1 flag]|e] eqn:Hl;
      cbn [bind_result fst snd]; [|discriminate].
    pose proof (scan_lines_None_flag _ _ _ _ _ Hl) as ->.
    intros Hall Hlen.
    rewrite (scan_lines_limited pass n k Hn Hk _ _ _ _ Hl Hlen). cbn [bind_result fst snd].
    destruct (scan_files_prefix _ _ _ _ _ Hall) as [more ->].
    case_bool_decide as Hfull.
    + rewrite take_app_le by lia. reflexivity.
    + rewrite (take_ge r1) by lia. apply IH; [exact Hall | lia].
Qed.

(** X11: The [limit] of a query: a positive limit gives the first so many
    entries of the unlimited result, in its order; the limit 0 is no limit
    at all; and a negative limit gives the first entry alone. *)
Theorem query_limit
    (start_time end_time : option datetime)
    (operation action aid user module : option string) (success : option bool)
    (limit : Z) (st : State) (all : list AuditDict) :
  query_audit_trail start_time end_time operation action aid user module success None st
  = Ok all →
  query_audit_trail start_time end_time operation action aid user module success
    (Some limit) st
  = Ok (if (limit =? 0)%Z then all
        else if (limit <? 0)%Z then take 1 all
        else take (Z.to_nat limit) all).
Proof.
  unfold query_audit_trail. intros Hall.
  destruct (Z.eqb_spec limit 0) as [->|Hn].
  - rewrite scan_files_zero. exact Hall.
  - rewrite (scan_files_limited _ limit (Z.to_nat (Z.max 1 limit)) Hn eq_refl _ _ _ Hall)
      by (simpl; lia).
    destruct (Z.ltb_spec limit 0).
    + replace (Z.max 1 limit) with 1%Z by lia. reflexivity.
    + replace (Z.max 1 limit) with limit by lia. reflexivity.
Qed.

Lemma scan_lines_filter pass (P : AuditDict → Prop) `{∀ e, Decision (P e)} :
  ∀ lines entries,
    (∀ d, Entry d ∈ lines → pass d = Ok (bool_decide (P d))) →
    scan_lines pass None lines entries
    = Ok ((entries ++ filter P (entries_of lines))%list, false).
Proof.
  induction lines as [|[entry|raw] rest IH]; intros entries Hpass; cbn [scan_lines].
  - unfold entries_of. simpl. rewrite app_nil_r. reflexivity.
  - rewrite (Hpass entry) by left. cbn [bind_result limit_reached].
    unfold entries_of. cbn [omap list_omap]. fold (entries_of rest).
    case_bool_decide as HP.
    + rewrite filter_cons_True by exact HP.
      rewrite IH by (intros d Hd; apply Hpass; right; exact Hd).
      rewrite <- app_assoc. reflexivity.
    + rewrite filter_cons_False by exact HP.
      apply IH. intros d Hd. apply Hpass. right. exact Hd.
  - apply IH. intros d Hd. apply Hpass. right. exact Hd.
Qed.

Lemma scan_files_filter pass (P : AuditDict → Prop) `{∀ e, Decision (P e)} :
  ∀ files entries,
    (∀ d lines, lines ∈ files → Entry d ∈ lines → pass d = Ok (bool_decide (P d))) →
    scan_files pass None files entries
    = Ok (entries ++ filter P (entries_of (concat files)))%list.
Proof.
  induction files as [|lines rest IH]; intros entries Hpass; cbn [scan_files concat].
  - unfold entries_of. simpl. rewrite app_nil_r. reflexivity.
  - rewrite (scan_lines_filter pass P) by (intros d Hd; apply (Hpass d lines); [left|exact Hd]).
    cbn [bind_result fst snd].
    rewrite IH by (intros d l Hl Hd; apply (Hpass d l); [right; exact Hl|exact Hd]).
    unfold entries_of. rewrite omap_app, filter_app, app_assoc. reflexivity.
Qed.

Lemma query_filter P `{∀ e, Decision (P e)}
    start_time end_time operation action aid user module success st :
  (∀ d, d ∈ logged_entries st →
     passes_filters start_time end_time operation action aid user module success d
     = Ok (bool_decide (P d))) →
  query_audit_trail start_time end_time operation action aid user module success None st
  = Ok (filter P (logged_entries st)).
Proof.
  intros Hpass. unfold query_audit_trail. rewrite (scan_files_filter _ P); [reflexivity|].
  intros d lines Hlines Hd. apply Hpass. unfold logged_entries.
  apply elem_of_entries_of, elem_of_concat. exists lines. auto.
Qed.

Lemma dt_leb_refl t : dt_leb t t = true.
Proof.
  unfold dt_leb, dt_ltb.
  assert (Heq : ∀ l, lex_compare l l = Eq).
  { induction l as [|x l IH]; simpl; [reflexivity|]. rewrite N.compare_refl. exact IH. }
  rewrite Heq. reflexivity.
Qed.

Lemma passes_time_filters start_time end_time d :
  is_Some (fromisoformat (k_timestamp d)) →
  passes_filters start_time end_time None None None None None None d
  = Ok (within start_time end_time d).
Proof.
  intros [t Ht]. unfold passes_filters, after_start, before_end, parse_timestamp, within, dt_leb.
  rewrite Ht. destruct start_time as [t0|], end_time as [t1|]; cbn [bind_result];
    repeat (destruct (dt_ltb _ _); cbn [negb andb bind_result]); reflexivity.
Qed.

(** X12: A query by time keeps the records stamped from [start_time] to
    [end_time], both bounds included, in the order of the log: asked for
    the range from [t] to [t] it returns the records stamped exactly [t].
    (The records are assumed to carry ISO time stamps, as all those written
    by [log_operation] do.) *)
Theorem query_time_range (start_time end_time : option datetime) (st : State) :
  (∀ d, d ∈ logged_entries st → is_Some (fromisoformat (k_timestamp d))) →
  query_audit_trail start_time end_time None None None None None None None st
  = Ok (filter (fun d => within start_time end_time d = true) (logged_entries st))
  ∧ ∀ d t,
      d ∈ logged_entries st → fromisoformat (k_timestamp d) = Some t →
      ∃ entries,
        query_audit_trail (Some t) (Some t) None None None None None None None st = Ok entries
        ∧ d ∈ entries.
Proof.
  intros Hiso.
  assert (Hquery : ∀ s e,
    query_audit_trail s e None None None None None None None st
    = Ok (filter (fun d => within s e d = true) (logged_entries st))).
  { intros s e. apply query_filter. intros d Hd.
    rewrite passes_time_filters by (apply Hiso, Hd).
    destruct (within s e d) eqn:E.
    - rewrite bool_decide_eq_true_2 by reflexivity. reflexivity.
    - rewrite bool_decide_eq_false_2 by discriminate. reflexivity. }
  split; [apply Hquery|].
  intros d t Hd Ht. eexists. split; [apply Hquery|].
  apply list_elem_of_filter. split; [|exact Hd].
  unfold within. rewrite Ht, dt_leb_refl. reflexivity.
Qed.












(** ** Listing the stored artifacts *)

Lemma stem_json id : id ≠ "" → stem (id +:+ ".json") = id.
Proof.
  clear sha256_hex line_bytes.
  intros Hid. unfold stem.
  replace (id +:+ ".json") with (id +:+ String "." "json") by reflexivity.
  rewrite rfind_last by reflexivity. rewrite length_append.
  destruct id as [|c r]; [contradiction|]. simpl String.length.
  replace (0 <? S (String.length r))%nat with true by (symmetry; apply Nat.ltb_lt; lia).
  replace (S (String.length r) <? S (String.length r) + 5 - 1)%nat with true
    by (symmetry; apply Nat.ltb_lt; lia).
  simpl andb. exact (substring_append (String c r) ".json").
Qed.

Lemma elem_of_glob_json f st :
  f ∈ glob_json st
  ↔ ∃ id, f = id +:+ ".json" ∧ rfind "/" id = None ∧ is_Some (fs_meta st !! id).
Proof.
  unfold glob_json. rewrite list_elem_of_fmap. split.
  - intros (id & -> & Hid). apply list_elem_of_filter in Hid as [Hslash Hid].
    apply list_elem_of_fmap in Hid as ([id' doc] & -> & Hin).
    apply elem_of_map_to_list in Hin. exists id'. cbn [fst] in *. eauto.
  - intros (id & -> & Hslash & [doc Hdoc]). exists id. split; [reflexivity|].
    apply list_elem_of_filter. split; [exact Hslash|].
    apply list_elem_of_fmap. exists (id, doc). split; [reflexivity|].
    apply elem_of_map_to_list. exact Hdoc.
Qed.

Lemma list_files_Ok atype astatus st : ∀ files artifacts,
  (∀ f, f ∈ files → ∃ r, load_metadata (stem f) st = Ok r) →
  ∃ l,
    list_files atype astatus files artifacts st = Ok l
    ∧ ∀ a, a ∈ l
           ↔ a ∈ artifacts
             ∨ ∃ f, f ∈ files ∧ load_metadata (stem f) st = Ok (Some a)
                    ∧ type_filter atype a = true ∧ status_filter astatus a = true.
Proof.
  induction files as [|f rest IH]; intros artifacts Hload; cbn [list_files].
  - exists artifacts. split; [reflexivity|]. intros a. split; [auto|].
    intros [H|(f & Hf & _)]; [exact H | inversion Hf].
  - destruct (Hload f) as [r Hr]; [left|]. rewrite Hr. cbn [bind_result].
    assert (Hrest : ∀ f', f' ∈ rest → ∃ r, load_metadata (stem f') st = Ok r)
      by (intros f' Hf'; apply Hload; right; exact Hf').
    destruct r as [a0|].
    + destruct (type_filter atype a0 && status_filter astatus a0) eqn:Hkeep.
      * destruct (IH (artifacts ++ [a0])%list Hrest) as (l & -> & Hl).
        exists l. split; [reflexivity|]. intros a. rewrite Hl, elem_of_app.
        apply andb_true_iff in Hkeep as [Ht Hs]. split.
        -- intros [[H|H]|(f' & Hf' & H)]; [left; exact H| |].
           ++ apply list_elem_of_singleton in H as ->. right. exists f.
              split; [left|]. auto.
           ++ right. exists f'. split; [right; exact Hf' | exact H].
        -- intros [H|(f' & Hf' & Hl' & Hrest')]; [left; left; exact H|].
           apply elem_of_cons in Hf' as [->|Hf'].
           ++ left. right. apply list_elem_of_singleton. congruence.
           ++ right. exists f'. auto.
      * destruct (IH artifacts Hrest) as (l & -> & Hl).
        exists l. split; [reflexivity|]. intros a. rewrite Hl. split.
        -- intros [H|(f' & Hf' & H)]; [left; exact H|].
           right. exists f'. split; [right; exact Hf' | exact H].
        -- intros [H|(f' & Hf' & Hl' & Ht & Hs)]; [left; exact H|].
           apply elem_of_cons in Hf' as [->|Hf'].
           ++ rewrite Hr in Hl'. injection Hl' as ->. rewrite Ht, Hs in Hkeep.
              discriminate Hkeep.
           ++ right. exists f'. auto.
    + destruct (IH artifacts Hrest) as (l & -> & Hl).
      exists l. split; [reflexivity|]. intros a. rewrite Hl. split.
      * intros [H|(f' & Hf' & H)]; [left; exact H|].
        right. exists f'. split; [right; exact Hf' | exact H].
      * intros [H|(f' & Hf' & Hl' & Hrest')]; [left; exact H|].
        apply elem_of_cons in Hf' as [->|Hf'].
        -- rewrite Hr in Hl'. discriminate Hl'.
        -- right. exists f'. auto.
Qed.

Lemma list_files_Raise atype astatus st : ∀ files artifacts,
  (∃ f e, f ∈ files ∧ load_metadata (stem f) st = Raise e) →
  ∃ e, list_files atype astatus files artifacts st = Raise e.
Proof.
  induction files as [|f rest IH]; intros artifacts (f' & e & Hf' & He).
  - inversion Hf'.
  - cbn [list_files]. destruct (load_metadata (stem f) st) as [r|e0] eqn:Hr;
      cbn [bind_result]; [|exists e0; reflexivity].
    assert (Hrest : ∃ f e, f ∈ rest ∧ load_metadata (stem f) st = Raise e).
    { exists f', e. split; [|exact He].
      apply elem_of_cons in Hf' as [->|Hf']; [congruence | exact Hf']. }
    destruct r as [a0|]; [destruct (_ && _)|]; apply IH, Hrest.
Qed.

(** X15: When every record of the metadata directory decodes, the listing
    returns the stored artifacts that pass the two filters: each artifact
    listed is a decoded record of the right type and status, and the record
    of every id (an id names a file of the directory when it is not empty
    and holds no separator) that passes them is listed.  The manager's
    listing without a run id, or with an empty one, is the same list. *)
Theorem list_artifacts_lists_matching_records
    (atype : option ArtifactType) (astatus : option ArtifactStatus) (st : State) :
  (∀ id, is_Some (fs_meta st !! id) → ∃ a, load_metadata id st = Ok (Some a)) →
  ∃ l,
    ArtifactStorage_list_artifacts atype astatus st = Ok l
    ∧ (∀ a, a ∈ l →
         type_filter atype a = true ∧ status_filter astatus a = true
         ∧ ∃ id, load_metadata id st = Ok (Some a))
    ∧ (∀ id a,
         id ≠ "" → rfind "/" id = None →
         load_metadata id st = Ok (Some a) →
         type_filter atype a = true → status_filter astatus a = true →
         a ∈ l)
    ∧ list_artifacts atype astatus None st = Returns l
    ∧ list_artifacts atype astatus (Some "") st = Returns l.
Proof.
  intros Hall.
  assert (Hany : ∀ x, ∃ r, load_metadata x st = Ok r).
  { intros x. destruct (fs_meta st !! x) as [doc|] eqn:Hx.
    - destruct (Hall x) as [a Ha]; [eauto|]. eauto.
    - exists None. unfold load_metadata. rewrite Hx. reflexivity. }
  unfold list_artifacts, ArtifactStorage_list_artifacts.
  destruct (list_files_Ok atype astatus st (glob_json st) [] (fun f _ => Hany (stem f)))
    as (l & Hl & Hin).
  rewrite Hl. exists l. split; [reflexivity|].
  split; [|split; [|split; reflexivity]].
  - intros a Ha. apply Hin in Ha as [Ha|(f & _ & Hf & Ht & Hs)]; [inversion Ha|]. eauto.
  - intros id a Hid Hslash Hload Ht Hs. apply Hin. right. exists (id +:+ ".json").
    rewrite stem_json by exact Hid. split; [|auto].
    apply elem_of_glob_json. exists id. split; [reflexivity|]. split; [exact Hslash|].
    unfold load_metadata in Hload. destruct (fs_meta st !! id); [eauto | discriminate].
Qed.

(** X16: One record that cannot be decoded blocks every listing, whatever the
    filters, and with it the clean-up of old artifacts, which raises before
    it has removed anything. *)
Theorem undecodable_record_blocks_listing
    (self : Manager) (id : string) (e : exn) (st : State) :
  id ≠ "" → rfind "/" id = None →
  load_metadata id st = Raise e →
  (∀ atype astatus, ∃ e', ArtifactStorage_list_artifacts atype astatus st = Raise e')
  ∧ (∀ atype astatus run_id, ∃ c m, list_artifacts atype astatus run_id st = Raises c m)
  ∧ (∀ days_old, ∃ c m st',
        cleanup_old_artifacts self days_old st = (Raises c m, st')
        ∧ fs_nodes st' = fs_nodes st ∧ fs_meta st' = fs_meta st
        ∧ fs_logs st' = fs_logs st).
Proof.
  intros Hid Hslash Hload.
  assert (Hraise : ∀ atype astatus st',
            fs_meta st' = fs_meta st →
            ∃ e', ArtifactStorage_list_artifacts atype astatus st' = Raise e').
  { intros atype astatus st' Hmeta. unfold ArtifactStorage_list_artifacts.
    apply list_files_Raise. exists (id +:+ ".json"), e.
    rewrite stem_json by exact Hid. split.
    - apply elem_of_glob_json. exists id. split; [reflexivity|]. split; [exact Hslash|].
      rewrite Hmeta. unfold load_metadata in Hload.
      destruct (fs_meta st !! id); [eauto | discriminate].
    - rewrite (load_metadata_ext id st st' Hmeta). exact Hload. }
  split; [|split].
  - intros atype astatus. apply Hraise. reflexivity.
  - intros atype astatus run_id. unfold list_artifacts.
    destruct (Hraise atype astatus st eq_refl) as [e' ->]. do 2 eexists. reflexivity.
  - intros days_old. unfold cleanup_old_artifacts.
    destruct (timedelta_days days_old) as [d|c m]; [|do 3 eexists; split; [reflexivity|auto]].
    destruct (minus_days _ d) as [cutoff|c m]; [|do 3 eexists; split; [reflexivity|auto]].
    destruct (Hraise None None (set_clock_ix (S (clock_ix st)) st) eq_refl) as [e' ->].
    do 3 eexists. split; [reflexivity|auto].
Qed.

Lemma select_run_dicts r : ∀ l,
  (∀ a, a ∈ l → is_dict (metadata a) = true) →
  select_run r l = Returns (filter (fun a => carries_run_id r a = true) l).
Proof.
  induction l as [|a rest IH]; intros Hdict; cbn [select_run]; [reflexivity|].
  rewrite IH by (intros x Hx; apply Hdict; right; exact Hx).
  pose proof (Hdict a ltac:(left)) as Ha.
  unfold in_run, carries_run_id at 2. rewrite filter_cons.
  destruct (metadata a) as [| | | | | |d|] eqn:Hm; try discriminate Ha.
  unfold carries_run_id. rewrite Hm.
  destruct (eq_str (dict_get "run_id" d) r); [rewrite decide_True by reflexivity
                                              |rewrite decide_False by discriminate];
    reflexivity.
Qed.

Lemma select_run_other r : ∀ l,
  (∃ a, a ∈ l ∧ is_dict (metadata a) = false) →
  ∃ m, select_run r l = Raises "AttributeError" m.
Proof.
  induction l as [|a rest IH]; intros (x & Hx & Hnot); [inversion Hx|].
  cbn [select_run]. unfold in_run.
  destruct (metadata a) as [| | | | | |d|] eqn:Hm; try (eexists; reflexivity).
  destruct (IH) as [m ->]; [|eexists; reflexivity].
  exists x. split; [|exact Hnot].
  apply elem_of_cons in Hx as [->|Hx]; [rewrite Hm in Hnot; discriminate | exact Hx].
Qed.

(** X17: The manager's listing by run id keeps the artifacts whose own metadata
    bag has the entry [run_id] with that text, and nothing else decides: an
    artifact is not found by the id of the run it was created in unless its
    caller wrote that id into its metadata.  A listed record whose metadata
    is not a dict makes the listing raise an [AttributeError]. *)
Theorem list_artifacts_by_run_id
    (atype : option ArtifactType) (astatus : option ArtifactStatus)
    (r : string) (st : State) (l : list ArtifactMetadata) :
  r ≠ "" →
  ArtifactStorage_list_artifacts atype astatus st = Ok l →
  ((∀ a, a ∈ l → is_dict (metadata a) = true) →
   list_artifacts atype astatus (Some r) st
   = Returns (filter (fun a => carries_run_id r a = true) l)
   ∧ ∀ a, a ∈ l → metadata a = PDict [] →
          a ∉ filter (fun a => carries_run_id r a = true) l)
  ∧ ((∃ a, a ∈ l ∧ is_dict (metadata a) = false) →
     ∃ m, list_artifacts atype astatus (Some r) st = Raises "AttributeError" m).
Proof.
  intros Hr Hl. unfold list_artifacts. rewrite Hl.
  assert (Htruthy : str_truthy r = true).
  { unfold str_truthy. destruct (String.eqb_spec r ""); [contradiction | reflexivity]. }
  rewrite Htruthy. split.
  - intros Hdict. split; [apply select_run_dicts, Hdict|].
    intros a _ Hempty Hin. apply list_elem_of_filter in Hin as [Hcarry _].
    unfold carries_run_id in Hcarry. rewrite Hempty in Hcarry. discriminate Hcarry.
  - apply select_run_other.
Qed.

(** ** Linking artifacts *)

Lemma json_native_ids ids : json_native (PList (map PStr ids)) = true.
Proof. clear sha256_hex line_bytes. induction ids as [|x r IH]; [reflexivity | exact IH]. Qed.

Lemma dict_get_setitem k x d : dict_get k (dict_setitem k x d) = x.
Proof.
  clear sha256_hex line_bytes.
  unfold dict_get. induction d as [|[k' y] r IH]; cbn [dict_setitem find fst snd].
  - rewrite String.eqb_refl. reflexivity.
  - destruct k' as [s| | | |]; cbn [find fst snd]; try exact IH.
    destruct (String.eqb s k) eqn:E; cbn [find fst snd]; rewrite E; [reflexivity | exact IH].
Qed.

Lemma link_artifacts_once self ids aid relationship st artifact d :
  load_metadata aid st = Ok (Some artifact) →
  metadata artifact = PDict d →
  let linked :=
    {| artifact_id := artifact_id artifact;
       artifact_type := artifact_type artifact;
       status := status artifact;
       created_at := created_at artifact;
       updated_at := updated_at artifact;
       source_artifacts := (source_artifacts artifact ++ ids)%list;
       processing_module := processing_module artifact;
       processing_version := processing_version artifact;
       file_path := file_path artifact;
       file_size := file_size artifact;
       checksum := checksum artifact;
       metadata :=
         PDict (dict_setitem (relationship +:+ "_artifacts") (PList (map PStr ids)) d);
       error_message := error_message artifact |} in
  ∃ st',
    link_artifacts self ids aid relationship st = (Ok tt, st')
    ∧ load_metadata (artifact_id artifact) st' = Ok (Some linked)
    ∧ fs_nodes st' = fs_nodes st
    ∧ ∀ other, other ≠ artifact_id artifact → fs_meta st' !! other = fs_meta st !! other.
Proof.
  intros Hload Hbag linked.
  destruct (load_metadata_Some aid st artifact Hload) as (data & _ & Hdata).
  destruct (artifact_of_dict_Ok data artifact Hdata) as (Hcreated & Hupdated & Hfrom).
  assert (Hnative : json_native (metadata linked) = true).
  { cbn [metadata linked]. apply dict_setitem_native; [|apply json_native_ids].
    rewrite <- Hbag, Hfrom. apply json_to_py_native. }
  destruct (json_native_roundtrip _ Hnative) as (bag & Hdump & Hback).
  destruct (get_artifact_Ok self aid st (Some artifact) Hload) as (st1 & Hget & Hunt1 & _).
  unfold link_artifacts, bind. rewrite Hget. unfold setitem. rewrite Hbag.
  fold linked. unfold save_metadata. rewrite Hdump. unfold ret.
  run_audit st' Hunt.
  destruct Hunt as ((Hnodes & _ & Hmeta & _) & _).
  destruct Hunt1 as (Hnodes1 & _ & Hmeta1 & _).
  exists st'. split; [reflexivity|]. split; [|split].
  - unfold load_metadata. rewrite Hmeta. cbn [fs_meta set_fs_meta].
    rewrite lookup_insert_eq.
    rewrite (artifact_of_metadata_dict linked bag Hcreated Hupdated Hback). reflexivity.
  - rewrite Hnodes. cbn [fs_nodes set_fs_meta]. exact Hnodes1.
  - intros other Hother. rewrite Hmeta. cbn [fs_meta set_fs_meta].
    rewrite lookup_insert_ne by (cbn [artifact_id linked]; congruence).
    rewrite Hmeta1. reflexivity.
Qed.

(** X18: Linking adds the given ids at the end of the output artifact's
    [source_artifacts] and records them under [<relationship>_artifacts] in
    its metadata; the status, the time stamps and the file of the artifact
    stay as they were, and no other record changes.  Linking is not
    idempotent: the same call made twice lists the sources twice. *)
Theorem link_artifacts_appends_sources
    (self : Manager) (ids : list string) (aid relationship : string) (st : State)
    (artifact : ArtifactMetadata) :
  load_metadata aid st = Ok (Some artifact) →
  artifact_id artifact = aid →
  is_dict (metadata artifact) = true →
  ∃ st1 st2 once twice,
    link_artifacts self ids aid relationship st = (Ok tt, st1)
    ∧ load_metadata aid st1 = Ok (Some once)
    ∧ source_artifacts once = (source_artifacts artifact ++ ids)%list
    ∧ dict_get (relationship +:+ "_artifacts")
        (match metadata once with PDict d => d | _ => [] end)
      = PList (map PStr ids)
    ∧ status once = status artifact
    ∧ created_at once = created_at artifact
    ∧ updated_at once = updated_at artifact
    ∧ file_path once = file_path artifact
    ∧ fs_nodes st1 = fs_nodes st
    ∧ (∀ other, other ≠ aid → fs_meta st1 !! other = fs_meta st !! other)
    ∧ link_artifacts self ids aid relationship st1 = (Ok tt, st2)
    ∧ load_metadata aid st2 = Ok (Some twice)
    ∧ source_artifacts twice = ((source_artifacts artifact ++ ids) ++ ids)%list.
Proof.
  intros Hload Hid Hdict.
  destruct (metadata artifact) as [| | | | | |d|] eqn:Hbag; try discriminate Hdict.
  destruct (link_artifacts_once self ids aid relationship st artifact d Hload Hbag)
    as (st1 & Hrun1 & Hload1 & Hnodes1 & Hother1).
  cbv zeta in Hload1. rewrite Hid in Hload1, Hother1.
  match type of Hload1 with _ = Ok (Some ?a) => set (once := a) in * end.
  destruct (link_artifacts_once self ids aid relationship st1 once _ Hload1 eq_refl)
    as (st2 & Hrun2 & Hload2 & _).
  cbv zeta in Hload2. unfold once in Hload2 at 1. cbn [artifact_id] in Hload2.
  exists st1, st2, once. eexists.
  split; [exact Hrun1|]. split; [exact Hload1|]. split; [reflexivity|].
  split; [|repeat (split; [first [reflexivity | eassumption]|]); reflexivity].
  cbn [metadata once]. apply dict_get_setitem.
Qed.

(** ** The summary of errors *)

Lemma count_up_lookup `{Countable K} (k k' : K) (d : gmap K Z) :
  default 0%Z (count_up k d !! k')
  = (default 0 (d !! k') + if decide (k = k') then 1 else 0)%Z.
Proof.
  clear sha256_hex line_bytes.
  unfold count_up. rewrite lookup_insert. case_decide as Hk.
  - subst k'. reflexivity.
  - lia.
Qed.

Lemma count_fold_lookup `{Countable K} (f : AuditDict → K) (k : K) : ∀ l (d : gmap K Z),
  default 0%Z (fold_left (fun d e => count_up (f e) d) l d !! k)
  = (default 0 (d !! k) + Z.of_nat (length (filter (fun e => f e = k) l)))%Z.
Proof.
  clear sha256_hex line_bytes.
  induction l as [|e l IH]; intros d; cbn [fold_left].
  - rewrite filter_nil. simpl. lia.
  - rewrite IH, count_up_lookup, filter_cons.
    destruct (decide (f e = k)); simpl length; lia.
Qed.

Lemma count_up_total `{Countable K} (k : K) (d : gmap K Z) :
  map_fold (fun _ n acc => (n + acc)%Z) 0%Z (count_up k d)
  = (map_fold (fun _ n acc => (n + acc)%Z) 0%Z d + 1)%Z.
Proof.
  clear sha256_hex line_bytes.
  unfold count_up.
  assert (Hins : ∀ (m : gmap K Z) i x,
            m !! i = None →
            map_fold (fun _ n acc => (n + acc)%Z) 0%Z (<[i:=x]> m)
            = (x + map_fold (fun _ n acc => (n + acc)%Z) 0%Z m)%Z).
  { intros m i x Hi. apply (map_fold_insert_L (fun _ n acc => (n + acc)%Z)); [|exact Hi].
    intros. lia. }
  destruct (d !! k) as [v|] eqn:Hk; cbn [default].
  - rewrite <- (insert_delete_eq d k (v + 1)%Z).
    rewrite Hins by apply lookup_delete_eq.
    rewrite <- (insert_id d k v Hk) at 2. rewrite <- (insert_delete_eq d k v).
    rewrite Hins by apply lookup_delete_eq. lia.
  - rewrite Hins by exact Hk. lia.
Qed.

Lemma count_fold_total `{Countable K} (f : AuditDict → K) : ∀ l (d : gmap K Z),
  map_fold (fun _ n acc => (n + acc)%Z) 0%Z (fold_left (fun d e => count_up (f e) d) l d)
  = (map_fold (fun _ n acc => (n + acc)%Z) 0%Z d + Z.of_nat (length l))%Z.
Proof.
  clear sha256_hex line_bytes.
  induction l as [|e l IH]; intros d; cbn [fold_left].
  - simpl. lia.
  - rewrite IH, count_up_total. simpl length. lia.
Qed.

Lemma scan_lines_passed pass limit : ∀ lines entries r flag,
  scan_lines pass limit lines entries = Ok (r, flag) →
  ∀ e, e ∈ r → e ∈ entries ∨ pass e = Ok true.
Proof.
  induction lines as [|[entry|raw] rest IH]; intros entries r flag; cbn [scan_lines].
  - intros [= <- _] e He. left. exact He.
  - destruct (pass entry) as [[|]|x] eqn:Hentry; cbn [bind_result]; [| |discriminate].
    + destruct (limit_reached _ _).
      * intros [= <- _] e He. apply elem_of_app in He as [He|He]; [left; exact He|].
        apply list_elem_of_singleton in He as ->. right. exact Hentry.
      * intros Hscan e He. destruct (IH _ _ _ Hscan e He) as [H|H]; [|right; exact H].
        apply elem_of_app in H as [H|H]; [left; exact H|].
        apply list_elem_of_singleton in H as ->. right. exact Hentry.
    + apply IH.
  - apply IH.
Qed.

Lemma scan_files_passed pass limit : ∀ files entries r,
  scan_files pass limit files entries = Ok r →
  ∀ e, e ∈ r → e ∈ entries ∨ pass e = Ok true.
Proof.
  induction files as [|lines rest IH]; intros entries r; cbn [scan_files].
  - intros [= <-] e He. left. exact He.
  - destruct (scan_lines pass limit lines entries) as [[r1 flag]|x] eqn:Hl;
      cbn [bind_result fst snd]; [|discriminate].
    destruct flag.
    + intros [= <-]. exact (scan_lines_passed _ _ _ _ _ _ Hl).
    + intros Hscan e He. destruct (IH _ _ Hscan e He) as [H|H]; [|right; exact H].
      exact (scan_lines_passed _ _ _ _ _ _ Hl e H).
Qed.

(** X19: The summary counts the failed records of the time range: every record
    it counts has [success] false, the counts by operation and the counts
    by module each add up to [total_errors], a failure without a module is
    counted under the key [None] (never under "unknown"), and the messages
    listed are the distinct non-empty messages of the failures. *)
Theorem get_error_summary_counts
    (start_time end_time : option datetime) (st : State) (errors : list AuditDict) :
  query_audit_trail start_time end_time None None None None None (Some false) None st
  = Ok errors →
  ∃ s,
    get_error_summary start_time end_time st = Ok s
    ∧ (∀ e, e ∈ errors → k_success e = false)
    ∧ total_errors s = Z.of_nat (length errors)
    ∧ (∀ op, default 0%Z (errors_by_operation s !! op)
             = Z.of_nat (length (filter (fun e => k_operation e = op) errors)))
    ∧ (∀ m, default 0%Z (errors_by_module s !! m)
            = Z.of_nat (length (filter (fun e => k_module e = m) errors)))
    ∧ map_fold (fun _ n acc => (n + acc)%Z) 0%Z (errors_by_operation s) = total_errors s
    ∧ map_fold (fun _ n acc => (n + acc)%Z) 0%Z (errors_by_module s) = total_errors s
    ∧ NoDup (unique_error_messages s)
    ∧ (∀ m, m ∈ unique_error_messages s
            ↔ m ≠ "" ∧ ∃ e, e ∈ errors ∧ k_error_message e = Some m).
Proof.
  intros Hquery. unfold get_error_summary. rewrite Hquery. cbn [bind_result].
  eexists. split; [reflexivity|].
  cbn [total_errors errors_by_operation errors_by_module unique_error_messages].
  split; [|split; [reflexivity|split; [|split; [|split; [|split; [|split]]]]]].
  - intros e He. unfold query_audit_trail in Hquery.
    destruct (scan_files_passed _ _ _ _ _ Hquery e He) as [H|H]; [inversion H|].
    revert H. unfold passes_filters, after_start, before_end.
    destruct start_time, end_time; cbn [bind_result];
      repeat (destruct (parse_timestamp _); cbn [bind_result]; try discriminate);
      repeat (destruct (dt_ltb _ _); cbn [negb]; try discriminate);
      cbn [text_filter opt_text_filter success_filter andb];
      destruct (k_success e); cbn; congruence.
  - intros op. rewrite count_fold_lookup, lookup_empty. reflexivity.
  - intros m. rewrite count_fold_lookup, lookup_empty. reflexivity.
  - rewrite count_fold_total, map_fold_empty. reflexivity.
  - rewrite count_fold_total, map_fold_empty. reflexivity.
  - apply NoDup_elements.
  - intros m. rewrite elem_of_elements, elem_of_list_to_set, list_elem_of_omap.
    unfold truthy_message. split.
    + intros (e & He & Hm). destruct (k_error_message e) as [msg|] eqn:Hmsg; [|discriminate].
      destruct (str_truthy msg) eqn:Ht; [|discriminate]. injection Hm as <-.
      split; [intros ->; discriminate Ht | eauto].
    + intros (Hne & e & He & Hmsg). exists e. split; [exact He|]. rewrite Hmsg.
      unfold str_truthy. destruct (String.eqb_spec m ""); [contradiction | reflexivity].
Qed.

(** ** Processing runs and the temporary directory *)

Lemma prefix_append a x y : String.prefix (a +:+ x) (a +:+ y) = String.prefix x y.
Proof.
  clear sha256_hex line_bytes.
  induction a as [|c r IH]; [rewrite !append_nil_l; reflexivity|].
  rewrite !append_cons. simpl. destruct (ascii_dec c c); [exact IH | contradiction].
Qed.

(** The path of a stored artifact is not the temporary directory and does
    not lie below it. *)
Lemma stored_path_outside_temp self atype name :
  let p := path_str (path_join (path_join (path_join (storage_root self) "artifacts") atype)
                               name) in
  below (temp_dir self) p = false ∧ p ≠ path_str (temp_dir self).
Proof.
  clear sha256_hex line_bytes.
  intros p. unfold p, below, temp_dir, startswith. rewrite !path_str_join.
  set (R := path_str (storage_root self)).
  replace ((R +:+ "/" +:+ "temp") +:+ "/") with (R +:+ "/temp/")
    by (rewrite !append_assoc; reflexivity).
  replace (((R +:+ "/" +:+ "artifacts") +:+ "/" +:+ atype) +:+ "/" +:+ name)
    with (R +:+ String "/" (String "a" ("rtifacts/" +:+ atype +:+ "/" +:+ name)))
    by (rewrite !append_assoc, !append_cons, !append_nil_l; reflexivity).
  split.
  - rewrite prefix_append. reflexivity.
  - replace (R +:+ "/" +:+ "temp") with (R +:+ "/temp") by reflexivity.
    intros Heq. apply append_inj_l in Heq. discriminate Heq.
Qed.

Lemma prefix_longer a c b : String.prefix (a +:+ String c b) a = false.
Proof.
  clear sha256_hex line_bytes.
  induction a as [|x r IH]; [rewrite append_nil_l; reflexivity|].
  rewrite append_cons. simpl. destruct (ascii_dec x x); [exact IH | contradiction].
Qed.

Lemma lookup_filter_kept (P : string → bool) (m : gmap string node) p :
  P p = false → filter (fun kv => P (fst kv) = false) m !! p = m !! p.
Proof.
  clear sha256_hex line_bytes.
  intros HP. destruct (m !! p) as [x|] eqn:Hp.
  - apply map_lookup_filter_Some. split; [exact Hp | exact HP].
  - apply map_lookup_filter_None. left. exact Hp.
Qed.

Lemma lookup_filter_dropped (P : string → bool) (m : gmap string node) p :
  P p = true → filter (fun kv => P (fst kv) = false) m !! p = None.
Proof.
  clear sha256_hex line_bytes.
  intros HP. apply map_lookup_filter_None. right. intros x _. cbn [fst]. congruence.
Qed.

Lemma cleanup_temp_effect self st :
  match cleanup_temp self st with
  | (Returns _, st') =>
      (path_exists st (temp_dir self) = false → st' = st)
      ∧ (path_exists st (temp_dir self) = true →
         fs_nodes st' !! path_str (temp_dir self) = Some Directory
         ∧ ∀ p, below (temp_dir self) p = true → fs_nodes st' !! p = None)
      ∧ (∀ p, below (temp_dir self) p = false → p ≠ path_str (temp_dir self) →
              fs_nodes st' !! p = fs_nodes st !! p)
      ∧ fs_meta st' = fs_meta st ∧ fs_logs st' = fs_logs st
      ∧ current_log st' = current_log st ∧ current_run st' = current_run st
  | (Raises c m, st') =>
      st' = st ∧ (c = "OSError" ∨ c = "NotADirectoryError")
  end.
Proof.
  clear sha256_hex line_bytes.
  assert (Hself : below (temp_dir self) (path_str (temp_dir self)) = false).
  { unfold below, startswith. apply prefix_longer. }
  assert (Hkept : ∀ st' : State,
            fs_nodes st'
            = <[path_str (temp_dir self) := Directory]>
                (filter (fun kv => below (temp_dir self) (fst kv) = false) (fs_nodes st)) →
            fs_nodes st' !! path_str (temp_dir self) = Some Directory
            ∧ (∀ p, below (temp_dir self) p = true → fs_nodes st' !! p = None)
            ∧ ∀ p, below (temp_dir self) p = false → p ≠ path_str (temp_dir self) →
                   fs_nodes st' !! p = fs_nodes st !! p).
  { intros st' ->. split; [apply lookup_insert_eq|]. split.
    - intros p Hp. rewrite lookup_insert_ne by (intros E; rewrite <- E in Hp; congruence).
      apply (lookup_filter_dropped (below (temp_dir self))), Hp.
    - intros p Hp Hne. rewrite lookup_insert_ne by congruence.
      apply (lookup_filter_kept (below (temp_dir self))), Hp. }
  unfold cleanup_temp. destruct (path_exists st (temp_dir self)) eqn:Hex.
  2:{ split; [reflexivity|]. split; [discriminate|]. auto 10. }
  destruct (fs_nodes st !! path_str (temp_dir self)) as [[data| |target]|] eqn:Hnode;
    try (split; [reflexivity | auto]).
  - split; [discriminate|].
    match goal with |- context [set_fs_nodes ?m st] =>
      destruct (Hkept (set_fs_nodes m st) eq_refl) as (H1 & H2 & H3) end.
    split; [intros _; split; [exact H1 | exact H2]|]. split; [exact H3|]. auto.
  - split; [discriminate|].
    match goal with |- context [set_fs_nodes ?m st] =>
      destruct (Hkept (set_fs_nodes m st) eq_refl) as (H1 & H2 & H3) end.
    split; [intros _; split; [exact H1 | exact H2]|]. split; [exact H3|]. auto.
Qed.

(** X20: Cleaning the temporary directory removes what lies below it and
    nothing else: the directory is there afterwards, empty; the stored
    artifact files, the records and the audit logs are untouched.  It
    refuses a temporary directory that is a link or a file, and then
    changes nothing. *)
Theorem cleanup_temp_spares_the_store (self : Manager) (st : State) :
  match cleanup_temp self st with
  | (Returns _, st') =>
      (path_exists st (temp_dir self) = true →
         fs_nodes st' !! path_str (temp_dir self) = Some Directory
         ∧ ∀ p, below (temp_dir self) p = true → fs_nodes st' !! p = None)
      ∧ (∀ p, below (temp_dir self) p = false → p ≠ path_str (temp_dir self) →
              fs_nodes st' !! p = fs_nodes st !! p)
      ∧ (∀ atype name,
           let p := path_str (path_join (path_join (path_join (storage_root self) "artifacts")
                                                   atype) name) in
           fs_nodes st' !! p = fs_nodes st !! p)
      ∧ fs_meta st' = fs_meta st ∧ fs_logs st' = fs_logs st
  | (Raises c m, st') =>
      st' = st
      ∧ (c = "OSError" ∨ c = "NotADirectoryError")
      ∧ ∃ n, fs_nodes st !! path_str (temp_dir self) = Some n ∧ n ≠ Directory
  end.
Proof.
  pose proof (cleanup_temp_effect self st) as H.
  destruct (cleanup_temp self st) as [[[]|c m] st'] eqn:Hrun.
  - destruct H as (_ & Hgone & Hkept & Hmeta & Hlogs & _).
    split; [exact Hgone|]. split; [exact Hkept|]. split; [|auto].
    intros atype name p.
    destruct (stored_path_outside_temp self atype name) as [Hout Hne].
    apply Hkept; assumption.
  - destruct H as [-> Hc]. split; [reflexivity|]. split; [exact Hc|].
    revert Hrun. unfold cleanup_temp. destruct (path_exists st _); [|discriminate].
    destruct (fs_nodes st !! _) as [[data| |target]|]; try discriminate;
      intros _; eexists; split; try reflexivity; discriminate.
Qed.

(** X21: Starting a run makes a fresh run the current one - in progress, with
    no inputs and no outputs, its id and start time taken from the two
    sources - whatever run was current before: an earlier run is replaced
    without being ended.  The stored files and records are untouched, and
    with the audit trail enabled one [processing_run]/[start] record is
    written that names the user and the run. *)
Theorem start_processing_run_spec
    (self : Manager) (configuration : option PyVal) (USER : option string)
    (st : State) (conf : JVal) :
  let kept := if py_truthy (default PNone configuration)
              then default PNone configuration else PDict [] in
  py_to_json kept = Ok conf →
  ∃ run st',
    start_processing_run self configuration USER st = Some (Ok run, st')
    ∧ run = ProcessingRun.mk (uuids st (uuid_ix st)) (clock st (clock_ix st)) None
              IN_PROGRESS [] [] kept []
    ∧ current_run st' = Some run
    ∧ fs_nodes st' = fs_nodes st ∧ fs_meta st' = fs_meta st
    ∧ (enable_audit self = false → fs_logs st' = fs_logs st)
    ∧ (enable_audit self = true →
       ∃ prior entry,
         fs_logs st' !! current_log st' = Some (prior ++ [Entry entry])%list
         ∧ k_operation entry = "processing_run" ∧ k_action entry = "start"
         ∧ k_user entry = USER ∧ k_artifact_id entry = None
         ∧ k_success entry = true
         ∧ k_details entry
           = JObj [("run_id", JStr (uuids st (uuid_ix st))); ("configuration", conf)]).
Proof.
  intros kept Hconf. unfold start_processing_run, new_ProcessingRun.
  unfold bind at 1 2. unfold uuid4, now, ret. fold kept. artifact_fields.
  cbn [ProcessingRun.configuration ProcessingRun.run_id]. rewrite Hconf.
  destruct (enable_audit self) eqn:Haudit.
  - match goal with
    | |- context [log_operation self ?o ?a ?i ?u ?m ?d ?s ?e] =>
        match goal with
        | |- context [bind _ _ ?sx] =>
            destruct (log_operation_appends self o a i u m d s e sx)
              as (st' & prior & Hlog & Hlast & Hunt)
        end
    end.
    cbv zeta in Hlog. unfold bind. rewrite Hlog.
    destruct Hunt as (Hnodes & _ & Hmeta & _ & _ & _ & Hrun).
    do 2 eexists. split; [reflexivity|]. split; [reflexivity|].
    split; [rewrite Hrun; reflexivity|]. split; [rewrite Hnodes; reflexivity|].
    split; [rewrite Hmeta; reflexivity|]. split; [discriminate|].
    intros _. exists prior. eexists. split; [exact Hlast|]. repeat split.
  - do 2 eexists. split; [reflexivity|]. split; [reflexivity|].
    split; [reflexivity|]. split; [reflexivity|]. split; [reflexivity|].
    split; [reflexivity | discriminate].
Qed.

(** X22: Ending a run: without a current run nothing happens at all, not even
    the cleaning of the temporary directory.  With one, the run is closed
    with the status given, one [processing_run]/[end] record is written
    (when the audit trail is enabled) whose [success] tells whether the
    status is completed and whose details give the duration from start to
    end and the inputs and outputs, and the manager has no current run
    afterwards; the records and the stored artifact files are untouched.
    If the cleaning of the temporary directory raises, the closed run
    stays the current one. *)
Theorem end_processing_run_spec
    (self : Manager) (final : ArtifactStatus) (USER : option string) (st : State) :
  (current_run st = None → end_processing_run self final USER st = (Returns tt, st))
  ∧ ∀ run, current_run st = Some run →
      let closed :=
        ProcessingRun.mk (ProcessingRun.run_id run) (ProcessingRun.started_at run)
          (Some (clock st (clock_ix st))) final
          (ProcessingRun.input_artifacts run) (ProcessingRun.output_artifacts run)
          (ProcessingRun.configuration run) (ProcessingRun.error_messages run) in
      ∃ r st' logged,
        end_processing_run self final USER st = (r, st')
        ∧ fs_meta st' = fs_meta st
        ∧ (∀ atype name,
             let p := path_str (path_join (path_join (path_join (storage_root self)
                                                                "artifacts") atype) name) in
             fs_nodes st' !! p = fs_nodes st !! p)
        ∧ fs_logs st' = fs_logs logged
        ∧ (enable_audit self = false → fs_logs logged = fs_logs st)
        ∧ (enable_audit self = true →
           ∃ prior entry,
             fs_logs logged !! current_log logged = Some (prior ++ [Entry entry])%list
             ∧ k_operation entry = "processing_run" ∧ k_action entry = "end"
             ∧ k_user entry = USER
             ∧ k_success entry = bool_decide (final = COMPLETED)
             ∧ k_details entry
               = JObj [("run_id", JStr (ProcessingRun.run_id run));
                       ("status", JStr (status_value final));
                       ("duration",
                        JStr (timedelta_str
                                (datetime_sub (clock st (clock_ix st))
                                              (ProcessingRun.started_at run))));
                       ("input_artifacts",
                        JArr (map JStr (ProcessingRun.input_artifacts run)));
                       ("output_artifacts",
                        JArr (map JStr (ProcessingRun.output_artifacts run)))])
        ∧ match r with
          | Returns _ => current_run st' = None
          | Raises c m =>
              auto_cleanup self = true
              ∧ (c = "OSError" ∨ c = "NotADirectoryError")
              ∧ current_run st' = Some closed
          end.
Proof.
  split.
  - intros Hnone. unfold end_processing_run. rewrite Hnone. reflexivity.
  - intros run Hrun closed. unfold end_processing_run. rewrite Hrun.
    unfold complete. unfold bind at 1. unfold now, ret. artifact_fields.
    cbn [ProcessingRun.completed_at ProcessingRun.started_at ProcessingRun.run_id
         ProcessingRun.input_artifacts ProcessingRun.output_artifacts].
    cbv zeta. fold closed.
    match goal with
    | |- context [log_operation self ?o ?a ?i ?u ?m ?d ?s ?e] =>
        match goal with
        | |- context [(if enable_audit self then _ else _) ?sx] =>
            destruct (log_if_enabled self o a i u m d s e sx)
              as (st3 & Hlog & Hunt & Hoff & Hon)
        end
    end.
    unfold ret in Hlog. rewrite Hlog.
    destruct Hunt as (Hnodes & _ & Hmeta & _ & _ & _ & Hrun3).
    assert (Hlogged :
      (enable_audit self = false → fs_logs st3 = fs_logs st)
      ∧ (enable_audit self = true →
         ∃ prior entry,
           fs_logs st3 !! current_log st3 = Some (prior ++ [Entry entry])%list
           ∧ k_operation entry = "processing_run" ∧ k_action entry = "end"
           ∧ k_user entry = USER
           ∧ k_success entry = bool_decide (final = COMPLETED)
           ∧ k_details entry
             = JObj [("run_id", JStr (ProcessingRun.run_id run));
                     ("status", JStr (status_value final));
                     ("duration",
                      JStr (timedelta_str
                              (datetime_sub (clock st (clock_ix st))
                                            (ProcessingRun.started_at run))));
                     ("input_artifacts",
                      JArr (map JStr (ProcessingRun.input_artifacts run)));
                     ("output_artifacts",
                      JArr (map JStr (ProcessingRun.output_artifacts run)))])).
    { split.
      - intros Hno. rewrite (Hoff Hno). reflexivity.
      - intros Hyes. destruct (Hon Hyes) as [prior Hlast].
        exists prior. eexists. split; [exact Hlast|]. repeat split. }
    destruct Hlogged as [Hlogged_off Hlogged_on].
    destruct (auto_cleanup self) eqn:Hauto.
    + pose proof (cleanup_temp_effect self st3) as Hclean.
      destruct (cleanup_temp self st3) as [[[]|c m] st4].
      * destruct Hclean as (_ & _ & Hkept & Hmeta4 & Hlogs4 & _ & _).
        exists (Returns tt), (set_current_run None st4), st3.
        split; [reflexivity|].
        split; [cbn [fs_meta set_current_run]; rewrite Hmeta4, Hmeta; reflexivity|].
        split.
        { intros atype name. cbn [fs_nodes set_current_run].
          destruct (stored_path_outside_temp self atype name) as [Hout Hne].
          rewrite Hkept by assumption. rewrite Hnodes. reflexivity. }
        split; [exact Hlogs4|]. split; [exact Hlogged_off|]. split; [exact Hlogged_on|].
        reflexivity.
      * destruct Hclean as [-> Hc].
        exists (Raises c m), st3, st3.
        split; [reflexivity|]. split; [exact Hmeta|].
        split; [intros atype name; rewrite Hnodes; reflexivity|].
        split; [reflexivity|]. split; [exact Hlogged_off|]. split; [exact Hlogged_on|].
        split; [reflexivity|]. split; [exact Hc|]. rewrite Hrun3. reflexivity.
    + exists (Returns tt), (set_current_run None st3), st3.
      split; [reflexivity|]. split; [exact Hmeta|].
      split; [intros atype name; cbn [fs_nodes set_current_run]; rewrite Hnodes; reflexivity|].
      split; [reflexivity|]. split; [exact Hlogged_off|]. split; [exact Hlogged_on|].
      reflexivity.
Qed.

(** ** The clean-up of old artifacts *)

Lemma follow_removed fuel (nodes nodes' : gmap string node) :
  (∀ k, nodes' !! k = nodes !! k ∨ nodes' !! k = None) →
  ∀ p x, follow fuel nodes' p = Some x → follow fuel nodes p = Some x.
Proof.
  clear sha256_hex line_bytes.
  intros Hsub. induction fuel as [|fuel IH]; intros p x; cbn [follow];
    destruct (Hsub p) as [-> | ->]; try discriminate.
  - destruct (nodes !! p) as [[data| |target]|]; auto.
  - destruct (nodes !! p) as [[data| |target]|]; auto.
Qed.

Lemma path_exists_removed st st' p :
  (∀ k, fs_nodes st' !! k = fs_nodes st !! k ∨ fs_nodes st' !! k = None) →
  path_exists st p = false → path_exists st' p = false.
Proof.
  clear sha256_hex line_bytes.
  intros Hsub. unfold path_exists.
  destruct (follow 40 (fs_nodes st') (path_str p)) as [x|] eqn:Hx; [|reflexivity].
  rewrite (follow_removed 40 _ _ Hsub _ _ Hx). discriminate.
Qed.

Lemma cleanup_logged self (artifact : ArtifactMetadata) st :
  ∃ st',
    (if enable_audit self then
       let! t := now in
       do! log_operation self "artifact_cleanup" "remove_old"
             (Some (artifact_id artifact)) None None
             (Some (JObj [("age_days", JInt (days (datetime_sub t (created_at artifact))))]))
             true None in
       ret tt
     else ret tt) st = (Ok tt, st')
    ∧ fs_nodes st' = fs_nodes st ∧ fs_meta st' = fs_meta st.
Proof.
  destruct (enable_audit self).
  - unfold bind at 1. unfold now.
    match goal with
    | |- context [log_operation self ?o ?a ?i ?u ?m ?d ?s ?e] =>
        destruct (log_operation_appends self o a i u m d s e
                    (set_clock_ix (S (clock_ix st)) st))
          as (st' & prior & Hlog & _ & Hunt)
    end.
    cbv zeta in Hlog. unfold bind. rewrite Hlog.
    exists st'. split; [reflexivity|]. destruct Hunt as (Hnodes & _ & Hmeta & _).
    split; [rewrite Hnodes | rewrite Hmeta]; reflexivity.
  - exists st. auto.
Qed.

Lemma old_file_later cutoff_date a0 rest k :
  old_file cutoff_date rest k → old_file cutoff_date (a0 :: rest) k.
Proof.
  clear sha256_hex line_bytes.
  intros (a & p & Ha & H). exists a, p. split; [right; exact Ha | exact H].
Qed.

Lemma remove_old_spec self cutoff_date : ∀ artifacts n st r st',
  remove_old self cutoff_date artifacts n st = (r, st') →
  fs_meta st' = fs_meta st
  ∧ (∀ k, fs_nodes st' !! k = fs_nodes st !! k
          ∨ (fs_nodes st' !! k = None ∧ old_file cutoff_date artifacts k))
  ∧ ∀ m, r = Ok m →
      (Z.of_nat (size (fs_nodes st')) + (m - n) = Z.of_nat (size (fs_nodes st)))%Z
      ∧ ∀ a p, a ∈ artifacts → dt_ltb (created_at a) cutoff_date = true →
               file_path a = Some p → path_exists st' p = false.
Proof.
  induction artifacts as [|a0 rest IH]; intros n st r st'; cbn [remove_old].
  - intros [= <- <-]. split; [reflexivity|]. split; [auto|].
    intros m [= <-]. split; [lia|]. intros a p Ha. inversion Ha.
  - assert (Hskip : path_exists st <$> (if dt_ltb (created_at a0) cutoff_date
                                        then file_path a0 else None) ≠ Some true →
              remove_old self cutoff_date rest n st = (r, st') →
              fs_meta st' = fs_meta st
              ∧ (∀ k, fs_nodes st' !! k = fs_nodes st !! k
                      ∨ (fs_nodes st' !! k = None
                         ∧ old_file cutoff_date (a0 :: rest) k))
              ∧ ∀ m, r = Ok m →
                  (Z.of_nat (size (fs_nodes st')) + (m - n)
                   = Z.of_nat (size (fs_nodes st)))%Z
                  ∧ ∀ a p, a ∈ a0 :: rest → dt_ltb (created_at a) cutoff_date = true →
                           file_path a = Some p → path_exists st' p = false).
    { intros Hnot Hrun. destruct (IH _ _ _ _ Hrun) as (Hmeta & Hnodes & Hok).
      split; [exact Hmeta|]. split.
      - intros k. destruct (Hnodes k) as [H|[H Hold]]; [left; exact H|].
        right. split; [exact H | apply old_file_later, Hold].
      - intros m Hm. destruct (Hok m Hm) as [Hsize Hgone]. split; [exact Hsize|].
        intros a p Ha Hold Hpath. apply elem_of_cons in Ha as [->|Ha]; [|eauto].
        rewrite Hold, Hpath in Hnot. cbn in Hnot.
        apply (path_exists_removed st).
        + intros k. destruct (Hnodes k) as [H|[H _]]; auto.
        + destruct (path_exists st p); [congruence | reflexivity]. }
    destruct (dt_ltb (created_at a0) cutoff_date) eqn:Hold0;
      [|apply Hskip; discriminate].
    destruct (file_path a0) as [p0|] eqn:Hpath0; [|apply Hskip; discriminate].
    destruct (path_exists st p0) eqn:Hex0; [|apply Hskip; cbn; congruence].
    clear Hskip. unfold Path_unlink.
    destruct (fs_nodes st !! path_str p0) as [node0|] eqn:Hnode0.
    2:{ intros [= <- <-]. split; [reflexivity|]. split; [auto | discriminate]. }
    assert (Hrun : ∀ st2,
              fs_nodes st2 = delete (path_str p0) (fs_nodes st) →
              fs_meta st2 = fs_meta st →
              remove_old self cutoff_date rest (n + 1)%Z st2 = (r, st') →
              fs_meta st' = fs_meta st
              ∧ (∀ k, fs_nodes st' !! k = fs_nodes st !! k
                      ∨ (fs_nodes st' !! k = None
                         ∧ old_file cutoff_date (a0 :: rest) k))
              ∧ ∀ m, r = Ok m →
                  (Z.of_nat (size (fs_nodes st')) + (m - n)
                   = Z.of_nat (size (fs_nodes st)))%Z
                  ∧ ∀ a p, a ∈ a0 :: rest → dt_ltb (created_at a) cutoff_date = true →
                           file_path a = Some p → path_exists st' p = false).
    { intros st2 Hnodes2 Hmeta2 Hrest.
      destruct (IH _ _ _ _ Hrest) as (Hmeta & Hnodes & Hok).
      assert (Hsub : ∀ k, fs_nodes st' !! k = fs_nodes st2 !! k ∨ fs_nodes st' !! k = None)
        by (intros k; destruct (Hnodes k) as [H|[H _]]; auto).
      split; [congruence|]. split.
      - intros k. destruct (Hnodes k) as [H|[H Hold]].
        + rewrite H, Hnodes2. destruct (decide (k = path_str p0)) as [->|Hk].
          * right. split; [apply lookup_delete_eq|].
            exists a0, p0. split; [left|]. auto.
          * left. apply lookup_delete_ne. congruence.
        + right. split; [exact H | apply old_file_later, Hold].
      - intros m Hm. destruct (Hok m Hm) as [Hsize Hgone]. split.
        + rewrite Hnodes2 in Hsize.
          rewrite map_size_delete_Some in Hsize by (rewrite Hnode0; eauto).
          assert (size (fs_nodes st) ≠ 0%nat)
            by (apply (map_size_ne_0_lookup_2 _ (path_str p0)); rewrite Hnode0; eauto).
          lia.
        + intros a p Ha Hold Hpath. apply elem_of_cons in Ha as [->|Ha]; [|eauto].
          assert (p = p0) as -> by congruence.
          apply (path_exists_removed st2 st' p0 Hsub).
          unfold path_exists. rewrite Hnodes2. cbn [follow].
          rewrite lookup_delete_eq. reflexivity. }
    destruct node0 as [data| |target].
    + destruct (cleanup_logged self a0 (unlink p0 st)) as (st2 & -> & Hn2 & Hm2).
      apply Hrun; [rewrite Hn2 | rewrite Hm2]; reflexivity.
    + intros [= <- <-]. split; [reflexivity|]. split; [auto | discriminate].
    + destruct (cleanup_logged self a0 (unlink p0 st)) as (st2 & -> & Hn2 & Hm2).
      apply Hrun; [rewrite Hn2 | rewrite Hm2]; reflexivity.
Qed.

Lemma list_artifacts_ext atype astatus st st' :
  fs_meta st' = fs_meta st →
  ArtifactStorage_list_artifacts atype astatus st'
  = ArtifactStorage_list_artifacts atype astatus st.
Proof.
  intros Hmeta. unfold ArtifactStorage_list_artifacts, glob_json. rewrite Hmeta.
  generalize (@nil ArtifactMetadata).
  induction (map _ _) as [|f rest IH]; intros acc; cbn [list_files]; [reflexivity|].
  rewrite (load_metadata_ext _ st st' Hmeta).
  destruct (load_metadata (stem f) st) as [[a|]|e]; cbn [bind_result]; [|apply IH|reflexivity].
  destruct (_ && _); apply IH.
Qed.

(** X23: The clean-up removes files and nothing but files: no record is removed
    or changed, so the artifacts it has cleaned stay listed, with their
    status and their file path, while their files are gone.  A path is
    removed only if it is the file of a listed artifact created before the
    cut-off date; when the call returns, no such artifact has a file left,
    and the count returned is the number of paths removed. *)
Theorem cleanup_old_artifacts_spec
    (self : Manager) (days_old : Z) (st : State)
    (d : Z) (cutoff_date : datetime) (artifacts : list ArtifactMetadata) :
  timedelta_days days_old = Returns d →
  minus_days (clock st (clock_ix st)) d = Returns cutoff_date →
  ArtifactStorage_list_artifacts None None st = Ok artifacts →
  ∃ r st',
    cleanup_old_artifacts self days_old st = (r, st')
    ∧ fs_meta st' = fs_meta st
    ∧ (∀ id, load_metadata id st' = load_metadata id st)
    ∧ (∀ k, fs_nodes st' !! k = fs_nodes st !! k
            ∨ (fs_nodes st' !! k = None ∧ old_file cutoff_date artifacts k))
    ∧ ∀ removed_count, r = Returns removed_count →
        (Z.of_nat (size (fs_nodes st')) + removed_count = Z.of_nat (size (fs_nodes st)))%Z
        ∧ ∀ a p, a ∈ artifacts → dt_ltb (created_at a) cutoff_date = true →
                 file_path a = Some p → path_exists st' p = false.
Proof.
  intros Hdays Hcut Hlist. unfold cleanup_old_artifacts. rewrite Hdays, Hcut.
  rewrite (list_artifacts_ext None None st (set_clock_ix (S (clock_ix st)) st) eq_refl).
  rewrite Hlist.
  destruct (remove_old self cutoff_date artifacts 0 (set_clock_ix (S (clock_ix st)) st))
    as [r st'] eqn:Hrun.
  destruct (remove_old_spec self cutoff_date _ _ _ _ _ Hrun) as (Hmeta & Hnodes & Hok).
  exists (passed_on r), st'. split; [reflexivity|]. split; [exact Hmeta|].
  split; [intros id; apply load_metadata_ext; exact Hmeta|]. split; [exact Hnodes|].
  intros removed_count Hr. destruct r as [m|e]; [|discriminate Hr]. injection Hr as ->.
  destruct (Hok removed_count eq_refl) as [Hsize Hgone]. split; [|exact Hgone].
  cbn [fs_nodes set_clock_ix] in Hsize. lia.
Qed.

End Pipeline.

(** * The properties on the sample worlds *)

(** ** Creation with a failing store *)

(** The amended C1 at work: the source file is missing, the audit trail
    is enabled. *)
Lemma create_artifact_storage_failure_witness :
  let source := Path_of "/in/missing.mp4" in
  let e := Exn FileNotFoundError "Source file not found: /in/missing.mp4" in
  ∃ artifact st0,
    py_truthy (default PNone None) && negb (is_dict (default PNone None)) = false
    ∧ new_ArtifactMetadata VIDEO_RAW (default [] None) (Some "ingest") None
        (if py_truthy (default PNone None) then default PNone None else PDict [])
        sample_unlogged
      = (Ok artifact, st0)
    ∧ store_artifact sample_sha256 sample_manager source artifact st0
      = (Raise e, artifact, st0)
    ∧ ∃ failed st3 prior entry,
        create_artifact sample_sha256 sample_line_bytes sample_manager VIDEO_RAW
          (Some source) None (Some "ingest") None None sample_unlogged
        = (Raise e, st3)
        ∧ status failed = FAILED
        ∧ error_message failed = Some (exn_str e)
        ∧ fs_logs st3 !! current_log st3 = Some (prior ++ [Entry entry])%list
        ∧ k_operation entry = "artifact_storage"
        ∧ k_action entry = "store"
        ∧ k_success entry = false.
Proof.
  intros source e.
  assert (Hvalid : py_truthy (default PNone None) && negb (is_dict (default PNone None)) = false)
    by reflexivity.
  eexists. eexists.
  split; [exact Hvalid|].
  assert (Hnew : new_ArtifactMetadata VIDEO_RAW (default [] None) (Some "ingest") None
                   (if py_truthy (default PNone None) then default PNone None else PDict [])
                   sample_unlogged
                 = (Ok (mk_artifact "id-0" VIDEO_RAW PENDING (sample_clock 0) (sample_clock 1)
                          [] (Some "ingest") None None None None (PDict []) None),
                    set_clock_ix 2 (set_uuid_ix 1 sample_unlogged)))
    by reflexivity.
  split; [exact Hnew|].
  assert (Hstore : store_artifact sample_sha256 sample_manager source
                     (mk_artifact "id-0" VIDEO_RAW PENDING (sample_clock 0) (sample_clock 1)
                        [] (Some "ingest") None None None None (PDict []) None)
                     (set_clock_ix 2 (set_uuid_ix 1 sample_unlogged))
                   = (Raise e,
                      mk_artifact "id-0" VIDEO_RAW PENDING (sample_clock 0) (sample_clock 1)
                        [] (Some "ingest") None None None None (PDict []) None,
                      set_clock_ix 2 (set_uuid_ix 1 sample_unlogged)))
    by (vm_compute; reflexivity).
  split; [exact Hstore|].
  destruct (create_artifact_storage_failure sample_sha256 sample_line_bytes sample_manager
              VIDEO_RAW source None (Some "ingest") None None sample_unlogged
              _ _ _ _ _ Hvalid Hnew Hstore)
    as (failed & st2 & st3 & _ & _ & Hrun & Hstatus & Hmessage & Haudit & _).
  destruct (Haudit eq_refl) as (prior & entry & Hlast & Hop & Hact & Hsucc & _).
  exists failed, st3, prior, entry. auto 10.
Defined.

(** C1 as stated fails: with the audit trail disabled the store raises,
    the error reaches the caller, and the audit directory stays empty - no
    failure record is written. *)
Lemma storage_failure_unaudited_when_audit_disabled :
  let source := Path_of "/in/missing.mp4" in
  ∃ artifact st0 e st',
    enable_audit sample_unaudited_manager = false
    ∧ new_ArtifactMetadata VIDEO_RAW [] None None (PDict []) sample_unlogged
      = (Ok artifact, st0)
    ∧ store_artifact sample_sha256 sample_unaudited_manager source artifact st0
      = (Raise e, artifact, st0)
    ∧ create_artifact sample_sha256 sample_line_bytes sample_unaudited_manager VIDEO_RAW
        (Some source) None None None None sample_unlogged
      = (Raise e, st')
    ∧ fs_logs sample_unlogged = ∅
    ∧ fs_logs st' = ∅.
Proof.
  intros source. do 4 eexists.
  split; [reflexivity|]. split; [reflexivity|].
  split; [vm_compute; reflexivity|].
  split; [vm_compute; reflexivity|].
  split; reflexivity.
Qed.

(** ** File names *)

(** C2 as stated fails: U+00E9 (e with acute accent) is outside
    [A-Za-z0-9_.-], yet it is a word character and stays in the stored
    name. *)
Lemma safe_filename_keeps_accented_letter :
  spec_safe_char "233"%char = false
  ∧ safe_filename (String "233"%char ".mp4") = String "233"%char ".mp4".
Proof. split; reflexivity. Qed.

Example safe_filename_replaces_space_and_parentheses :
  safe_filename "my clip (1).mp4" = "my_clip__1_.mp4".
Proof. reflexivity. Qed.

(** ** Retrieval *)

(** C3 as stated fails: the record of [altered] exists and the file it
    names exists, yet [retrieve_artifact] returns no path - the status text
    of the record is not a member of the enumeration and the call raises. *)
Lemma retrieve_artifact_raises_on_altered_record :
  fs_meta sample_state !! "altered"
  = Some (MetaDoc (sample_doc "altered" "bogus" [] (Some "/store/kept.mp4") None))
  ∧ path_exists sample_state (Path_of "/store/kept.mp4") = true
  ∧ retrieve_artifact "altered" sample_state
    = Raise (Exn ValueError "'bogus' is not a valid ArtifactStatus").
Proof. repeat split; vm_compute; reflexivity. Qed.

Example retrieve_artifact_found_then_deleted :
  retrieve_artifact "r" sample_state = Ok (Some (Path_of "/store/kept.mp4"))
  ∧ retrieve_artifact "r" (unlink (Path_of "/store/kept.mp4") sample_state) = Ok None
  ∧ retrieve_artifact "nobody" sample_state = Ok None.
Proof. repeat split; vm_compute; reflexivity. Qed.

(** ** Lineage *)

(** C4 at work: the store's cycle of two artifacts, walked from the first;
    the walk leaves the metadata files as they were. *)
Lemma get_artifact_lineage_terminates_and_guards_cycles_witness :
  ∃ st',
    get_artifact_lineage sample_line_bytes sample_manager "a" sample_unlogged
    = Some (Ok (lineage "a" "video_raw" "completed" "2024-11-01T09:30:00" (Some "ingest")
                  [lineage "b" "video_raw" "completed" "2024-11-01T09:30:00" (Some "ingest")
                     [circular_reference "a"]]),
            st')
    ∧ fs_meta st' = fs_meta sample_unlogged.
Proof.
  destruct (get_artifact_lineage_terminates_and_guards_cycles
              sample_line_bytes sample_manager "a" sample_unlogged)
    as (r & st' & Hrun & Hmeta & _ & _ & _ & _ & Hcycle).
  exists st'. split; [|exact Hmeta]. rewrite Hrun. f_equal. f_equal.
  match eval vm_compute in
        (load_metadata "a" sample_unlogged, load_metadata "b" sample_unlogged) with
  | (Ok (Some ?a), Ok (Some ?b)) =>
      rewrite (Hcycle a b "b");
        [ reflexivity
        | vm_compute; reflexivity
        | reflexivity
        | discriminate
        | vm_compute; reflexivity
        | reflexivity ]
  end.
Defined.

Example lineage_of_a_two_cycle :
  ∃ st',
    get_artifact_lineage sample_line_bytes sample_manager "a" sample_unlogged
    = Some (Ok (lineage "a" "video_raw" "completed" "2024-11-01T09:30:00" (Some "ingest")
                  [lineage "b" "video_raw" "completed" "2024-11-01T09:30:00" (Some "ingest")
                     [circular_reference "a"]]),
            st').
Proof. eexists. vm_compute. reflexivity. Qed.

(** The shared ancestor of a diamond is expanded under the first branch
    and is a circular-reference leaf under the second. *)
Example lineage_of_a_diamond :
  ∃ st',
    get_artifact_lineage sample_line_bytes sample_unaudited_manager "d" sample_unlogged
    = Some (Ok (lineage "d" "video_raw" "completed" "2024-11-01T09:30:00" (Some "ingest")
                  [lineage "b1" "video_raw" "completed" "2024-11-01T09:30:00" (Some "ingest")
                     [lineage "r" "video_raw" "completed" "2024-11-01T09:30:00"
                        (Some "ingest") []];
                   lineage "c1" "video_raw" "completed" "2024-11-01T09:30:00" (Some "ingest")
                     [circular_reference "r"]]),
            st').
Proof. eexists. vm_compute. reflexivity. Qed.

(** ** Rotation *)


Example three_appends_with_eager_rotation :
  let st := write_entries sample_line_bytes sample_eager_manager
              [sample_entry 1; sample_entry 2; sample_entry 3]
              (snd (AuditTrail_init sample_unlogged)) in
  current_log st = "audit_202411.jsonl"
  ∧ fs_logs st !! "audit_202411.1.jsonl" = Some [Entry (to_dict (sample_entry 1))]
  ∧ fs_logs st !! "audit_202411.2.jsonl" = Some [Entry (to_dict (sample_entry 2))]
  ∧ fs_logs st !! "audit_202411.jsonl" = Some [Entry (to_dict (sample_entry 3))]
  ∧ size (fs_logs st) = 3%nat.
Proof. repeat split; vm_compute; reflexivity. Qed.

Example default_threshold_is_100_megabytes :
  rotation_size_mb sample_manager = 100%Z
  ∧ _should_rotate sample_line_bytes sample_manager sample_state = false.
Proof. split; vm_compute; reflexivity. Qed.

(** ** Status updates *)

(** The amended C6 at work: the failed artifact is set to completed, no
    message supplied. *)
Lemma update_artifact_status_spec_witness :
  ∃ artifact,
    load_metadata "broken" sample_state = Ok (Some artifact)
    ∧ ∃ bag st',
        update_artifact_status sample_line_bytes sample_manager "broken" COMPLETED None
          sample_state
        = (Ok tt, st')
        ∧ fs_meta st'
          = <["broken" := MetaDoc (metadata_dict
                                     (fst (update_status COMPLETED None artifact sample_state))
                                     bag)]> (fs_meta sample_state)
        ∧ updated_at (fst (update_status COMPLETED None artifact sample_state))
          = sample_clock 0
        ∧ dt_leb (updated_at artifact) (sample_clock 0) = true
        ∧ error_message (fst (update_status COMPLETED None artifact sample_state))
          = error_message artifact.
Proof.
  let r := eval vm_compute in (load_metadata "broken" sample_state) in
  match r with Ok (Some ?a) => exists a end.
  assert (Hload : load_metadata "broken" sample_state
                  = Ok (Some (mk_artifact "broken" VIDEO_RAW FAILED
                                (mk_datetime 2024 11 1 9 30 0 0) (mk_datetime 2024 11 1 9 30 5 0)
                                [] (Some "ingest") None None None None (PDict [])
                                (Some "boom"))))
    by (vm_compute; reflexivity).
  split; [exact Hload|].
  destruct (update_artifact_status_spec sample_line_bytes sample_manager "broken" COMPLETED None
              sample_state _ Hload)
    as (bag & st' & Hrun & Hmeta & _ & Hat & _ & Hmsg & _).
  exists bag, st'. split; [exact Hrun|]. split; [exact Hmeta|]. split; [exact Hat|].
  split; [reflexivity | exact Hmsg].
Defined.

(** C6 as stated fails: the update supplies no message, and after it the
    artifact still carries the message of the earlier failure. *)
Lemma error_message_survives_update_without_message :
  ∃ before after,
    load_metadata "broken" sample_state = Ok (Some before)
    ∧ error_message before = Some "boom"
    ∧ load_metadata "broken"
        (snd (update_artifact_status sample_line_bytes sample_manager "broken" COMPLETED None
                sample_state))
      = Ok (Some after)
    ∧ status after = COMPLETED
    ∧ error_message after = Some "boom".
Proof.
  do 2 eexists. split; [vm_compute; reflexivity|]. split; [reflexivity|].
  split; [vm_compute; reflexivity|]. split; reflexivity.
Qed.

(** ** Symbolic links *)

(** C7 at work: the link points to nothing at all. *)
Lemma store_artifact_rejects_symlink_witness :
  fs_nodes sample_state !! path_str (Path_of "/in/link") = Some (Symlink "/gone")
  ∧ fs_nodes sample_state !! "/gone" = None
  ∧ store_artifact sample_sha256 sample_manager (Path_of "/in/link") sample_plain_artifact
      sample_state
    = (Raise (Exn ValueError "Symlinks not allowed for security"),
       sample_plain_artifact, sample_state).
Proof.
  assert (Hlink : fs_nodes sample_state !! path_str (Path_of "/in/link") = Some (Symlink "/gone"))
    by (vm_compute; reflexivity).
  split; [exact Hlink|]. split; [vm_compute; reflexivity|].
  exact (store_artifact_rejects_symlink sample_sha256 sample_manager (Path_of "/in/link")
           "/gone" sample_plain_artifact sample_state Hlink).
Defined.

(** ** Queries *)

(** The amended C8 at work. *)
Lemma query_by_artifact_id_witness :
  "a" ≠ ""
  ∧ get_artifact_history "a" sample_state
    = Ok (filter (fun d => k_artifact_id d = Some "a") (logged_entries sample_state))
  ∧ get_artifact_history "a" sample_state
    = Ok [sample_record "e1" "artifact_creation" (Some "a")]
  ∧ get_artifact_history "" sample_state = Ok (logged_entries sample_state).
Proof.
  assert (Hne : "a" ≠ "") by discriminate.
  split; [exact Hne|].
  destruct (query_by_artifact_id "a" sample_state) as [Hfiltered Hoff].
  destruct (Hfiltered Hne) as (entries & _ & Hhist & Heq & _).
  destruct Hoff as (every & _ & Hevery & Hlogged & _).
  split; [rewrite Hhist, Heq; reflexivity|].
  split; [vm_compute; reflexivity|].
  rewrite Hevery, Hlogged. reflexivity.
Defined.

(** C8 as stated fails: queried with the empty id the filter is off, and
    records with another id and with no id come back. *)
Lemma query_by_empty_artifact_id_returns_all :
  get_artifact_history "" sample_state
  = Ok [sample_record "e1" "artifact_creation" (Some "a");
        sample_record "e2" "processing_run" None;
        sample_record "e3" "artifact_creation" (Some "b")]
  ∧ k_artifact_id (sample_record "e1" "artifact_creation" (Some "a")) ≠ Some ""
  ∧ k_artifact_id (sample_record "e2" "processing_run" None) = None.
Proof. split; [vm_compute; reflexivity|]. split; [discriminate | reflexivity]. Qed.

(** ** Metadata files *)



(** ** Export *)

(** C10 at work: the log has records, none of them as late as 2025. *)
Lemma export_audit_trail_no_entries_witness :
  let late := Some (mk_datetime 2025 1 1 0 0 0 0) in
  let out := Path_of "/tmp/audit_export" in
  query_audit_trail late None None None None None None None None sample_state = Ok []
  ∧ export_audit_trail out late None "csv" sample_state = (Ok out, sample_state)
  ∧ fs_exports sample_state !! path_str out = None
  ∧ export_audit_trail out late None "json" sample_state
    = (Ok out,
       set_fs_exports (<[path_str out := JsonArray []]> (fs_exports sample_state)) sample_state).
Proof.
  intros late out.
  assert (Hnone : query_audit_trail late None None None None None None None None sample_state
                  = Ok [])
    by (vm_compute; reflexivity).
  split; [exact Hnone|].
  destruct (export_audit_trail_no_entries out late None sample_state Hnone) as [Hcsv Hjson].
  split; [exact Hcsv|]. split; [reflexivity | exact Hjson].
Defined.

Example export_rejects_other_formats :
  fst (export_audit_trail (Path_of "/tmp/audit_export") None None "xml" sample_state)
  = Raise (Exn ValueError "Unsupported export format: xml").
Proof. vm_compute. reflexivity. Qed.

(** * The further properties on the sample worlds *)

Arguments Returns {A} a.
Arguments Raises {A} class message.

(** The store fails on the metadata bag: the copy of the file stays in the
    store and the record is left truncated. *)
Lemma store_artifact_failure_cases_witness :
  ∃ e artifact1 st1,
    store_artifact sample_sha256 sample_manager (Path_of "/in/clip 1.mp4")
      sample_unencodable_artifact sample_state
    = (Raise e, artifact1, st1)
    ∧ exn_kind e = TypeError
    ∧ read_bytes st1 (Path_of "/base/storage/artifacts/video_raw/u_clip_1.mp4")
      = Some "frames"
    ∧ fs_meta st1 !! "u" = Some MetaTruncated.
Proof.
  assert (Hrun : store_artifact sample_sha256 sample_manager (Path_of "/in/clip 1.mp4")
                   sample_unencodable_artifact sample_state
                 = (Raise (Exn TypeError "Object of type datetime is not JSON serializable"),
                    snd (fst (store_artifact sample_sha256 sample_manager
                                (Path_of "/in/clip 1.mp4") sample_unencodable_artifact
                                sample_state)),
                    snd (store_artifact sample_sha256 sample_manager
                           (Path_of "/in/clip 1.mp4") sample_unencodable_artifact
                           sample_state)))
    by (vm_compute; reflexivity).
  destruct (store_artifact_failure_cases sample_sha256 sample_manager _ _ _ _ _ _ Hrun)
    as [(_ & _ & [H|[H|H]])|(data & p & _ & _ & _ & _ & _ & Hmeta & _)];
    try discriminate H.
  do 3 eexists. split; [exact Hrun|]. split; [reflexivity|].
  split; [vm_compute; reflexivity|]. rewrite Hmeta. reflexivity.
Defined.

(** A clip is stored: the object returned is completed, the record on disk
    says pending. *)
Lemma create_artifact_with_file_witness :
  ∃ a on_disk st',
    create_artifact sample_sha256 sample_line_bytes sample_manager VIDEO_RAW
      (Some (Path_of "/in/clip 1.mp4")) None (Some "ingest") None None sample_unlogged
    = (Ok a, st')
    ∧ status a = COMPLETED
    ∧ file_path a = Some (Path_of "/base/storage/artifacts/video_raw/id-0_clip_1.mp4")
    ∧ load_metadata "id-0" st' = Ok (Some on_disk)
    ∧ status on_disk = PENDING
    ∧ retrieve_artifact "id-0" st'
      = Ok (Some (Path_of "/base/storage/artifacts/video_raw/id-0_clip_1.mp4")).
Proof.
  destruct (create_artifact_with_file sample_sha256 sample_line_bytes sample_manager VIDEO_RAW
              (Path_of "/in/clip 1.mp4") None (Some "ingest") None None sample_unlogged
              "frames" (JObj [])
              eq_refl eq_refl ltac:(vm_compute; reflexivity) ltac:(vm_compute; reflexivity)
              eq_refl eq_refl)
    as (a & on_disk & st' & Hrun & _ & Hstatus & _ & _ & Hpath & _ & _ & _ & _ & Hload
        & Hpending & _ & _ & _ & Hget).
  exists a, on_disk, st'.
  split; [exact Hrun|]. split; [exact Hstatus|]. split; [exact Hpath|].
  split; [exact Hload|]. split; [exact Hpending | exact Hget].
Defined.

(** An artifact without a file, with a small metadata bag. *)
Lemma create_artifact_without_file_witness :
  ∃ a st',
    create_artifact sample_sha256 sample_line_bytes sample_manager TEXT_DEID None
      (Some ["a"; "b"]) None None (Some (PDict [(KStr "pages", PInt 3)])) sample_unlogged
    = (Ok a, st')
    ∧ status a = COMPLETED
    ∧ load_metadata "id-0" st' = Ok (Some a).
Proof.
  destruct (create_artifact_without_file sample_sha256 sample_line_bytes sample_manager
              TEXT_DEID (Some ["a"; "b"]) None None (Some (PDict [(KStr "pages", PInt 3)]))
              sample_unlogged eq_refl eq_refl eq_refl eq_refl)
    as (a & st' & Hrun & -> & _ & Hload & _).
  do 2 eexists. split; [exact Hrun|]. split; [reflexivity | exact Hload].
Defined.

(** The manager without an audit trail, asked to create an artifact and to
    look one up. *)
Lemma no_audit_writes_when_disabled_witness :
  enable_audit sample_unaudited_manager = false
  ∧ fs_logs (snd (create_artifact sample_sha256 sample_line_bytes sample_unaudited_manager
                    VIDEO_RAW (Some (Path_of "/in/clip 1.mp4")) None None None None
                    sample_state))
    = fs_logs sample_state
  ∧ snd (get_artifact sample_line_bytes sample_unaudited_manager "a" sample_state)
    = sample_state.
Proof.
  destruct (no_audit_writes_when_disabled sample_sha256 sample_line_bytes
              sample_unaudited_manager sample_state eq_refl)
    as (Hcreate & _ & Hget & _).
  split; [reflexivity|]. split; [|apply Hget].
  apply (Hcreate VIDEO_RAW (Some (Path_of "/in/clip 1.mp4")) None None None None).
Defined.

(** The file of [r] exists; the lookup of its path is logged as a
    success. *)
Lemma access_is_audited_witness :
  enable_audit sample_manager = true
  ∧ ∃ st' prior entry,
      get_artifact_file sample_line_bytes sample_manager "r" sample_state
      = (Ok (Some (Path_of "/store/kept.mp4")), st')
      ∧ fs_logs st' !! current_log st' = Some (prior ++ [Entry entry])%list
      ∧ k_action entry = "get_file"
      ∧ k_success entry = true.
Proof.
  split; [reflexivity|].
  destruct (access_is_audited sample_line_bytes sample_manager "r" sample_state eq_refl)
    as (_ & Hfile & _).
  destruct (Hfile (Some (Path_of "/store/kept.mp4")) ltac:(vm_compute; reflexivity))
    as (st' & prior & Hrun & Hlast & _).
  exists st', prior. eexists. split; [exact Hrun|]. split; [exact Hlast|].
  split; reflexivity.
Defined.

(** Nobody is known by the id [nobody]. *)
Lemma unknown_artifact_id_witness :
  fs_meta sample_state !! "nobody" = None
  ∧ update_artifact_status sample_line_bytes sample_manager "nobody" FAILED (Some "lost")
      sample_state
    = (Ok tt, sample_state)
  ∧ ∃ st', get_artifact_lineage sample_line_bytes sample_manager "nobody" sample_state
           = Some (Ok (not_found "nobody"), st').
Proof.
  assert (Hnone : fs_meta sample_state !! "nobody" = None) by (vm_compute; reflexivity).
  destruct (unknown_artifact_id sample_line_bytes sample_manager "nobody" sample_state Hnone)
    as (Hupdate & _ & _ & _ & Hlineage).
  split; [exact Hnone|]. split; [apply Hupdate | exact Hlineage].
Defined.

(** Of the three records of the log, the first two. *)
Lemma query_limit_witness :
  query_audit_trail None None None None None None None None None sample_state
  = Ok [sample_record "e1" "artifact_creation" (Some "a");
        sample_record "e2" "processing_run" None;
        sample_record "e3" "artifact_creation" (Some "b")]
  ∧ query_audit_trail None None None None None None None None (Some 2%Z) sample_state
    = Ok [sample_record "e1" "artifact_creation" (Some "a");
          sample_record "e2" "processing_run" None]
  ∧ query_audit_trail None None None None None None None None (Some (-5)%Z) sample_state
    = Ok [sample_record "e1" "artifact_creation" (Some "a")].
Proof.
  assert (Hall : query_audit_trail None None None None None None None None None sample_state
                 = Ok [sample_record "e1" "artifact_creation" (Some "a");
                       sample_record "e2" "processing_run" None;
                       sample_record "e3" "artifact_creation" (Some "b")])
    by (vm_compute; reflexivity).
  split; [exact Hall|]. split.
  - exact (query_limit None None None None None None None None 2%Z sample_state _ Hall).
  - exact (query_limit None None None None None None None None (-5)%Z sample_state _ Hall).
Defined.

Lemma sample_state_timestamps d :
  d ∈ logged_entries sample_state → is_Some (fromisoformat (k_timestamp d)).
Proof.
  assert (Hlog : logged_entries sample_state
                 = [sample_record "e1" "artifact_creation" (Some "a");
                    sample_record "e2" "processing_run" None;
                    sample_record "e3" "artifact_creation" (Some "b")])
    by (vm_compute; reflexivity).
  rewrite Hlog. intros Hd.
  repeat (apply elem_of_cons in Hd as [->|Hd]; [eexists; vm_compute; reflexivity|]).
  inversion Hd.
Defined.

(** The records of the sample log are all stamped 2024-11-02T08:00:00: a
    range that ends at that instant holds them all. *)
Lemma query_time_range_witness :
  query_audit_trail None (Some (mk_datetime 2024 11 2 8 0 0 0))
    None None None None None None None sample_state
  = Ok [sample_record "e1" "artifact_creation" (Some "a");
        sample_record "e2" "processing_run" None;
        sample_record "e3" "artifact_creation" (Some "b")].
Proof.
  destruct (query_time_range None (Some (mk_datetime 2024 11 2 8 0 0 0)) sample_state
              sample_state_timestamps) as [Hquery _].
  rewrite Hquery. vm_compute. reflexivity.
Defined.



Lemma sample_old_state_decodes id :
  is_Some (fs_meta sample_old_state !! id) →
  ∃ a, load_metadata id sample_old_state = Ok (Some a).
Proof.
  intros [doc Hdoc]. unfold sample_old_state in Hdoc. cbn [fs_meta set_fs_meta] in Hdoc.
  rewrite lookup_insert in Hdoc. case_decide as Hr.
  - subst id. eexists. vm_compute. reflexivity.
  - rewrite lookup_singleton in Hdoc. case_decide as Hb; [|discriminate Hdoc].
    subst id. eexists. vm_compute. reflexivity.
Defined.

(** Of the two records, the one that failed. *)
Lemma list_artifacts_lists_matching_records_witness :
  ∃ l a,
    ArtifactStorage_list_artifacts None (Some FAILED) sample_old_state = Ok l
    ∧ load_metadata "broken" sample_old_state = Ok (Some a)
    ∧ a ∈ l
    ∧ ∀ x, x ∈ l → status x = FAILED.
Proof.
  destruct (list_artifacts_lists_matching_records None (Some FAILED) sample_old_state
              sample_old_state_decodes) as (l & Hl & Hsound & Hcomplete & _).
  assert (Hload : load_metadata "broken" sample_old_state
                  = Ok (Some (mk_artifact "broken" VIDEO_RAW FAILED
                                (mk_datetime 2024 11 1 9 30 0 0) (mk_datetime 2024 11 1 9 30 5 0)
                                [] (Some "ingest") None None None None (PDict [])
                                (Some "boom"))))
    by (vm_compute; reflexivity).
  exists l. eexists. split; [exact Hl|]. split; [exact Hload|]. split.
  - apply (Hcomplete "broken"); [discriminate | reflexivity | exact Hload
                                 | reflexivity | reflexivity].
  - intros x Hx. destruct (Hsound x Hx) as (_ & Hs & _).
    cbn [status_filter] in Hs. apply bool_decide_eq_true in Hs. exact Hs.
Defined.

(** The record of [altered] has a status that is no member's value. *)
Lemma undecodable_record_blocks_listing_witness :
  load_metadata "altered" sample_state
  = Raise (Exn ValueError "'bogus' is not a valid ArtifactStatus")
  ∧ (∃ e, ArtifactStorage_list_artifacts (Some AUDIO_RAW) None sample_state = Raise e)
  ∧ ∃ c m st',
      cleanup_old_artifacts sample_line_bytes sample_manager 30 sample_state
      = (Raises c m, st')
      ∧ fs_nodes st' = fs_nodes sample_state.
Proof.
  assert (Hload : load_metadata "altered" sample_state
                  = Raise (Exn ValueError "'bogus' is not a valid ArtifactStatus"))
    by (vm_compute; reflexivity).
  destruct (undecodable_record_blocks_listing sample_line_bytes sample_manager "altered" _
              sample_state ltac:(discriminate) eq_refl Hload) as (Hlist & _ & Hclean).
  split; [exact Hload|]. split; [apply Hlist|].
  destruct (Hclean 30%Z) as (c & m & st' & Hrun & Hnodes & _). eauto.
Defined.

(** Only [x] carries the id of run 7. *)
Lemma list_artifacts_by_run_id_witness :
  ∃ l x,
    ArtifactStorage_list_artifacts None None sample_run_state = Ok l
    ∧ length l = 2%nat
    ∧ list_artifacts None None (Some "run-7") sample_run_state = Returns [x]
    ∧ artifact_id x = "x".
Proof.
  let l := eval vm_compute in (ArtifactStorage_list_artifacts None None sample_run_state) in
  assert (Hl : ArtifactStorage_list_artifacts None None sample_run_state = l)
    by (vm_compute; reflexivity).
  destruct (list_artifacts_by_run_id None None "run-7" sample_run_state _
              ltac:(discriminate) Hl) as [Hdicts _].
  destruct Hdicts as [Hrun _].
  { intros a Ha.
    repeat (apply elem_of_cons in Ha as [->|Ha]; [reflexivity|]). inversion Ha. }
  do 2 eexists. split; [exact Hl|]. split; [vm_compute; reflexivity|].
  split; [rewrite Hrun; vm_compute; reflexivity | reflexivity].
Defined.

(** The artifact [r] is linked to two sources, twice. *)
Lemma link_artifacts_appends_sources_witness :
  ∃ st1 st2 once twice,
    link_artifacts sample_line_bytes sample_manager ["a"; "b"] "r" "derived_from" sample_state
    = (Ok tt, st1)
    ∧ load_metadata "r" st1 = Ok (Some once)
    ∧ source_artifacts once = ["a"; "b"]
    ∧ link_artifacts sample_line_bytes sample_manager ["a"; "b"] "r" "derived_from" st1
      = (Ok tt, st2)
    ∧ load_metadata "r" st2 = Ok (Some twice)
    ∧ source_artifacts twice = ["a"; "b"; "a"; "b"].
Proof.
  assert (Hload : load_metadata "r" sample_state
                  = Ok (Some (mk_artifact "r" VIDEO_RAW COMPLETED
                                (mk_datetime 2024 11 1 9 30 0 0) (mk_datetime 2024 11 1 9 30 5 0)
                                [] (Some "ingest") None (Some (Path_of "/store/kept.mp4"))
                                None None (PDict []) None)))
    by (vm_compute; reflexivity).
  destruct (link_artifacts_appends_sources sample_line_bytes sample_manager ["a"; "b"] "r"
              "derived_from" sample_state _ Hload eq_refl eq_refl)
    as (st1 & st2 & once & twice & H1 & L1 & S1 & _ & _ & _ & _ & _ & _ & _ & H2 & L2 & S2).
  exists st1, st2, once, twice. auto 10.
Defined.

(** Three failures: two of [artifact_storage], one without a module, one
    message. *)
Lemma get_error_summary_counts_witness :
  ∃ errors s,
    query_audit_trail None None None None None None None (Some false) None
      sample_failures_state = Ok errors
    ∧ get_error_summary None None sample_failures_state = Ok s
    ∧ total_errors s = 3%Z
    ∧ errors_by_operation s !! "artifact_storage" = Some 2%Z
    ∧ errors_by_module s !! None = Some 1%Z
    ∧ errors_by_module s !! Some "unknown" = None
    ∧ unique_error_messages s = ["disk full"].
Proof.
  assert (Hq : query_audit_trail None None None None None None None (Some false) None
                 sample_failures_state
               = Ok [sample_failure "f1" "artifact_storage" (Some "ingest") (Some "disk full");
                     sample_failure "f2" "artifact_storage" None None;
                     sample_failure "f3" "artifact_update" (Some "ingest")
                       (Some "disk full")])
    by (vm_compute; reflexivity).
  destruct (get_error_summary_counts None None sample_failures_state _ Hq)
    as (s & Hs & _).
  pose proof Hs as Hs2. unfold get_error_summary in Hs2. rewrite Hq in Hs2.
  cbn [bind_result] in Hs2. injection Hs2 as <-.
  do 2 eexists. split; [exact Hq|]. split; [exact Hs|].
  repeat split; vm_compute; reflexivity.
Defined.

(** A run is started with a small configuration. *)
Lemma start_processing_run_spec_witness :
  ∃ run st',
    start_processing_run sample_line_bytes sample_manager
      (Some (PDict [(KStr "fps", PInt 25)])) (Some "kb") sample_unlogged
    = Some (Ok run, st')
    ∧ ProcessingRun.run_id run = "id-0"
    ∧ current_run st' = Some run
    ∧ ∃ prior entry,
        fs_logs st' !! current_log st' = Some (prior ++ [Entry entry])%list
        ∧ k_action entry = "start"
        ∧ k_user entry = Some "kb".
Proof.
  destruct (start_processing_run_spec sample_line_bytes sample_manager
              (Some (PDict [(KStr "fps", PInt 25)])) (Some "kb") sample_unlogged
              (JObj [("fps", JInt 25)]) eq_refl)
    as (run & st' & Hrun & -> & Hcur & _ & _ & _ & Hlog).
  destruct (Hlog eq_refl) as (prior & entry & Hlast & _ & Hact & Huser & _).
  do 2 eexists. split; [exact Hrun|]. split; [reflexivity|]. split; [exact Hcur|].
  exists prior, entry. auto.
Defined.

(** The artifact [r] is three days old, [broken] has no file: one file is
    removed. *)
Lemma cleanup_old_artifacts_spec_witness :
  ∃ st',
    cleanup_old_artifacts sample_line_bytes sample_manager 1 sample_old_state
    = (Returns 1%Z, st')
    ∧ fs_meta st' = fs_meta sample_old_state
    ∧ path_exists sample_old_state (Path_of "/store/kept.mp4") = true
    ∧ path_exists st' (Path_of "/store/kept.mp4") = false
    ∧ retrieve_artifact "r" st' = Ok None.
Proof.
  let l := eval vm_compute in (ArtifactStorage_list_artifacts None None sample_old_state) in
  assert (Hlist : ArtifactStorage_list_artifacts None None sample_old_state = l)
    by (vm_compute; reflexivity).
  destruct (cleanup_old_artifacts_spec sample_line_bytes sample_manager 1 sample_old_state
              1 (mk_datetime 2024 11 3 12 0 0 0) _ eq_refl
              ltac:(vm_compute; reflexivity) Hlist)
    as (r & st' & Hrun & Hmeta & Hload & _ & Hok).
  assert (Hr : fst (cleanup_old_artifacts sample_line_bytes sample_manager 1 sample_old_state)
               = Returns 1%Z)
    by (vm_compute; reflexivity).
  rewrite Hrun in Hr. cbn [fst] in Hr. subst r. destruct (Hok 1%Z eq_refl) as [_ Hgone].
  assert (Hfile : path_exists st' (Path_of "/store/kept.mp4") = false).
  { apply (Hgone (mk_artifact "r" VIDEO_RAW COMPLETED
                    (mk_datetime 2024 11 1 9 30 0 0) (mk_datetime 2024 11 1 9 30 5 0)
                    [] (Some "ingest") None (Some (Path_of "/store/kept.mp4"))
                    None None (PDict []) None)).
    - first [left | right; left].
    - reflexivity.
    - reflexivity. }
  exists st'. split; [exact Hrun|]. split; [exact Hmeta|].
  split; [vm_compute; reflexivity|]. split; [exact Hfile|].
  unfold retrieve_artifact. rewrite Hload.
  replace (load_metadata "r" sample_old_state)
    with (Ok (Some (mk_artifact "r" VIDEO_RAW COMPLETED
                      (mk_datetime 2024 11 1 9 30 0 0) (mk_datetime 2024 11 1 9 30 5 0)
                      [] (Some "ingest") None (Some (Path_of "/store/kept.mp4"))
                      None None (PDict []) None)))
    by (vm_compute; reflexivity).
  cbn [bind_result file_path]. rewrite Hfile. reflexivity.
Defined.

(** ** The temporary directory and the end of a run on a sample world *)

Example cleanup_temp_removes_scratch_files_only :
  let st := set_fs_nodes
              (<["/base/storage/temp" := Directory]>
                 (<["/base/storage/temp/frames/0001.png" := RegularFile "png"]>
                    (<["/base/storage/artifacts/video_raw/id_clip.mp4" := RegularFile "mp4"]>
                       (fs_nodes sample_state))))
              sample_state in
  let st' := snd (cleanup_temp sample_manager st) in
  fst (cleanup_temp sample_manager st) = Returns tt
  ∧ fs_nodes st' !! "/base/storage/temp/frames/0001.png" = None
  ∧ fs_nodes st' !! "/base/storage/temp" = Some Directory
  ∧ fs_nodes st' !! "/base/storage/artifacts/video_raw/id_clip.mp4"
    = Some (RegularFile "mp4")
  ∧ fs_nodes st' !! "/in/clip 1.mp4" = Some (RegularFile "frames").
Proof.
  intros st st'.
  split; [vm_compute; reflexivity|]. split; [vm_compute; reflexivity|].
  split; [vm_compute; reflexivity|]. split; vm_compute; reflexivity.
Qed.

Example a_run_from_start_to_end :
  let st1 :=
    match start_processing_run sample_line_bytes sample_manager None None sample_unlogged with
    | Some (_, st) => st
    | None => sample_unlogged
    end in
  let st2 := snd (create_artifact sample_sha256 sample_line_bytes sample_manager TEXT_RAW
                    None None None None None st1) in
  let st3 := snd (end_processing_run sample_line_bytes sample_manager COMPLETED None st2) in
  (ProcessingRun.run_id <$> current_run st1) = Some "id-0"
  ∧ (ProcessingRun.output_artifacts <$> current_run st2) = Some ["id-2"]
  ∧ fst (end_processing_run sample_line_bytes sample_manager COMPLETED None st2) = Returns tt
  ∧ current_run st3 = None
  ∧ fs_logs st3
    = fs_logs (snd (end_processing_run sample_line_bytes sample_manager COMPLETED None st3)).
Proof.
  intros st1 st2 st3.
  split; [vm_compute; reflexivity|]. split; [vm_compute; reflexivity|].
  split; [vm_compute; reflexivity|]. split; vm_compute; reflexivity.
Qed.
